(** * Cuboid surface areas on an OpenCL device: a model of [main.c]

    The program fills three arrays with pseudo-random edge lengths, computes
    the surface area of every cuboid once on an OpenCL device and once in a
    host loop, times both and prints a sample.  The development below embeds
    [main] as a program in a small state-and-exit monad over an explicit
    world (host arrays, libc generator state, the OpenCL runtime, the log of
    calls issued, the text printed) and proves properties of it. *)

From Stdlib Require Import ZArith Lia.
From stdpp Require Import base option list gmap strings.

Open Scope Z_scope.

(** ** C [int] arithmetic (32 bits, two's complement) *)

Definition INT_MIN : Z := -2147483648.
Definition INT_MAX : Z := 2147483647.

(** Reduction of an exact result to the 32-bit signed range. *)
Definition wrap_int (z : Z) : Z := (z + 2147483648) mod 4294967296 - 2147483648.

Definition int_add (x y : Z) : Z := wrap_int (x + y).
Definition int_sub (x y : Z) : Z := wrap_int (x - y).
Definition int_mul (x y : Z) : Z := wrap_int (x * y).

(** C's [%] truncates towards zero. *)
Definition int_rem (x y : Z) : Z := Z.rem x y.

(** The strict reading of the same operators: a result outside the range of
    [int] is an overflow and has no value. *)
Definition in_int_range (z : Z) : bool := (INT_MIN <=? z) && (z <=? INT_MAX).

Definition checked (z : Z) : option Z := if in_int_range z then Some z else None.

Definition checked_add (x y : option Z) : option Z :=
  x' ← x; y' ← y; checked (x' + y').
Definition checked_mul (x y : option Z) : option Z :=
  x' ← x; y' ← y; checked (x' * y').

(** ** Sizes of the C types involved (ILP32 / LP64, the ABIs of OpenCL hosts) *)

Definition sizeof_int : Z := 4.
Definition sizeof_float : Z := 4.
Definition sizeof_cl_uint : Z := 4.
Definition sizeof_long : Z := 8.
Definition sizeof_cl_mem : Z := 8.

(** ** Constants of [stdlib.h] and [CL/cl.h] *)

Definition EXIT_FAILURE : Z := 1.
Definition RAND_MAX : Z := 2147483647.
Definition NULL : Z := 0.

Definition CL_SUCCESS : Z := 0.
Definition CL_TRUE : Z := 1.
Definition CL_DEVICE_TYPE_CPU : Z := 2.
Definition CL_DEVICE_TYPE_GPU : Z := 4.
Definition CL_DEVICE_TYPE : Z := 4096.
Definition CL_DEVICE_MAX_COMPUTE_UNITS : Z := 4098.
Definition CL_PROGRAM_BUILD_LOG : Z := 4483.
Definition CL_MEM_WRITE_ONLY : Z := 2.
Definition CL_MEM_READ_ONLY : Z := 4.

(** ** Globals of [main.c] *)

Definition LENGTH : Z := 1024 * 1024 * 75.

(** The kernel source handed to the OpenCL compiler, one entry per line of
    the C literal, trailing blanks dropped.  Its meaning is [cuboid_area]
    below. *)
Definition OpenCL_code : list string :=
  [ "";
    "__kernel void cuboid_area(";
    "   __global int* a,";
    "   __global int* b,";
    "   __global int* c,";
    "   __global int* result)";
    "{";
    "   int i = get_global_id(0);";
    "   result[i] = 2 * ((a[i] * b[i]) + (b[i] * c[i]) +  (a[i] * c[i]));";
    "}";
    "" ]%string.

(** ** Values of type [double]

    Floating-point arithmetic is left uninterpreted: a [double] is either a
    reading of the timer or a difference or quotient of two doubles. *)
Inductive double :=
| DReading (ticks : Z)
| DSub (x y : double)
| DDiv (x y : double).

(** Arguments of a [printf] call. [PErrCode e] stands for the string
    [err_code(e)] of [err_code.h]. *)
Inductive printf_arg :=
| PInt (z : Z)
| PDouble (d : double)
| PString (s : string)
| PErrCode (e : Z).

(** A line of output: the format string as spelled in the C source
    (escapes such as [\n] are kept as written) and its arguments. *)
Definition printed : Type := string * list printf_arg.

(** ** Host arrays *)

Inductive host_array :=
| source_a | source_b | source_c | result_opencl | result_sequential.

#[global] Instance host_array_eq_dec : EqDecision host_array.
Proof. solve_decision. Defined.

(** The five heap blocks of [main].  [free] ends the life of a block but
    does not erase it: the block is listed in [h_freed] and its last
    contents stay in place; any later access through [load] or [store]
    is undefined. *)
Record host_memory := {
  h_source_a : list Z;
  h_source_b : list Z;
  h_source_c : list Z;
  h_result_opencl : list Z;
  h_result_sequential : list Z;
  h_freed : list host_array
}.

Definition array_of (x : host_array) (h : host_memory) : list Z :=
  match x with
  | source_a => h_source_a h
  | source_b => h_source_b h
  | source_c => h_source_c h
  | result_opencl => h_result_opencl h
  | result_sequential => h_result_sequential h
  end.

Definition set_array (x : host_array) (v : list Z) (h : host_memory) : host_memory :=
  match x with
  | source_a =>
      {| h_source_a := v; h_source_b := h_source_b h; h_source_c := h_source_c h;
         h_result_opencl := h_result_opencl h;
         h_result_sequential := h_result_sequential h; h_freed := h_freed h |}
  | source_b =>
      {| h_source_a := h_source_a h; h_source_b := v; h_source_c := h_source_c h;
         h_result_opencl := h_result_opencl h;
         h_result_sequential := h_result_sequential h; h_freed := h_freed h |}
  | source_c =>
      {| h_source_a := h_source_a h; h_source_b := h_source_b h; h_source_c := v;
         h_result_opencl := h_result_opencl h;
         h_result_sequential := h_result_sequential h; h_freed := h_freed h |}
  | result_opencl =>
      {| h_source_a := h_source_a h; h_source_b := h_source_b h;
         h_source_c := h_source_c h; h_result_opencl := v;
         h_result_sequential := h_result_sequential h; h_freed := h_freed h |}
  | result_sequential =>
      {| h_source_a := h_source_a h; h_source_b := h_source_b h;
         h_source_c := h_source_c h; h_result_opencl := h_result_opencl h;
         h_result_sequential := v; h_freed := h_freed h |}
  end.

Definition mark_freed (x : host_array) (h : host_memory) : host_memory :=
  {| h_source_a := h_source_a h; h_source_b := h_source_b h;
     h_source_c := h_source_c h; h_result_opencl := h_result_opencl h;
     h_result_sequential := h_result_sequential h; h_freed := h_freed h ++ [x] |}.

Definition is_live (x : host_array) (h : host_memory) : bool :=
  bool_decide (x ∉ h_freed h).

Definition empty_host : host_memory :=
  {| h_source_a := []; h_source_b := []; h_source_c := []; h_result_opencl := [];
     h_result_sequential := []; h_freed := [] |}.

(** ** The OpenCL device *)

(** Commands waiting in the in-order queue.  Only the kernel launch is
    enqueued without blocking; it carries the argument bindings in force
    when it was enqueued. *)
Inductive command :=
| CmdNDRangeKernel (kernel : Z) (args : list (option Z)) (global : nat).

Record device_state := {
  dev_next : Z;                      (* next fresh object handle *)
  dev_buffers : gmap Z (list Z);     (* buffer handle -> its 32-bit cells *)
  dev_args : gmap (Z * Z) Z;         (* (kernel, index) -> bound buffer *)
  dev_queue : list command           (* enqueued, not yet executed *)
}.

Definition empty_device : device_state :=
  {| dev_next := 1; dev_buffers := ∅; dev_args := ∅; dev_queue := [] |}.

(** The kernel of [OpenCL_code], for the work item with global id [i]:
    [result[i] = 2 * ((a[i] * b[i]) + (b[i] * c[i]) + (a[i] * c[i]))].
    A work item whose index is outside one of the buffers has no effect. *)
Definition cuboid_area (a b c result : Z) (i : nat)
    (mem : gmap Z (list Z)) : gmap Z (list Z) :=
  match mem !! a ≫= (.!! i), mem !! b ≫= (.!! i), mem !! c ≫= (.!! i) with
  | Some ai, Some bi, Some ci =>
      alter
        (<[i := int_mul 2 (int_add (int_add (int_mul ai bi) (int_mul bi ci))
                                   (int_mul ai ci))]>)
        result mem
  | _, _, _ => mem
  end.

(** A 1-D launch runs one work item per global id below [global]. *)
Definition run_ndrange (item : nat → gmap Z (list Z) → gmap Z (list Z))
    (global : nat) (mem : gmap Z (list Z)) : gmap Z (list Z) :=
  fold_left (λ m i, item i m) (seq 0 global) mem.

Definition exec_command (c : command) (mem : gmap Z (list Z)) : gmap Z (list Z) :=
  match c with
  | CmdNDRangeKernel _ [Some a; Some b; Some c; Some r] global =>
      run_ndrange (cuboid_area a b c r) global mem
  | CmdNDRangeKernel _ _ _ => mem
  end.

(** Retire every queued command, in enqueue order. *)
Definition flush (d : device_state) : device_state :=
  {| dev_next := dev_next d;
     dev_buffers := fold_left (λ m c, exec_command c m) (dev_queue d) (dev_buffers d);
     dev_args := dev_args d;
     dev_queue := [] |}.

(** ** The world outside the program *)

(** Calls that leave the program: the OpenCL API and the timer.  A creation
    call is logged with the handle it returned ([NULL] when it failed). *)
Inductive event :=
| EvGetPlatformIDs (num_entries : Z)
| EvGetDeviceIDs (platform device_type num_entries : Z)
| EvGetDeviceInfo (device param size : Z)
| EvCreateContext (device ret : Z)
| EvCreateCommandQueue (context device ret : Z)
| EvCreateProgramWithSource (context : Z) (source : list string) (ret : Z)
| EvBuildProgram (program : Z)
| EvGetProgramBuildInfo (program device param size : Z)
| EvCreateKernel (program : Z) (name : string) (ret : Z)
| EvCreateBuffer (context flags size ret : Z)
| EvEnqueueWriteBuffer (queue buffer blocking offset size : Z) (src : host_array)
| EvSetKernelArg (kernel index size value : Z)
| EvEnqueueNDRangeKernel (queue kernel work_dim global : Z)
| EvFinish (queue : Z)
| EvEnqueueReadBuffer (queue buffer blocking offset size : Z) (dst : host_array)
| EvReleaseMemObject (memobj : Z)
| EvReleaseProgram (program : Z)
| EvReleaseKernel (kernel : Z)
| EvReleaseCommandQueue (queue : Z)
| EvReleaseContext (context : Z)
| EvWtime.

#[global] Instance event_eq_dec : EqDecision event.
Proof. solve_decision. Defined.

(** Everything the run does not decide itself. *)
Record environment := {
  rand_impl : Z → Z * Z;         (* libc generator: state -> (value, next state) *)
  clock : nat → Z;               (* reading of the k-th call of wtime *)
  cl_status : nat → Z;           (* status of the k-th OpenCL call *)
  cl_platforms : list Z;         (* installed platforms, in enumeration order *)
  cl_device_of : Z → Z → Z;      (* platform, device type -> device handle *)
  cl_device_info : Z → Z → Z;    (* device, parameter -> value *)
  cl_build_log : string;         (* compiler diagnostics *)
  cl_uninit : Z → nat → Z        (* contents of a fresh buffer: handle, cell *)
}.

Record world := {
  w_rand : Z;                    (* state of the libc generator *)
  w_clock : nat;                 (* timer readings taken so far *)
  w_calls : nat;                 (* OpenCL calls issued so far *)
  w_trace : list event;          (* calls issued, oldest first *)
  w_stdout : list printed;
  w_stderr : list printed;
  w_host : host_memory;
  w_dev : device_state
}.

(** The world a process starts in.  No [srand] has run, so the generator is
    in the state [srand(1)] would leave it in. *)
Definition initial_world : world :=
  {| w_rand := 1; w_clock := 0; w_calls := 0; w_trace := []; w_stdout := [];
     w_stderr := []; w_host := empty_host; w_dev := empty_device |}.

Definition set_rand (s : Z) (w : world) : world :=
  {| w_rand := s; w_clock := w_clock w; w_calls := w_calls w; w_trace := w_trace w;
     w_stdout := w_stdout w; w_stderr := w_stderr w; w_host := w_host w;
     w_dev := w_dev w |}.

Definition set_host (h : host_memory) (w : world) : world :=
  {| w_rand := w_rand w; w_clock := w_clock w; w_calls := w_calls w;
     w_trace := w_trace w; w_stdout := w_stdout w; w_stderr := w_stderr w;
     w_host := h; w_dev := w_dev w |}.

Definition set_dev (d : device_state) (w : world) : world :=
  {| w_rand := w_rand w; w_clock := w_clock w; w_calls := w_calls w;
     w_trace := w_trace w; w_stdout := w_stdout w; w_stderr := w_stderr w;
     w_host := w_host w; w_dev := d |}.

Definition put_stdout (p : printed) (w : world) : world :=
  {| w_rand := w_rand w; w_clock := w_clock w; w_calls := w_calls w;
     w_trace := w_trace w; w_stdout := w_stdout w ++ [p]; w_stderr := w_stderr w;
     w_host := w_host w; w_dev := w_dev w |}.

Definition put_stderr (p : printed) (w : world) : world :=
  {| w_rand := w_rand w; w_clock := w_clock w; w_calls := w_calls w;
     w_trace := w_trace w; w_stdout := w_stdout w; w_stderr := w_stderr w ++ [p];
     w_host := w_host w; w_dev := w_dev w |}.

(** Append lines to the standard output. *)
Definition put_lines (ls : list printed) (w : world) : world :=
  {| w_rand := w_rand w; w_clock := w_clock w; w_calls := w_calls w;
     w_trace := w_trace w; w_stdout := w_stdout w ++ ls; w_stderr := w_stderr w;
     w_host := w_host w; w_dev := w_dev w |}.

(** Log an OpenCL call. *)
Definition log_call (e : event) (w : world) : world :=
  {| w_rand := w_rand w; w_clock := w_clock w; w_calls := S (w_calls w);
     w_trace := w_trace w ++ [e]; w_stdout := w_stdout w; w_stderr := w_stderr w;
     w_host := w_host w; w_dev := w_dev w |}.

(** Log a reading of the timer. *)
Definition log_wtime (w : world) : world :=
  {| w_rand := w_rand w; w_clock := S (w_clock w); w_calls := w_calls w;
     w_trace := w_trace w ++ [EvWtime]; w_stdout := w_stdout w;
     w_stderr := w_stderr w; w_host := w_host w; w_dev := w_dev w |}.

(** ** The monad of [main]: state, early exit, undefined behaviour *)

Inductive outcome (A : Type) :=
| Ret (a : A)          (* the computation goes on with [a] *)
| Exit (code : Z)      (* the process has ended with this status *)
| Undef.               (* an access outside a live host array, or another
                          step whose behaviour C leaves undefined *)
Arguments Ret {A} a.
Arguments Exit {A} code.
Arguments Undef {A}.

Definition M (A : Type) : Type := environment → world → outcome A * world.

#[global] Instance M_ret : MRet M := λ A a _ w, (Ret a, w).

#[global] Instance M_bind : MBind M := λ A B f m E w,
  match m E w with
  | (Ret a, w') => f a E w'
  | (Exit c, w') => (Exit c, w')
  | (Undef, w') => (Undef, w')
  end.

(** [exit(code)], and [return code] out of [main]. *)
Definition exit {A} (code : Z) : M A := λ _ w, (Exit code, w).

(** A step whose behaviour C leaves undefined. *)
Definition undefined {A} : M A := λ _ w, (Undef, w).

(** [for (int i = lo; i < lo + count; i++) body(i)] *)
Fixpoint for_range (lo count : nat) (body : nat → M unit) : M unit :=
  match count with
  | O => mret tt
  | S k => body lo ;; for_range (S lo) k body
  end.

(** ** libc *)

(** [x = calloc(nmemb, size)].  When the allocation is granted, [x] is a
    zeroed block of [nmemb * size] bytes, that is [nmemb * size / sizeof_int]
    cells.  When it is not, [calloc] returns [NULL]: [x] has no cell, and any
    access through it is undefined.  [main] does not test the result. *)
Definition calloc (granted : bool) (x : host_array) (nmemb size : Z) : M unit :=
  λ _ w,
  (Ret tt,
   set_host
     (set_array x
        (if granted then replicate (Z.to_nat (nmemb * size / sizeof_int)) 0 else [])
        (w_host w))
     w).

Definition free (x : host_array) : M unit := λ _ w,
  (Ret tt, set_host (mark_freed x (w_host w)) w).

(** [x[i]] *)
Definition load (x : host_array) (i : nat) : M Z := λ _ w,
  if is_live x (w_host w) then
    match array_of x (w_host w) !! i with
    | Some v => (Ret v, w)
    | None => (Undef, w)
    end
  else (Undef, w).

(** [x[i] = v] *)
Definition store (x : host_array) (i : nat) (v : Z) : M unit := λ _ w,
  if is_live x (w_host w) && bool_decide (i < length (array_of x (w_host w)))%nat then
    (Ret tt, set_host (set_array x (<[i := v]> (array_of x (w_host w))) (w_host w)) w)
  else (Undef, w).

Definition rand : M Z := λ E w,
  (Ret (rand_impl E (w_rand w)).1, set_rand (rand_impl E (w_rand w)).2 w).

Definition printf (fmt : string) (args : list printf_arg) : M unit := λ _ w,
  (Ret tt, put_stdout (fmt, args) w).

(** Modelled from the spec: [wtime] of [wtime.c], which is not part of the
    sources at hand.  [main.c] declares it as returning the "time since some
    fixed past point" and the spec calls it wall-clock time: each call
    yields the next reading of the environment's clock. *)
Definition wtime : M double := λ E w,
  (Ret (DReading (clock E (w_clock w))), log_wtime w).

(** Modelled from the spec: [checkError] of [err_code.h], which is not part
    of the sources at hand.  "Every device-API call's status is checked
    immediately after the call; any non-success status is fatal to the run";
    the failure is "reported to the user (error description + underlying
    status code) and the process terminates with a failure exit code". *)
Definition checkError (err : Z) (operation : string) : M unit :=
  if err =? CL_SUCCESS then mret tt
  else (λ _ w, (Ret tt, put_stderr (operation, [PErrCode err; PInt err]) w)) ;;
       exit EXIT_FAILURE.

(** ** The OpenCL runtime

    Every call is logged and takes its status from the environment.  A call
    that fails has no other effect.  Handles of created objects are drawn
    from the counter [dev_next]; the device cells are 32-bit integers, so a
    buffer of [size] bytes has [size / sizeof_int] cells. *)

Definition status_now (E : environment) (w : world) : Z := cl_status E (w_calls w).

Definition cells_of (size : Z) : nat := Z.to_nat (size / sizeof_int).

Definition next_handle (d : device_state) : device_state :=
  {| dev_next := dev_next d + 1; dev_buffers := dev_buffers d;
     dev_args := dev_args d; dev_queue := dev_queue d |}.

Definition set_buffers (m : gmap Z (list Z)) (d : device_state) : device_state :=
  {| dev_next := dev_next d; dev_buffers := m; dev_args := dev_args d;
     dev_queue := dev_queue d |}.

Definition set_args (m : gmap (Z * Z) Z) (d : device_state) : device_state :=
  {| dev_next := dev_next d; dev_buffers := dev_buffers d; dev_args := m;
     dev_queue := dev_queue d |}.

Definition enqueue (c : command) (d : device_state) : device_state :=
  {| dev_next := dev_next d; dev_buffers := dev_buffers d; dev_args := dev_args d;
     dev_queue := dev_queue d ++ [c] |}.

(** [clGetPlatformIDs(0, NULL, &numPlatforms)] *)
Definition clGetPlatformIDs_count : M (Z * Z) := λ E w,
  (Ret (status_now E w, Z.of_nat (length (cl_platforms E))),
   log_call (EvGetPlatformIDs 0) w).

(** [clGetPlatformIDs(num_entries, Platform, NULL)] *)
Definition clGetPlatformIDs (num_entries : Z) : M (Z * list Z) := λ E w,
  (Ret (status_now E w, take (Z.to_nat num_entries) (cl_platforms E)),
   log_call (EvGetPlatformIDs num_entries) w).

(** [clGetDeviceIDs(platform, device_type, num_entries, &device_id, NULL)]:
    [device_id] is overwritten on success only. *)
Definition clGetDeviceIDs (platform device_type num_entries device_id : Z)
    : M (Z * Z) := λ E w,
  let err := status_now E w in
  (Ret (err, if err =? CL_SUCCESS then cl_device_of E platform device_type
             else device_id),
   log_call (EvGetDeviceIDs platform device_type num_entries) w).

(** [clGetDeviceInfo(device, param, size, &value, NULL)] *)
Definition clGetDeviceInfo (device param size : Z) : M (Z * Z) := λ E w,
  (Ret (status_now E w, cl_device_info E device param),
   log_call (EvGetDeviceInfo device param size) w).

(** Creation of an object without contents: context, queue, program, kernel. *)
Definition create_object (ev : Z → event) : M (Z * Z) := λ E w,
  let err := status_now E w in
  if err =? CL_SUCCESS then
    (Ret (dev_next (w_dev w), err),
     log_call (ev (dev_next (w_dev w))) (set_dev (next_handle (w_dev w)) w))
  else (Ret (NULL, err), log_call (ev NULL) w).

Definition clCreateContext (device : Z) : M (Z * Z) :=
  create_object (EvCreateContext device).

Definition clCreateCommandQueue (context device : Z) : M (Z * Z) :=
  create_object (EvCreateCommandQueue context device).

Definition clCreateProgramWithSource (context : Z) (source : list string)
    : M (Z * Z) :=
  create_object (EvCreateProgramWithSource context source).

Definition clCreateKernel (program : Z) (name : string) : M (Z * Z) :=
  create_object (EvCreateKernel program name).

Definition clBuildProgram (program : Z) : M Z := λ E w,
  (Ret (status_now E w), log_call (EvBuildProgram program) w).

(** [clGetProgramBuildInfo(program, device, param, size, buffer, &len)].
    A local array such as [char buffer[2048]] is [None] until something has
    been written to it.  The call writes the log, with its terminating NUL,
    when it succeeds, and it cannot succeed when the log does not fit in
    [size] bytes; otherwise it leaves [buffer] as it was.  Yields the
    contents of [buffer]; [main] ignores the status. *)
Definition clGetProgramBuildInfo (program device param size : Z)
    (buffer : option string) : M (option string) := λ E w,
  (Ret (if (status_now E w =? CL_SUCCESS)
           && (Z.of_nat (String.length (cl_build_log E)) <? size)
        then Some (cl_build_log E) else buffer),
   log_call (EvGetProgramBuildInfo program device param size) w).

(** [clCreateBuffer(context, flags, size, NULL, &err)] *)
Definition clCreateBuffer (context flags size : Z) : M (Z * Z) := λ E w,
  let err := status_now E w in
  let d := w_dev w in
  let h := dev_next d in
  if err =? CL_SUCCESS then
    (Ret (h, err),
     log_call (EvCreateBuffer context flags size h)
       (set_dev
          (next_handle
             (set_buffers
                (<[h := cl_uninit E h <$> seq 0 (cells_of size)]> (dev_buffers d))
                d))
          w))
  else (Ret (NULL, err), log_call (EvCreateBuffer context flags size NULL) w).

(** Overwrite the cells [off .. off + n) of [old] with the first [n] of [new]. *)
Definition blit (off n : nat) (new old : list Z) : list Z :=
  take off old ++ take n new ++ drop (off + n) old.

(** [clEnqueueWriteBuffer(queue, buffer, CL_TRUE, offset, size, src, 0, NULL,
    NULL)], the blocking transfer: the queue is drained, then [size] bytes of
    the host array are copied into the buffer.  Reading past the end of the
    host array, or from a freed one, is undefined. *)
Definition clEnqueueWriteBuffer (queue buffer blocking offset size : Z)
    (src : host_array) : M Z := λ E w,
  let err := status_now E w in
  let w' := log_call (EvEnqueueWriteBuffer queue buffer blocking offset size src) w in
  if err =? CL_SUCCESS then
    let host := array_of src (w_host w) in
    if is_live src (w_host w) && bool_decide (cells_of size ≤ length host)%nat then
      let d := flush (w_dev w) in
      (Ret err,
       set_dev
         (set_buffers
            (alter (blit (cells_of offset) (cells_of size) host) buffer (dev_buffers d))
            d)
         w')
    else (Undef, w')
  else (Ret err, w').

(** [clSetKernelArg(kernel, index, sizeof(cl_mem), &value)] *)
Definition clSetKernelArg (kernel index size value : Z) : M Z := λ E w,
  let err := status_now E w in
  let w' := log_call (EvSetKernelArg kernel index size value) w in
  if err =? CL_SUCCESS then
    (Ret err,
     set_dev (set_args (<[(kernel, index) := value]> (dev_args (w_dev w))) (w_dev w)) w')
  else (Ret err, w').

(** [clEnqueueNDRangeKernel(queue, kernel, 1, NULL, &global, NULL, 0, NULL,
    NULL)]: the launch is queued with the bindings of arguments 0 to 3. *)
Definition clEnqueueNDRangeKernel (queue kernel work_dim global : Z) : M Z :=
  λ E w,
  let err := status_now E w in
  let w' := log_call (EvEnqueueNDRangeKernel queue kernel work_dim global) w in
  if err =? CL_SUCCESS then
    let d := w_dev w in
    (Ret err,
     set_dev
       (enqueue
          (CmdNDRangeKernel kernel
             ((λ k, dev_args d !! (kernel, k)) <$> [0; 1; 2; 3])
             (Z.to_nat global))
          d)
       w')
  else (Ret err, w').

(** [clFinish(queue)] returns once every queued command has retired. *)
Definition clFinish (queue : Z) : M Z := λ E w,
  let err := status_now E w in
  let w' := log_call (EvFinish queue) w in
  if err =? CL_SUCCESS then (Ret err, set_dev (flush (w_dev w)) w')
  else (Ret err, w').

(** [clEnqueueReadBuffer(queue, buffer, CL_TRUE, offset, size, dst, 0, NULL,
    NULL)], blocking: the queue is drained, then [size] bytes of the buffer
    are copied over the start of the host array.  Writing past the end of
    the host array, or into a freed one, is undefined. *)
Definition clEnqueueReadBuffer (queue buffer blocking offset size : Z)
    (dst : host_array) : M Z := λ E w,
  let err := status_now E w in
  let w' := log_call (EvEnqueueReadBuffer queue buffer blocking offset size dst) w in
  if err =? CL_SUCCESS then
    let host := array_of dst (w_host w) in
    if is_live dst (w_host w) && bool_decide (cells_of size ≤ length host)%nat then
      let d := flush (w_dev w) in
      let cells := default [] (dev_buffers d !! buffer) in
      (Ret err,
       set_host
         (set_array dst
            (blit 0 (cells_of size) (drop (cells_of offset) cells) host)
            (w_host w))
         (set_dev d w'))
    else (Undef, w')
  else (Ret err, w').

(** The release calls; [main] ignores their status. *)
Definition clReleaseMemObject (memobj : Z) : M Z := λ E w,
  let err := status_now E w in
  let w' := log_call (EvReleaseMemObject memobj) w in
  if err =? CL_SUCCESS then
    (Ret err,
     set_dev (set_buffers (delete memobj (dev_buffers (w_dev w))) (w_dev w)) w')
  else (Ret err, w').

Definition release_object (e : event) : M Z := λ E w,
  (Ret (status_now E w), log_call e w).

Definition clReleaseProgram (program : Z) : M Z :=
  release_object (EvReleaseProgram program).
Definition clReleaseKernel (kernel : Z) : M Z :=
  release_object (EvReleaseKernel kernel).
Definition clReleaseCommandQueue (queue : Z) : M Z :=
  release_object (EvReleaseCommandQueue queue).
Definition clReleaseContext (context : Z) : M Z :=
  release_object (EvReleaseContext context).

(** ** [main]

    The element count is a parameter of the blocks below; [main] runs them
    at [LENGTH].  Comments give the lines of [main.c]. *)

(** Lines 79-84: fill the three vectors with random integer values. *)
Definition fill_vectors (N : Z) : M unit :=
  for_range 0 (Z.to_nat N) (λ i,
    r ← rand; store source_a i (int_add (int_rem r 9) 1) ;;
    r ← rand; store source_b i (int_add (int_rem r 9) 1) ;;
    r ← rand; store source_c i (int_add (int_rem r 9) 1)).

(** Lines 104-112: ask each platform in turn for one GPU, stop at the first
    that has one.  Yields the last status and [device_id]. *)
Fixpoint secure_gpu_loop (Platform : list Z) (err device_id : Z) : M (Z * Z) :=
  match Platform with
  | [] => mret (err, device_id)
  | p :: rest =>
      '(err, device_id) ← clGetDeviceIDs p CL_DEVICE_TYPE_GPU 1 device_id;
      if err =? CL_SUCCESS then mret (err, device_id)
      else secure_gpu_loop rest err device_id
  end.

(** Lines 104-115: "Secure a GPU". *)
Definition secure_gpu (Platform : list Z) (err device_id : Z) : M Z :=
  '(err, device_id) ← secure_gpu_loop Platform err device_id;
  (if device_id =? NULL then checkError err "Finding a device" else mret tt) ;;
  mret device_id.

(** Lines 86-115: set up platform and GPU device. *)
Definition select_device : M Z :=
  let device_id := NULL in
  '(err, numPlatforms) ← clGetPlatformIDs_count;
  checkError err "Finding platforms" ;;
  if numPlatforms =? 0 then
    printf "Found 0 platforms!\n" [] ;; exit EXIT_FAILURE
  else
    '(err, Platform) ← clGetPlatformIDs numPlatforms;
    checkError err "Getting platforms" ;;
    secure_gpu Platform err device_id.

(** Lines 225-229: the sequential computation. *)
Definition sequential (N : Z) : M unit :=
  for_range 0 (Z.to_nat N) (λ i,
    a1 ← load source_a i; b1 ← load source_b i;
    b2 ← load source_b i; c2 ← load source_c i;
    a3 ← load source_a i; c3 ← load source_c i;
    store result_sequential i
      (int_mul 2 (int_add (int_add (int_mul a1 b1) (int_mul b2 c2)) (int_mul a3 c3)))).

(** Lines 237-246: print the first hundred items. *)
Definition print_result : M unit :=
  for_range 0 100 (λ i,
    a ← load source_a i; b ← load source_b i; c ← load source_c i;
    o ← load result_opencl i; s ← load result_sequential i;
    printf "a=%d\tb=%d\tc=%d\t\topencl=%d\t\tseq=%d\n"
      [PInt a; PInt b; PInt c; PInt o; PInt s]).

(** Lines 172-223: device buffers, upload, launch, timing, readback.
    Yields the four buffers and the time reported for the kernel. *)
Definition compute_on_device (N context commands kernel_cuboid_area : Z)
    : M (Z * Z * Z * Z * double) :=
  (* Create the input and output arrays in device memory *)
  '(d_a, err) ← clCreateBuffer context CL_MEM_READ_ONLY (sizeof_float * N);
  checkError err "Creating buffer d_a" ;;
  '(d_b, err) ← clCreateBuffer context CL_MEM_READ_ONLY (sizeof_float * N);
  checkError err "Creating buffer d_b" ;;
  '(d_c, err) ← clCreateBuffer context CL_MEM_READ_ONLY (sizeof_float * N);
  checkError err "Creating buffer d_c" ;;
  '(d_result, err) ← clCreateBuffer context CL_MEM_WRITE_ONLY (sizeof_float * N);
  checkError err "Creating buffer d_result" ;;
  (* Write the vectors into compute device memory *)
  err ← clEnqueueWriteBuffer commands d_a CL_TRUE 0 (sizeof_float * N) source_a;
  checkError err "Copying source_a to device at d_a" ;;
  err ← clEnqueueWriteBuffer commands d_b CL_TRUE 0 (sizeof_float * N) source_b;
  checkError err "Copying source_b to device at d_b" ;;
  err ← clEnqueueWriteBuffer commands d_c CL_TRUE 0 (sizeof_float * N) source_c;
  checkError err "Copying source_c to device at d_c" ;;
  (* Set the arguments to our compute kernel *)
  err ← clSetKernelArg kernel_cuboid_area 0 sizeof_cl_mem d_a;
  e1 ← clSetKernelArg kernel_cuboid_area 1 sizeof_cl_mem d_b;
  let err := Z.lor err e1 in
  e2 ← clSetKernelArg kernel_cuboid_area 2 sizeof_cl_mem d_c;
  let err := Z.lor err e2 in
  e3 ← clSetKernelArg kernel_cuboid_area 3 sizeof_cl_mem d_result;
  let err := Z.lor err e3 in
  checkError err "Setting kernel arguments" ;;
  cl_time ← wtime;
  (* Execute the kernel over the entire range of the 1d input data set *)
  let global := N in
  err ← clEnqueueNDRangeKernel commands kernel_cuboid_area 1 global;
  checkError err "Enqueueing kernel" ;;
  (* Wait for the commands to complete before stopping the timer *)
  err ← clFinish commands;
  checkError err "Waiting for kernel to finish" ;;
  t ← wtime;
  let cl_time := DSub t cl_time in
  printf "\nThe OpenCL kernel ran in %lf seconds\n" [PDouble cl_time] ;;
  (* Read back the results from the compute device *)
  err ← clEnqueueReadBuffer commands d_result CL_TRUE 0 (sizeof_float * N)
          result_opencl;
  (if negb (err =? CL_SUCCESS) then
     printf "Error: Failed to read output array!\n%s\n" [PErrCode err] ;; exit 1
   else mret tt) ;;
  mret (d_a, d_b, d_c, d_result, cl_time).

(** Lines 117-266: everything [main] does once it holds a device. *)
Definition run_on_device (N device_id : Z) : M Z :=
  (* Get device type *)
  '(err, device_type) ← clGetDeviceInfo device_id CL_DEVICE_TYPE sizeof_long;
  (if negb (err =? CL_SUCCESS) then
     printf "Error: Failed to access device type information!\n" [] ;;
     exit EXIT_FAILURE
   else mret tt) ;;
  (if device_type =? CL_DEVICE_TYPE_GPU then printf "Device type: GPU \n" []
   else if device_type =? CL_DEVICE_TYPE_CPU then printf "Device type: CPU \n" []
   else printf "Device type: Not CPU nor GPU \n" []) ;;
  (* Get total compute units *)
  '(err, comp_units) ←
    clGetDeviceInfo device_id CL_DEVICE_MAX_COMPUTE_UNITS sizeof_cl_uint;
  (if negb (err =? CL_SUCCESS) then
     printf "Error: Failed to access device number of compute units !\n" [] ;;
     exit EXIT_FAILURE
   else mret tt) ;;
  (* the [cl_uint] has been stored in an [int] *)
  let comp_units := wrap_int comp_units in
  printf "Total compute units: %d compute units \n" [PInt comp_units] ;;
  (* Create a compute context *)
  '(context, err) ← clCreateContext device_id;
  checkError err "Creating context" ;;
  (* Create a command queue *)
  '(commands, err) ← clCreateCommandQueue context device_id;
  checkError err "Creating command queue" ;;
  (* Create the compute program from the source buffer *)
  '(program, err) ← clCreateProgramWithSource context OpenCL_code;
  checkError err "Creating program" ;;
  (* Build the program *)
  err ← clBuildProgram program;
  (if negb (err =? CL_SUCCESS) then
     let buffer := None in
     printf "Error: Failed to build program executable!\n%s\n" [PErrCode err] ;;
     buffer ← clGetProgramBuildInfo program device_id CL_PROGRAM_BUILD_LOG 2048 buffer;
     match buffer with
     | Some log => printf "%s\n" [PString log]
     | None => undefined            (* [printf] of an array never written *)
     end ;;
     exit EXIT_FAILURE
   else mret tt) ;;
  (* Create the compute kernel from the program *)
  '(kernel_cuboid_area, err) ← clCreateKernel program "cuboid_area";
  checkError err "Creating kernel" ;;
  (* Lines 172-223 *)
  '(d_a, d_b, d_c, d_result, cl_time) ←
    compute_on_device N context commands kernel_cuboid_area;
  (* Sequential testing *)
  seq_time ← wtime;
  sequential N ;;
  t ← wtime;
  let seq_time := DSub t seq_time in
  printf "The sequential code ran in %lf seconds\n\n" [PDouble seq_time] ;;
  let ratio := DDiv seq_time cl_time in
  printf "The sequential time is %lfX of the OpenCL time\n\n" [PDouble ratio] ;;
  (* Print Result *)
  print_result ;;
  printf "... %d more items\n" [PInt (int_sub N 100)] ;;
  (* cleanup then shutdown *)
  clReleaseMemObject d_a ;;
  clReleaseMemObject d_b ;;
  clReleaseMemObject d_c ;;
  clReleaseProgram program ;;
  clReleaseKernel kernel_cuboid_area ;;
  clReleaseCommandQueue commands ;;
  clReleaseContext context ;;
  free source_a ;;
  free source_b ;;
  free source_c ;;
  free result_opencl ;;
  free result_sequential ;;
  printf "\n" [] ;;
  mret 0.

(** Lines 54-267, on a machine that grants the allocations of the arrays
    [x] with [granted x = true]. *)
Definition main_on (granted : host_array → bool) (N : Z) : M Z :=
  calloc (granted source_a) source_a N sizeof_int ;;
  calloc (granted source_b) source_b N sizeof_int ;;
  calloc (granted source_c) source_c N sizeof_int ;;
  calloc (granted result_opencl) result_opencl N sizeof_int ;;
  calloc (granted result_sequential) result_sequential N sizeof_int ;;
  fill_vectors N ;;
  device_id ← select_device;
  run_on_device N device_id.

(** Lines 54-267 when the five arrays exist. *)
Definition main_body (N : Z) : M Z := main_on (λ _, true) N.

Definition main : M Z := main_body LENGTH.

(** A run of the program from process start, with memory for the five
    arrays. *)
Definition run (E : environment) : outcome Z * world := main E initial_world.

(** A run of the program from process start on a machine that grants the
    allocations [granted]. *)
Definition run_on (granted : host_array → bool) (E : environment)
    : outcome Z * world :=
  main_on granted LENGTH E initial_world.

(** * Vocabulary of the statements *)

(** Cell [i] of the result for the input arrays [la], [lb], [lc]. *)
Definition area_cell (la lb lc : list Z) (i : nat) : Z :=
  int_mul 2 (int_add (int_add (int_mul (la !!! i) (lb !!! i))
                              (int_mul (lb !!! i) (lc !!! i)))
                     (int_mul (la !!! i) (lc !!! i))).

(** State of the libc generator after [k] calls of [rand]. *)
Fixpoint rand_state (E : environment) (k : nat) (s : Z) : Z :=
  match k with
  | O => s
  | S k' => (rand_impl E (rand_state E k' s)).2
  end.

(** Value returned by call number [k] (from 0) of [rand]. *)
Definition rand_value (E : environment) (s : Z) (k : nat) : Z :=
  (rand_impl E (rand_state E k s)).1.

(** [(rand() % 9) + 1] *)
Definition edge (r : Z) : Z := int_add (int_rem r 9) 1.

(** Element [i] of the vector filled by draw [off] of each iteration. *)
Definition drawn (E : environment) (s : Z) (off i : nat) : Z :=
  edge (rand_value E s (3 * i + off)).

(** Host memory after [k] iterations of the filling loop started with the
    generator in state [s]. *)
Definition fill_host (E : environment) (s : Z) (k : nat) (h : host_memory)
    : host_memory :=
  set_array source_c ((drawn E s 2 <$> seq 0 k) ++ drop k (h_source_c h))
    (set_array source_b ((drawn E s 1 <$> seq 0 k) ++ drop k (h_source_b h))
       (set_array source_a ((drawn E s 0 <$> seq 0 k) ++ drop k (h_source_a h)) h)).

(** The world after [k] iterations of the filling loop. *)
Definition fill_world (E : environment) (w : world) (k : nat) : world :=
  set_rand (rand_state E (3 * k) (w_rand w))
    (set_host (fill_host E (w_rand w) k (w_host w)) w).

(** The world after [k] iterations of the sequential loop. *)
Definition sequential_world (w : world) (k : nat) : world :=
  set_host
    (set_array result_sequential
       ((area_cell (h_source_a (w_host w)) (h_source_b (w_host w))
                   (h_source_c (w_host w)) <$> seq 0 k)
        ++ drop k (h_result_sequential (w_host w)))
       (w_host w))
    w.

(** The line printed for item [i]. *)
Definition sample_line (h : host_memory) (i : nat) : printed :=
  ("a=%d\tb=%d\tc=%d\t\topencl=%d\t\tseq=%d\n"%string,
   [PInt (h_source_a h !!! i); PInt (h_source_b h !!! i); PInt (h_source_c h !!! i);
    PInt (h_result_opencl h !!! i); PInt (h_result_sequential h !!! i)]).

(** Calls of lines 172-223 when each succeeds; [h] is the first free
    handle. *)
Definition compute_trace (N context commands kernel h : Z) : list event :=
  [ EvCreateBuffer context CL_MEM_READ_ONLY (sizeof_float * N) h;
    EvCreateBuffer context CL_MEM_READ_ONLY (sizeof_float * N) (h + 1);
    EvCreateBuffer context CL_MEM_READ_ONLY (sizeof_float * N) (h + 2);
    EvCreateBuffer context CL_MEM_WRITE_ONLY (sizeof_float * N) (h + 3);
    EvEnqueueWriteBuffer commands h CL_TRUE 0 (sizeof_float * N) source_a;
    EvEnqueueWriteBuffer commands (h + 1) CL_TRUE 0 (sizeof_float * N) source_b;
    EvEnqueueWriteBuffer commands (h + 2) CL_TRUE 0 (sizeof_float * N) source_c;
    EvSetKernelArg kernel 0 sizeof_cl_mem h;
    EvSetKernelArg kernel 1 sizeof_cl_mem (h + 1);
    EvSetKernelArg kernel 2 sizeof_cl_mem (h + 2);
    EvSetKernelArg kernel 3 sizeof_cl_mem (h + 3);
    EvWtime;
    EvEnqueueNDRangeKernel commands kernel 1 N;
    EvFinish commands;
    EvWtime;
    EvEnqueueReadBuffer commands (h + 3) CL_TRUE 0 (sizeof_float * N) result_opencl ].

(** Time reported for the kernel when the timer has been read [k] times
    before. *)
Definition kernel_time (E : environment) (k : nat) : double :=
  DSub (DReading (clock E (S k))) (DReading (clock E k)).

(** The world after lines 172-223 when each call succeeds, on the device
    state [d]. *)
Definition computed_world (E : environment) (N context commands kernel : Z)
    (w : world) (d : device_state) : world :=
  {| w_rand := w_rand w;
     w_clock := S (S (w_clock w));
     w_calls := 14 + w_calls w;
     w_trace := w_trace w
                ++ compute_trace N context commands kernel (dev_next (w_dev w));
     w_stdout := w_stdout w
                 ++ [("\nThe OpenCL kernel ran in %lf seconds\n"%string,
                      [PDouble (kernel_time E (w_clock w))])];
     w_stderr := w_stderr w;
     w_host := set_array result_opencl
                 (area_cell (h_source_a (w_host w)) (h_source_b (w_host w))
                            (h_source_c (w_host w)) <$> seq 0 (Z.to_nat N))
                 (w_host w);
     w_dev := d |}.

(** The line printed for a device of type [device_type]. *)
Definition device_type_line (device_type : Z) : printed :=
  if device_type =? CL_DEVICE_TYPE_GPU then ("Device type: GPU \n"%string, [])
  else if device_type =? CL_DEVICE_TYPE_CPU then ("Device type: CPU \n"%string, [])
  else ("Device type: Not CPU nor GPU \n"%string, []).

(** Calls of lines 117-170 when each succeeds; [h] is the first free handle. *)
Definition setup_trace (device_id h : Z) : list event :=
  [ EvGetDeviceInfo device_id CL_DEVICE_TYPE sizeof_long;
    EvGetDeviceInfo device_id CL_DEVICE_MAX_COMPUTE_UNITS sizeof_cl_uint;
    EvCreateContext device_id h;
    EvCreateCommandQueue h device_id (h + 1);
    EvCreateProgramWithSource h OpenCL_code (h + 2);
    EvBuildProgram (h + 2);
    EvCreateKernel (h + 2) "cuboid_area" (h + 3) ].

(** Calls of lines 249-256. *)
Definition cleanup_trace (h : Z) : list event :=
  [ EvReleaseMemObject (h + 4);
    EvReleaseMemObject (h + 5);
    EvReleaseMemObject (h + 6);
    EvReleaseProgram (h + 2);
    EvReleaseKernel (h + 3);
    EvReleaseCommandQueue (h + 1);
    EvReleaseContext h ].

(** Every call of lines 117-266 on a run that reaches the end. *)
Definition device_trace (N device_id h : Z) : list event :=
  setup_trace device_id h
  ++ compute_trace N h (h + 1) (h + 3) (h + 4)
  ++ [EvWtime; EvWtime]
  ++ cleanup_trace h.

(** Time reported for the sequential loop when the timer had been read [k]
    times before the kernel was timed. *)
Definition sequential_time (E : environment) (k : nat) : double :=
  DSub (DReading (clock E (S (S (S k))))) (DReading (clock E (S (S k)))).

(** The surface areas of the cuboids held in [h]. *)
Definition areas (N : Z) (h : host_memory) : list Z :=
  area_cell (h_source_a h) (h_source_b h) (h_source_c h) <$> seq 0 (Z.to_nat N).

(** Host memory when [main] returns. *)
Definition final_host (N : Z) (h : host_memory) : host_memory :=
  {| h_source_a := h_source_a h; h_source_b := h_source_b h;
     h_source_c := h_source_c h; h_result_opencl := areas N h;
     h_result_sequential := areas N h;
     h_freed := [source_a; source_b; source_c; result_opencl; result_sequential] |}.

(** Standard output of lines 117-266 on a run that reaches the end. *)
Definition report (E : environment) (N device_id : Z) (k : nat) (h : host_memory)
    : list printed :=
  [ device_type_line (cl_device_info E device_id CL_DEVICE_TYPE);
    ("Total compute units: %d compute units \n"%string,
     [PInt (wrap_int (cl_device_info E device_id CL_DEVICE_MAX_COMPUTE_UNITS))]);
    ("\nThe OpenCL kernel ran in %lf seconds\n"%string, [PDouble (kernel_time E k)]);
    ("The sequential code ran in %lf seconds\n\n"%string,
     [PDouble (sequential_time E k)]);
    ("The sequential time is %lfX of the OpenCL time\n\n"%string,
     [PDouble (DDiv (sequential_time E k) (kernel_time E k))]) ]
  ++ (sample_line (final_host N h) <$> seq 0 100)
  ++ [ ("... %d more items\n"%string, [PInt (int_sub N 100)]);
       ("\n"%string, []) ].

(** The world in which [main] returns 0 when it was handed [device_id] in
    the world [w]. *)
Definition finished_world (E : environment) (N device_id : Z) (w : world)
    (d : device_state) : world :=
  {| w_rand := w_rand w;
     w_clock := 4 + w_clock w;
     w_calls := 28 + w_calls w;
     w_trace := w_trace w ++ device_trace N device_id (dev_next (w_dev w));
     w_stdout := w_stdout w ++ report E N device_id (w_clock w) (w_host w);
     w_stderr := w_stderr w;
     w_host := final_host N (w_host w);
     w_dev := d |}.

(** Log several OpenCL calls at once. *)
Definition log_calls (es : list event) (w : world) : world :=
  {| w_rand := w_rand w; w_clock := w_clock w; w_calls := length es + w_calls w;
     w_trace := w_trace w ++ es; w_stdout := w_stdout w; w_stderr := w_stderr w;
     w_host := w_host w; w_dev := w_dev w |}.

(** The request for one GPU made to platform [p]. *)
Definition gpu_request (p : Z) : event := EvGetDeviceIDs p CL_DEVICE_TYPE_GPU 1.

(** The world after lines 56-84: arrays allocated and filled. *)
Definition filled_world (E : environment) (N : Z) : world :=
  {| w_rand := rand_state E (3 * Z.to_nat N) 1;
     w_clock := 0; w_calls := 0; w_trace := []; w_stdout := []; w_stderr := [];
     w_host :=
       {| h_source_a := drawn E 1 0 <$> seq 0 (Z.to_nat N);
          h_source_b := drawn E 1 1 <$> seq 0 (Z.to_nat N);
          h_source_c := drawn E 1 2 <$> seq 0 (Z.to_nat N);
          h_result_opencl := replicate (Z.to_nat N) 0;
          h_result_sequential := replicate (Z.to_nat N) 0;
          h_freed := [] |};
     w_dev := empty_device |}.

(** The world after lines 56-84 when only the allocations [granted] have
    succeeded, those of the three inputs among them. *)
Definition filled_world_on (granted : host_array → bool) (E : environment) (N : Z)
    : world :=
  {| w_rand := rand_state E (3 * Z.to_nat N) 1;
     w_clock := 0; w_calls := 0; w_trace := []; w_stdout := []; w_stderr := [];
     w_host :=
       {| h_source_a := drawn E 1 0 <$> seq 0 (Z.to_nat N);
          h_source_b := drawn E 1 1 <$> seq 0 (Z.to_nat N);
          h_source_c := drawn E 1 2 <$> seq 0 (Z.to_nat N);
          h_result_opencl :=
            if granted result_opencl then replicate (Z.to_nat N) 0 else [];
          h_result_sequential :=
            if granted result_sequential then replicate (Z.to_nat N) 0 else [];
          h_freed := [] |};
     w_dev := empty_device |}.

(** The calls of device selection when platform number [j] is the first to
    hand out a GPU. *)
Definition selection_trace (E : environment) (j : nat) : list event :=
  [ EvGetPlatformIDs 0; EvGetPlatformIDs (Z.of_nat (length (cl_platforms E))) ]
  ++ (gpu_request <$> take (S j) (cl_platforms E)).

(** Index of the first platform whose request for a GPU succeeds.  The two
    calls of [clGetPlatformIDs] come first, so platform [i] is asked by
    call number [2 + i]. *)
Definition found_gpu (E : environment) : option nat :=
  fst <$> list_find (λ i, cl_status E (2 + i)%nat = CL_SUCCESS)
                    (seq 0 (length (cl_platforms E))).

(** Every status that [main] checks is [CL_SUCCESS]: both platform queries,
    the request to some platform, and the 21 calls from the first
    [clGetDeviceInfo] to [clEnqueueReadBuffer].  These are exactly the
    environments in which the run returns 0 ([run_returns_0_iff]). *)
Definition accepts (E : environment) : bool :=
  bool_decide (cl_status E 0 = CL_SUCCESS)
  && bool_decide (cl_status E 1 = CL_SUCCESS)
  && match found_gpu E with
     | Some j => forallb (λ i, cl_status E (i + (3 + j))%nat =? CL_SUCCESS) (seq 0 21)
     | None => false
     end.

(** The cuboid formula under the strict reading of [int]. *)
Definition checked_area (a b c : Z) : option Z :=
  checked_mul (Some 2)
    (checked_add (checked_add (checked_mul (Some a) (Some b))
                              (checked_mul (Some b) (Some c)))
                 (checked_mul (Some a) (Some c))).

(** Flags and size of every buffer creation in a trace. *)
Definition buffer_allocations (tr : list event) : list (Z * Z) :=
  omap (λ e, match e with
             | EvCreateBuffer _ flags size _ => Some (flags, size)
             | _ => None
             end) tr.


(** Handles a trace releases. *)
Definition released_handles (tr : list event) : list Z :=
  omap (λ e, match e with
             | EvReleaseMemObject h | EvReleaseProgram h | EvReleaseKernel h
             | EvReleaseCommandQueue h | EvReleaseContext h => Some h
             | _ => None
             end) tr.





(** What the input generator leaves behind: the three vectors and the
    state of the libc generator. *)
Definition inputs_of (w : world) : list Z * list Z * list Z * Z :=
  (h_source_a (w_host w), h_source_b (w_host w), h_source_c (w_host w), w_rand w).

(** A computation that leaves them alone, however it ends. *)
Definition keeps_inputs {A} (m : M A) : Prop :=
  ∀ E w, inputs_of (m E w).2 = inputs_of w.

(** A computation that cannot hand over to what follows it. *)
Definition never_returns {A} (m : M A) : Prop := ∀ E w a, (m E w).1 ≠ Ret a.

(** A call of the OpenCL API: it counts as one call, and when it returns,
    the status it hands back is the one the environment chose for it. *)
Definition calls_once {A} (m : M A) (err_of : A → Z) : Prop :=
  ∀ E w a, (m E w).1 = Ret a →
           err_of a = cl_status E (w_calls w) ∧ w_calls (m E w).2 = S (w_calls w).

(** ** Sample environments *)

(** The generator of the C standard's example implementation of [rand]. *)
Definition lcg (s : Z) : Z * Z :=
  let s' := (s * 1103515245 + 12345) mod 4294967296 in
  (s' / 65536 mod 32768, s').

(** One platform with a GPU of 16 compute units; every call succeeds. *)
Definition sample_environment : environment :=
  {| rand_impl := lcg;
     clock := λ k, 10 * Z.of_nat k;
     cl_status := λ _, CL_SUCCESS;
     cl_platforms := [7];
     cl_device_of := λ p _, p + 100;
     cl_device_info := λ _ param,
       if param =? CL_DEVICE_TYPE then CL_DEVICE_TYPE_GPU else 16;
     cl_build_log := "";
     cl_uninit := λ _ _, 0 |}.

(** No platform at all. *)
Definition bare_environment : environment :=
  {| rand_impl := lcg;
     clock := λ k, 10 * Z.of_nat k;
     cl_status := λ _, CL_SUCCESS;
     cl_platforms := [];
     cl_device_of := λ p _, p + 100;
     cl_device_info := λ _ _, 0;
     cl_build_log := "";
     cl_uninit := λ _ _, 0 |}.

(** Two platforms without a GPU: both requests, calls number 2 and 3, fail
    with [CL_DEVICE_NOT_FOUND]. *)
Definition no_gpu_environment : environment :=
  {| rand_impl := lcg;
     clock := λ k, 10 * Z.of_nat k;
     cl_status := λ k, if bool_decide (k = 2%nat ∨ k = 3%nat) then -1 else CL_SUCCESS;
     cl_platforms := [7; 9];
     cl_device_of := λ p _, p + 100;
     cl_device_info := λ _ _, 0;
     cl_build_log := "";
     cl_uninit := λ _ _, 0 |}.

(** Two platforms; the first has no GPU (its request, call number 2,
    fails with [CL_DEVICE_NOT_FOUND]), the second has one. *)
Definition second_platform_environment : environment :=
  {| rand_impl := lcg;
     clock := λ k, 10 * Z.of_nat k;
     cl_status := λ k, if bool_decide (k = 2%nat) then -1 else CL_SUCCESS;
     cl_platforms := [7; 9];
     cl_device_of := λ p _, p + 100;
     cl_device_info := λ _ param,
       if param =? CL_DEVICE_TYPE then CL_DEVICE_TYPE_GPU else 16;
     cl_build_log := "";
     cl_uninit := λ _ _, 0 |}.

(** One platform with a GPU; the build, call number 8, fails with
    [CL_BUILD_PROGRAM_FAILURE], and the query of its log, call number 9,
    fails with [CL_INVALID_VALUE]. *)
Definition unreadable_log_environment : environment :=
  {| rand_impl := lcg;
     clock := λ k, 10 * Z.of_nat k;
     cl_status := λ k, if bool_decide (k = 8%nat) then -11
                       else if bool_decide (k = 9%nat) then -30 else CL_SUCCESS;
     cl_platforms := [7];
     cl_device_of := λ p _, p + 100;
     cl_device_info := λ _ param,
       if param =? CL_DEVICE_TYPE then CL_DEVICE_TYPE_GPU else 16;
     cl_build_log := "";
     cl_uninit := λ _ _, 0 |}.

(** The host arrays of the scenario N = 4. *)
Definition scenario_world : world :=
  set_host
    {| h_source_a := [1; 2; 3; 4]; h_source_b := [1; 1; 1; 1];
       h_source_c := [2; 2; 2; 2]; h_result_opencl := [0; 0; 0; 0];
       h_result_sequential := [0; 0; 0; 0]; h_freed := [] |}
    initial_world.

(** ** Every path of [main]

    A judgement in the style of Hoare logic for the monad of [main]: started
    in a world satisfying [P], the computation never reaches an undefined
    step; when it hands on the value [a] the world satisfies [Q a]; when
    it ends the process with status [c] the world satisfies [X c]. *)
Definition hoare {A} (E : environment) (P : world → Prop) (m : M A)
    (Q : A → world → Prop) (X : Z → world → Prop) : Prop :=
  ∀ w, P w →
    match m E w with
    | (Ret a, w') => Q a w'
    | (Exit c, w') => X c w'
    | (Undef, _) => False
    end.

(** What holds from the end of the filling loop up to the cleanup: no host
    array has been freed, each of those whose allocation was granted holds
    [N] elements, every device buffer holds [N] cells, the buffers listed in
    [held] exist, nothing has been released, nothing has been written to the
    standard error, and [k] OpenCL calls have been issued. *)
Record intact (granted : host_array → bool) (N : Z) (held : list Z) (k : nat)
    (w : world) : Prop := {
  intact_live : h_freed (w_host w) = [];
  intact_host : ∀ x, granted x = true → length (array_of x (w_host w)) = Z.to_nat N;
  intact_cells : ∀ h l, dev_buffers (w_dev w) !! h = Some l → length l = Z.to_nat N;
  intact_held : ∀ h, h ∈ held → is_Some (dev_buffers (w_dev w) !! h);
  intact_kept : released_handles (w_trace w) = [];
  intact_quiet : w_stderr w = [];
  intact_calls : w_calls w = k
}.

(** The query of line 163: the build log, into a buffer of 2048 bytes. *)
Definition is_build_log_query (e : event) : bool :=
  match e with
  | EvGetProgramBuildInfo _ _ param size =>
      (param =? CL_PROGRAM_BUILD_LOG) && (size =? 2048)
  | _ => false
  end.

(** The call of line 199: the binding of kernel argument 3. *)
Definition is_last_binding (e : event) : bool :=
  match e with
  | EvSetKernelArg _ index _ _ => index =? 3
  | _ => false
  end.

(** How soon a failure ends the run.  Either there is no platform, or some
    call [k] that was issued has reported a failure and: it is the last call
    issued; or one more call was issued, the query of the build log; or at
    most three more were, the last of them the binding of kernel argument 3
    (lines 196-200 collect the status of the four bindings before checking
    it). *)
Definition halted (E : environment) (w : world) : Prop :=
  cl_platforms E = []
  ∨ ∃ k, cl_status E k ≠ CL_SUCCESS
         ∧ (w_calls w = S k
            ∨ (w_calls w = S (S k)
               ∧ is_build_log_query <$> last (w_trace w) = Some true)
            ∨ ((k < w_calls w ≤ k + 4)%nat
               ∧ is_last_binding <$> last (w_trace w) = Some true)).

(** The messages [main] prints on the standard output before it gives up
    (lines 95, 122, 138, 162 and 221). *)
Definition complaints : list string :=
  [ "Found 0 platforms!\n";
    "Error: Failed to access device type information!\n";
    "Error: Failed to access device number of compute units !\n";
    "Error: Failed to build program executable!\n%s\n";
    "Error: Failed to read output array!\n%s\n" ]%string.

(** A failure has been reported: one of the complaints is on the standard
    output, or [checkError] has written its line, the only one, on the
    standard error. *)
Definition reported (w : world) : Prop :=
  (w_stderr w = [] ∧ ∃ fmt args, (fmt, args) ∈ w_stdout w ∧ fmt ∈ complaints)
  ∨ ∃ operation err,
      err ≠ CL_SUCCESS ∧ w_stderr w = [(operation, [PErrCode err; PInt err])].

(** The state in which a run that fails leaves the process. *)
Definition failed (E : environment) (c : Z) (w : world) : Prop :=
  c = EXIT_FAILURE
  ∧ h_freed (w_host w) = []
  ∧ released_handles (w_trace w) = []
  ∧ halted E w
  ∧ reported w.

(** ** Runs that fail once a device is held

    The first of the 21 checked calls of lines 117-218 to fail, counted from
    0 at the query of the device type, when both platform queries succeed
    and some platform hands out a GPU. *)
Definition refused_at (E : environment) : option nat :=
  if bool_decide (cl_status E 0 = CL_SUCCESS) && bool_decide (cl_status E 1 = CL_SUCCESS)
  then
    j ← found_gpu E;
    fst <$> list_find (λ i, cl_status E (i + (3 + j))%nat ≠ CL_SUCCESS) (seq 0 21)
  else None.

(** The query of the build log made as call number [k] fills [buffer]: it
    succeeds, and the log with its terminating NUL fits in the 2048 bytes. *)
Definition log_readable (E : environment) (k : nat) : bool :=
  (cl_status E k =? CL_SUCCESS) && (Z.of_nat (String.length (cl_build_log E)) <? 2048).

(** The build is the first call to fail and the query of its log, the call
    after it, leaves [buffer] unwritten: line 164 prints an array that holds
    nothing. *)
Definition garbled_log (E : environment) : bool :=
  match refused_at E, found_gpu E with
  | Some 5%nat, Some j => negb (log_readable E (9 + j))
  | _, _ => false
  end.

(** The calls of lines 143-212 that [main] checks with [checkError], by
    their number counted from the query of the device type, each with the
    name [main] gives the step. *)
Definition checked_step (k : nat) : option string :=
  match k with
  | 2 => Some "Creating context"
  | 3 => Some "Creating command queue"
  | 4 => Some "Creating program"
  | 6 => Some "Creating kernel"
  | 7 => Some "Creating buffer d_a"
  | 8 => Some "Creating buffer d_b"
  | 9 => Some "Creating buffer d_c"
  | 10 => Some "Creating buffer d_result"
  | 11 => Some "Copying source_a to device at d_a"
  | 12 => Some "Copying source_b to device at d_b"
  | 13 => Some "Copying source_c to device at d_c"
  | 18 => Some "Enqueueing kernel"
  | 19 => Some "Waiting for kernel to finish"
  | _ => None
  end%string%nat.

(** What device selection (lines 86-115) reports through [checkError] when
    it fails: the step it names and the status it shows.  With no platform
    at all and a successful count the complaint goes to the standard output
    instead (line 95). *)
Definition selection_failure (E : environment) : option (string * Z) :=
  if negb (cl_status E 0 =? CL_SUCCESS) then
    Some ("Finding platforms"%string, cl_status E 0)
  else if bool_decide (cl_platforms E = []) then None
  else if negb (cl_status E 1 =? CL_SUCCESS) then
    Some ("Getting platforms"%string, cl_status E 1)
  else match found_gpu E with
       | Some _ => None
       | None =>
           Some ("Finding a device"%string,
                 cl_status E (1 + length (cl_platforms E)))
       end.

(** The world after lines 117-170 when each call succeeds: context, queue,
    program and kernel hold the next four handles. *)
Definition ready_world (E : environment) (device_id : Z) (w : world) : world :=
  {| w_rand := w_rand w;
     w_clock := w_clock w;
     w_calls := 7 + w_calls w;
     w_trace := w_trace w ++ setup_trace device_id (dev_next (w_dev w));
     w_stdout := w_stdout w
                 ++ [ device_type_line (cl_device_info E device_id CL_DEVICE_TYPE);
                      ("Total compute units: %d compute units \n"%string,
                       [PInt (wrap_int (cl_device_info E device_id CL_DEVICE_MAX_COMPUTE_UNITS))]) ];
     w_stderr := w_stderr w;
     w_host := w_host w;
     w_dev := {| dev_next := dev_next (w_dev w) + 4;
                 dev_buffers := dev_buffers (w_dev w);
                 dev_args := dev_args (w_dev w);
                 dev_queue := dev_queue (w_dev w) |} |}.

(** The status [main] checks at line 200, after the four bindings that start
    with call [k]: [err = ...; err |= ...; err |= ...; err |= ...]. *)
Definition binding_status (E : environment) (k : nat) : Z :=
  Z.lor (Z.lor (Z.lor (cl_status E k) (cl_status E (S k))) (cl_status E (S (S k))))
        (cl_status E (S (S (S k)))).

(** One platform with a GPU; call number [k] fails with [status], every
    other call succeeds. *)
Definition failing_environment (k : nat) (status : Z) : environment :=
  {| rand_impl := lcg;
     clock := λ i, 10 * Z.of_nat i;
     cl_status := λ i, if bool_decide (i = k) then status else CL_SUCCESS;
     cl_platforms := [7];
     cl_device_of := λ p _, p + 100;
     cl_device_info := λ _ param,
       if param =? CL_DEVICE_TYPE then CL_DEVICE_TYPE_GPU else 16;
     cl_build_log := "<kernel>:8:4: error: use of undeclared identifier";
     cl_uninit := λ _ _, 0 |}.

(** * Proofs *)

(** ** Arithmetic on [int] *)

Lemma wrap_int_in_range z : INT_MIN ≤ z ≤ INT_MAX → wrap_int z = z.
Proof.
  unfold INT_MIN, INT_MAX, wrap_int. intros Hz.
  rewrite Z.mod_small by lia. lia.
Qed.

Lemma wrap_int_mod z : wrap_int z mod 4294967296 = z mod 4294967296.
Proof.
  unfold wrap_int.
  rewrite Zminus_mod_idemp_l.
  replace (z + 2147483648 - 2147483648) with z by lia. reflexivity.
Qed.

Lemma wrap_int_congr x y :
  x mod 4294967296 = y mod 4294967296 → wrap_int x = wrap_int y.
Proof.
  unfold wrap_int. intros Hxy.
  rewrite <- (Zplus_mod_idemp_l x), <- (Zplus_mod_idemp_l y), Hxy. reflexivity.
Qed.

Lemma int_add_exact x y : int_add (wrap_int x) (wrap_int y) = wrap_int (x + y).
Proof.
  unfold int_add. apply wrap_int_congr.
  rewrite Z.add_mod, !wrap_int_mod, <- Z.add_mod by lia. reflexivity.
Qed.

Lemma int_mul_exact x y : int_mul (wrap_int x) (wrap_int y) = wrap_int (x * y).
Proof.
  unfold int_mul. apply wrap_int_congr.
  rewrite Z.mul_mod, !wrap_int_mod, <- Z.mul_mod by lia. reflexivity.
Qed.

Lemma int_mul_exact_l k y :
  INT_MIN ≤ k ≤ INT_MAX → int_mul k (wrap_int y) = wrap_int (k * y).
Proof.
  intros Hk. rewrite <- (wrap_int_in_range k Hk) at 1. apply int_mul_exact.
Qed.

(** ** Lists as arrays *)

Lemma insert_next_cell {A} (g : nat → A) (k : nat) (old : list A) :
  (k < length old)%nat →
  <[k := g k]> ((g <$> seq 0 k) ++ drop k old) = (g <$> seq 0 (S k)) ++ drop (S k) old.
Proof.
  intros Hk.
  rewrite seq_S, fmap_app, <- app_assoc. simpl.
  destruct (lookup_lt_is_Some_2 old k Hk) as [x Hx].
  rewrite (drop_S old x k Hx).
  rewrite insert_app_r_alt by (rewrite length_fmap, length_seq; lia).
  rewrite length_fmap, length_seq, Nat.sub_diag. reflexivity.
Qed.

Lemma lookup_cells {A} (g : nat → A) (n i : nat) :
  (i < n)%nat → (g <$> seq 0 n) !! i = Some (g i).
Proof. intros Hi. rewrite list_lookup_fmap, lookup_seq_lt by done. reflexivity. Qed.

Lemma lookup_total_cells `{!Inhabited A} (g : nat → A) (n i : nat) :
  (i < n)%nat → (g <$> seq 0 n) !!! i = g i.
Proof. intros Hi. apply list_lookup_total_correct. by apply lookup_cells. Qed.

(** ** The monad *)

Lemma bind_Ret {A B} (m : M A) (f : A → M B) E w a w' :
  m E w = (Ret a, w') → (m ≫= f) E w = f a E w'.
Proof. unfold mbind, M_bind. intros ->. reflexivity. Qed.

Lemma bind_Exit {A B} (m : M A) (f : A → M B) E w c w' :
  m E w = (Exit c, w') → (m ≫= f) E w = (Exit c, w').
Proof. unfold mbind, M_bind. intros ->. reflexivity. Qed.

Lemma bind_Undef {A B} (m : M A) (f : A → M B) E w w' :
  m E w = (Undef, w') → (m ≫= f) E w = (Undef, w').
Proof. intros Hm. unfold mbind, M_bind. by rewrite Hm. Qed.

(** A counting loop whose body takes the world [W k] to [W (S k)]. *)
Lemma for_range_steps (body : nat → M unit) E (W : nat → world) cnt lo :
  (∀ k, (lo ≤ k < lo + cnt)%nat → body k E (W k) = (Ret tt, W (S k))) →
  for_range lo cnt body E (W lo) = (Ret tt, W (lo + cnt)%nat).
Proof.
  revert lo. induction cnt as [|cnt IH]; intros lo Hbody; simpl.
  - rewrite Nat.add_0_r. reflexivity.
  - rewrite (bind_Ret _ _ _ _ tt (W (S lo))) by (apply Hbody; lia).
    rewrite IH by (intros k Hk; apply Hbody; lia).
    f_equal. f_equal. lia.
Qed.

(** ** The kernel *)

Lemma run_ndrange_cuboid_area a b c r la lb lc lr n (mem : gmap Z (list Z)) :
  mem !! a = Some la → mem !! b = Some lb → mem !! c = Some lc →
  mem !! r = Some lr → r ≠ a → r ≠ b → r ≠ c →
  (n ≤ length la)%nat → (n ≤ length lb)%nat → (n ≤ length lc)%nat →
  (n ≤ length lr)%nat →
  run_ndrange (cuboid_area a b c r) n mem
  = <[r := (area_cell la lb lc <$> seq 0 n) ++ drop n lr]> mem.
Proof.
  intros Ha Hb Hc Hr Hra Hrb Hrc. unfold run_ndrange.
  induction n as [|n IH]; intros Hla Hlb Hlc Hlr.
  - simpl. rewrite drop_0. symmetry. by apply insert_id.
  - rewrite seq_S, fold_left_app, IH by lia. simpl.
    unfold cuboid_area.
    rewrite !lookup_insert_ne by done. rewrite Ha, Hb, Hc. simpl.
    rewrite !list_lookup_lookup_total_lt by lia. simpl.
    rewrite alter_insert_eq. f_equal.
    rewrite <- seq_S. apply (insert_next_cell (area_cell la lb lc)). lia.
Qed.

Lemma fold_left_permutation {A B} (f : A → B → A) :
  (∀ a x y, f (f a x) y = f (f a y) x) →
  ∀ l1 l2, l1 ≡ₚ l2 → ∀ a, fold_left f l1 a = fold_left f l2 a.
Proof.
  intros Hcomm l1 l2 Hperm.
  induction Hperm as [|x l1 l2 _ IH|x y l|l1 l2 l3 _ IH1 _ IH2]; intros a; simpl.
  - reflexivity.
  - apply IH.
  - by rewrite Hcomm.
  - by rewrite IH1.
Qed.

(** A work item changes no buffer but [result]. *)
Lemma cuboid_area_other a b c r i (mem : gmap Z (list Z)) x :
  r ≠ x → cuboid_area a b c r i mem !! x = mem !! x.
Proof.
  intros Hx. unfold cuboid_area. repeat case_match; try done.
  by rewrite lookup_alter_ne.
Qed.

(** Work items do not interfere: each reads the inputs and writes its own
    cell of the output. *)
Lemma work_items_commute a b c r i j (mem : gmap Z (list Z)) :
  r ≠ a → r ≠ b → r ≠ c →
  cuboid_area a b c r j (cuboid_area a b c r i mem)
  = cuboid_area a b c r i (cuboid_area a b c r j mem).
Proof.
  intros Ha Hb Hc. unfold cuboid_area at 1 3. rewrite !cuboid_area_other by done.
  destruct (mem !! a ≫= (.!! j)) as [aj|] eqn:Haj;
    destruct (mem !! b ≫= (.!! j)) as [bj|] eqn:Hbj;
    destruct (mem !! c ≫= (.!! j)) as [cj|] eqn:Hcj;
    destruct (mem !! a ≫= (.!! i)) as [ai|] eqn:Hai;
    destruct (mem !! b ≫= (.!! i)) as [bi|] eqn:Hbi;
    destruct (mem !! c ≫= (.!! i)) as [ci|] eqn:Hci;
    unfold cuboid_area; rewrite ?Haj, ?Hbj, ?Hcj, ?Hai, ?Hbi, ?Hci; try reflexivity.
  rewrite !alter_alter_eq. apply alter_ext. intros l _. cbn [compose].
  destruct (decide (i = j)) as [->|Hij].
  - by simplify_eq.
  - by apply list_insert_insert_ne.
Qed.

(** Unfold the world and its setters, nothing else. *)
Ltac wsimpl :=
  cbn [w_rand w_clock w_calls w_trace w_stdout w_stderr w_host w_dev
       set_rand set_host set_dev put_stdout put_stderr log_call log_wtime put_lines
       array_of set_array mark_freed
       h_source_a h_source_b h_source_c h_result_opencl h_result_sequential h_freed
       dev_next dev_buffers dev_args dev_queue next_handle set_buffers set_args
       enqueue flush fold_left app Nat.add
       computed_world sequential_world finished_world final_host
       log_calls filled_world filled_world_on fst snd].

(** ** Host memory *)

Lemma host_ext h1 h2 :
  h_source_a h1 = h_source_a h2 → h_source_b h1 = h_source_b h2 →
  h_source_c h1 = h_source_c h2 → h_result_opencl h1 = h_result_opencl h2 →
  h_result_sequential h1 = h_result_sequential h2 → h_freed h1 = h_freed h2 →
  h1 = h2.
Proof. destruct h1, h2; simpl; intros; by subst. Qed.

Lemma world_ext w1 w2 :
  w_rand w1 = w_rand w2 → w_clock w1 = w_clock w2 → w_calls w1 = w_calls w2 →
  w_trace w1 = w_trace w2 → w_stdout w1 = w_stdout w2 →
  w_stderr w1 = w_stderr w2 → w_host w1 = w_host w2 → w_dev w1 = w_dev w2 →
  w1 = w2.
Proof. destruct w1, w2; simpl; intros; by subst. Qed.

(** Equality of two worlds built with the setters, field by field. *)
Ltac world_eq := apply world_ext; wsimpl; try reflexivity.
Ltac host_eq := apply host_ext; wsimpl; try reflexivity.

Lemma is_live_fresh x h : h_freed h = [] → is_live x h = true.
Proof.
  intros Hf. unfold is_live. rewrite Hf. apply bool_decide_eq_true.
  apply not_elem_of_nil.
Qed.

Lemma store_ok x i v E w :
  is_live x (w_host w) = true →
  (i < length (array_of x (w_host w)))%nat →
  store x i v E w
  = (Ret tt, set_host (set_array x (<[i := v]> (array_of x (w_host w))) (w_host w)) w).
Proof.
  intros Hlive Hi. unfold store. rewrite Hlive.
  rewrite bool_decide_eq_true_2 by done. reflexivity.
Qed.

Lemma load_ok x i v E w :
  is_live x (w_host w) = true →
  array_of x (w_host w) !! i = Some v →
  load x i E w = (Ret v, w).
Proof. intros Hlive Hv. unfold load. rewrite Hlive, Hv. reflexivity. Qed.

(** ** The input generator *)

Lemma fill_world_0 E w : fill_world E w 0 = w.
Proof.
  unfold fill_world, fill_host. world_eq. host_eq.
Qed.

Lemma fill_vectors_steps E w N :
  h_freed (w_host w) = [] →
  length (h_source_a (w_host w)) = Z.to_nat N →
  length (h_source_b (w_host w)) = Z.to_nat N →
  length (h_source_c (w_host w)) = Z.to_nat N →
  fill_vectors N E w = (Ret tt, fill_world E w (Z.to_nat N)).
Proof.
  intros Hfreed Ha Hb Hc. unfold fill_vectors.
  rewrite <- (fill_world_0 E w) at 1.
  apply (for_range_steps _ E (fill_world E w) (Z.to_nat N) 0).
  intros k Hk.
  unfold fill_world at 1. unfold fill_host.
  erewrite bind_Ret by reflexivity.
  erewrite bind_Ret; cycle 1.
  { apply store_ok; [apply is_live_fresh; wsimpl; exact Hfreed|].
    wsimpl. rewrite length_app, length_fmap, length_seq, length_drop. lia. }
  erewrite bind_Ret by reflexivity.
  erewrite bind_Ret; cycle 1.
  { apply store_ok; [apply is_live_fresh; wsimpl; exact Hfreed|].
    wsimpl. rewrite length_app, length_fmap, length_seq, length_drop. lia. }
  erewrite bind_Ret by reflexivity.
  rewrite store_ok; cycle 1.
  { apply is_live_fresh; wsimpl; exact Hfreed. }
  { wsimpl. rewrite length_app, length_fmap, length_seq, length_drop. lia. }
  f_equal. unfold fill_world, fill_host. world_eq.
  { replace (3 * S k)%nat with (S (S (S (3 * k)))) by lia. reflexivity. }
  host_eq.
  - rewrite <- (insert_next_cell (drawn E (w_rand w) 0)) by lia.
    unfold drawn, rand_value, edge. rewrite Nat.add_0_r. reflexivity.
  - rewrite <- (insert_next_cell (drawn E (w_rand w) 1)) by lia.
    unfold drawn, rand_value, edge. rewrite Nat.add_1_r. reflexivity.
  - rewrite <- (insert_next_cell (drawn E (w_rand w) 2)) by lia.
    unfold drawn, rand_value, edge.
    replace (3 * k + 2)%nat with (S (S (3 * k))) by lia. reflexivity.
Qed.

(** ** The sequential computation *)

Lemma sequential_world_0 w : sequential_world w 0 = w.
Proof.
  unfold sequential_world. world_eq. host_eq.
Qed.

Lemma sequential_steps E w N :
  h_freed (w_host w) = [] →
  length (h_source_a (w_host w)) = Z.to_nat N →
  length (h_source_b (w_host w)) = Z.to_nat N →
  length (h_source_c (w_host w)) = Z.to_nat N →
  length (h_result_sequential (w_host w)) = Z.to_nat N →
  sequential N E w = (Ret tt, sequential_world w (Z.to_nat N)).
Proof.
  intros Hfreed Ha Hb Hc Hr. unfold sequential.
  rewrite <- (sequential_world_0 w) at 1.
  apply (for_range_steps _ E (sequential_world w) (Z.to_nat N) 0).
  intros k Hk. unfold sequential_world at 1.
  do 6 (erewrite bind_Ret;
        [| apply load_ok; [apply is_live_fresh; wsimpl; exact Hfreed
                          | wsimpl; apply list_lookup_lookup_total_lt; lia] ]).
  rewrite store_ok; cycle 1.
  { apply is_live_fresh; wsimpl; exact Hfreed. }
  { wsimpl. rewrite length_app, length_fmap, length_seq, length_drop. lia. }
  f_equal. unfold sequential_world. world_eq. host_eq.
  rewrite <- (insert_next_cell (area_cell _ _ _)) by lia. reflexivity.
Qed.

(** ** Printing the sample *)

Lemma put_lines_nil w : put_lines [] w = w.
Proof. world_eq. apply app_nil_r. Qed.

Lemma print_result_steps E w :
  h_freed (w_host w) = [] →
  (100 ≤ length (h_source_a (w_host w)))%nat →
  (100 ≤ length (h_source_b (w_host w)))%nat →
  (100 ≤ length (h_source_c (w_host w)))%nat →
  (100 ≤ length (h_result_opencl (w_host w)))%nat →
  (100 ≤ length (h_result_sequential (w_host w)))%nat →
  print_result E w = (Ret tt, put_lines (sample_line (w_host w) <$> seq 0 100) w).
Proof.
  intros Hfreed Ha Hb Hc Ho Hs. unfold print_result.
  rewrite <- (put_lines_nil w) at 1.
  set (W := λ k, put_lines (sample_line (w_host w) <$> seq 0 k) w).
  change (put_lines [] w) with (W 0%nat).
  change (put_lines (sample_line (w_host w) <$> seq 0 100) w) with (W (0 + 100)%nat).
  apply for_range_steps.
  intros k Hk. unfold W.
  do 5 (erewrite bind_Ret;
        [| apply load_ok; [apply is_live_fresh; wsimpl; exact Hfreed
                          | wsimpl; apply list_lookup_lookup_total_lt; lia] ]).
  unfold printf. f_equal. world_eq.
  rewrite seq_S, fmap_app, app_assoc. reflexivity.
Qed.

(** ** Calls that succeed *)

Lemma checkError_success op E w : checkError CL_SUCCESS op E w = (Ret tt, w).
Proof. reflexivity. Qed.

Lemma checkError_failure err op E w :
  err ≠ CL_SUCCESS →
  checkError err op E w = (Exit EXIT_FAILURE, put_stderr (op, [PErrCode err; PInt err]) w).
Proof.
  intros Herr. unfold checkError.
  destruct (Z.eqb_spec err CL_SUCCESS) as [|_]; [done|]. reflexivity.
Qed.

Lemma create_object_ok ev E w :
  status_now E w = CL_SUCCESS →
  create_object ev E w
  = (Ret (dev_next (w_dev w), CL_SUCCESS),
     log_call (ev (dev_next (w_dev w))) (set_dev (next_handle (w_dev w)) w)).
Proof. intros Hs. unfold create_object. rewrite Hs. reflexivity. Qed.

Lemma clCreateBuffer_ok context flags size E w :
  status_now E w = CL_SUCCESS →
  clCreateBuffer context flags size E w
  = (Ret (dev_next (w_dev w), CL_SUCCESS),
     log_call (EvCreateBuffer context flags size (dev_next (w_dev w)))
       (set_dev
          (next_handle
             (set_buffers
                (<[dev_next (w_dev w) :=
                     cl_uninit E (dev_next (w_dev w)) <$> seq 0 (cells_of size)]>
                   (dev_buffers (w_dev w)))
                (w_dev w)))
          w)).
Proof. intros Hs. unfold clCreateBuffer. rewrite Hs. reflexivity. Qed.

Lemma clEnqueueWriteBuffer_ok queue buffer blocking offset size src E w :
  status_now E w = CL_SUCCESS →
  is_live src (w_host w) = true →
  (cells_of size ≤ length (array_of src (w_host w)))%nat →
  clEnqueueWriteBuffer queue buffer blocking offset size src E w
  = (Ret CL_SUCCESS,
     set_dev
       (set_buffers
          (alter (blit (cells_of offset) (cells_of size) (array_of src (w_host w)))
                 buffer (dev_buffers (flush (w_dev w))))
          (flush (w_dev w)))
       (log_call (EvEnqueueWriteBuffer queue buffer blocking offset size src) w)).
Proof.
  intros Hs Hlive Hlen. unfold clEnqueueWriteBuffer.
  rewrite Hs, Hlive, bool_decide_eq_true_2 by done. reflexivity.
Qed.

Lemma clSetKernelArg_ok kernel index size value E w :
  status_now E w = CL_SUCCESS →
  clSetKernelArg kernel index size value E w
  = (Ret CL_SUCCESS,
     set_dev (set_args (<[(kernel, index) := value]> (dev_args (w_dev w))) (w_dev w))
       (log_call (EvSetKernelArg kernel index size value) w)).
Proof. intros Hs. unfold clSetKernelArg. rewrite Hs. reflexivity. Qed.

Lemma clEnqueueNDRangeKernel_ok queue kernel work_dim global E w :
  status_now E w = CL_SUCCESS →
  clEnqueueNDRangeKernel queue kernel work_dim global E w
  = (Ret CL_SUCCESS,
     set_dev
       (enqueue
          (CmdNDRangeKernel kernel
             ((λ k, dev_args (w_dev w) !! (kernel, k)) <$> [0; 1; 2; 3])
             (Z.to_nat global))
          (w_dev w))
       (log_call (EvEnqueueNDRangeKernel queue kernel work_dim global) w)).
Proof. intros Hs. unfold clEnqueueNDRangeKernel. rewrite Hs. reflexivity. Qed.

Lemma clFinish_ok queue E w :
  status_now E w = CL_SUCCESS →
  clFinish queue E w
  = (Ret CL_SUCCESS, set_dev (flush (w_dev w)) (log_call (EvFinish queue) w)).
Proof. intros Hs. unfold clFinish. rewrite Hs. reflexivity. Qed.

Lemma clEnqueueReadBuffer_ok queue buffer blocking offset size dst E w :
  status_now E w = CL_SUCCESS →
  is_live dst (w_host w) = true →
  (cells_of size ≤ length (array_of dst (w_host w)))%nat →
  clEnqueueReadBuffer queue buffer blocking offset size dst E w
  = (Ret CL_SUCCESS,
     set_host
       (set_array dst
          (blit 0 (cells_of size)
             (drop (cells_of offset)
                (default [] (dev_buffers (flush (w_dev w)) !! buffer)))
             (array_of dst (w_host w)))
          (w_host w))
       (set_dev (flush (w_dev w))
          (log_call (EvEnqueueReadBuffer queue buffer blocking offset size dst) w))).
Proof.
  intros Hs Hlive Hlen. unfold clEnqueueReadBuffer.
  rewrite Hs, Hlive, bool_decide_eq_true_2 by done. reflexivity.
Qed.

Lemma cells_of_floats N : 0 ≤ N → cells_of (sizeof_float * N) = Z.to_nat N.
Proof.
  intros HN. unfold cells_of, sizeof_float, sizeof_int.
  rewrite Z.mul_comm, Z.div_mul by lia. reflexivity.
Qed.

Lemma cells_of_calloc N : 0 ≤ N → Z.to_nat (N * sizeof_int / sizeof_int) = Z.to_nat N.
Proof. intros HN. unfold sizeof_int. rewrite Z.div_mul by lia. reflexivity. Qed.

Lemma blit_all (new old : list Z) n :
  length new = n → length old = n → blit 0 n new old = new.
Proof.
  intros Hn Ho. unfold blit. simpl.
  rewrite take_ge, drop_ge, app_nil_r by lia. reflexivity.
Qed.

Lemma bound_arguments (m : gmap (Z * Z) Z) k a b c r :
  (λ i, <[(k, 3) := r]> (<[(k, 2) := c]> (<[(k, 1) := b]> (<[(k, 0) := a]> m)))
          !! (k, i)) <$> [0; 1; 2; 3]
  = [Some a; Some b; Some c; Some r].
Proof.
  simpl. repeat f_equal.
  - by rewrite !lookup_insert_ne, lookup_insert_eq by congruence.
  - by rewrite !lookup_insert_ne, lookup_insert_eq by congruence.
  - by rewrite !lookup_insert_ne, lookup_insert_eq by congruence.
  - by rewrite lookup_insert_eq.
Qed.

(** ** Lines 172-223 on a device that accepts every call *)

(** Look a handle up in a device memory built by insertions and alterations
    at other handles. *)
Ltac buffer_lookup :=
  repeat first
    [ rewrite lookup_alter_ne by lia | rewrite lookup_alter_eq
    | rewrite lookup_insert_ne by lia | rewrite lookup_insert_eq ];
  cbn [fmap option_fmap option_map].

Ltac status H k := unfold status_now; wsimpl; apply (H k); lia.

Ltac step tac := erewrite bind_Ret; [| tac ]; cbn beta iota zeta.

Ltac check_ok := rewrite (bind_Ret _ _ _ _ _ _ (checkError_success _ _ _)).

Lemma compute_on_device_ok E N context commands kernel w :
  0 ≤ N →
  h_freed (w_host w) = [] →
  length (h_source_a (w_host w)) = Z.to_nat N →
  length (h_source_b (w_host w)) = Z.to_nat N →
  length (h_source_c (w_host w)) = Z.to_nat N →
  length (h_result_opencl (w_host w)) = Z.to_nat N →
  dev_queue (w_dev w) = [] →
  (∀ i, (i < 14)%nat → cl_status E (i + w_calls w) = CL_SUCCESS) →
  ∃ d,
    compute_on_device N context commands kernel E w
    = (Ret (dev_next (w_dev w), dev_next (w_dev w) + 1, dev_next (w_dev w) + 2,
            dev_next (w_dev w) + 3, kernel_time E (w_clock w)),
       computed_world E N context commands kernel w d).
Proof.
  intros HN Hfreed Ha Hb Hc Ho Hq H.
  destruct w as [rs ck cl tr so se hm [h m ar q]].
  simpl in Hfreed, Ha, Hb, Hc, Ho, Hq, H. subst q.
  unfold compute_on_device.
  step ltac:(apply clCreateBuffer_ok; status H 0%nat). check_ok.
  step ltac:(apply clCreateBuffer_ok; status H 1%nat). check_ok.
  step ltac:(apply clCreateBuffer_ok; status H 2%nat). check_ok.
  step ltac:(apply clCreateBuffer_ok; status H 3%nat). check_ok.
  wsimpl.
  step ltac:(apply clEnqueueWriteBuffer_ok;
             [status H 4%nat | by apply is_live_fresh
             | rewrite cells_of_floats by done; wsimpl; lia]).
  check_ok. wsimpl.
  step ltac:(apply clEnqueueWriteBuffer_ok;
             [status H 5%nat | by apply is_live_fresh
             | rewrite cells_of_floats by done; wsimpl; lia]).
  check_ok. wsimpl.
  step ltac:(apply clEnqueueWriteBuffer_ok;
             [status H 6%nat | by apply is_live_fresh
             | rewrite cells_of_floats by done; wsimpl; lia]).
  check_ok. wsimpl.
  step ltac:(apply clSetKernelArg_ok; status H 7%nat).
  step ltac:(apply clSetKernelArg_ok; status H 8%nat).
  step ltac:(apply clSetKernelArg_ok; status H 9%nat).
  step ltac:(apply clSetKernelArg_ok; status H 10%nat).
  change (Z.lor (Z.lor (Z.lor CL_SUCCESS CL_SUCCESS) CL_SUCCESS) CL_SUCCESS)
    with CL_SUCCESS.
  check_ok. wsimpl.
  step ltac:(reflexivity).
  step ltac:(apply clEnqueueNDRangeKernel_ok; status H 11%nat). check_ok.
  step ltac:(apply clFinish_ok; status H 12%nat). check_ok.
  step ltac:(reflexivity).
  step ltac:(reflexivity).
  wsimpl. rewrite bound_arguments.
  step ltac:(apply clEnqueueReadBuffer_ok;
             [status H 13%nat | by apply is_live_fresh
             | rewrite cells_of_floats by done; wsimpl; lia]).
  wsimpl.
  change (negb (CL_SUCCESS =? CL_SUCCESS)) with false. cbn iota.
  erewrite bind_Ret by reflexivity. unfold mret, M_ret.
  replace (h + 1 + 1 + 1) with (h + 3) by lia.
  replace (h + 1 + 1) with (h + 2) by lia.
  eexists. unfold kernel_time, computed_world. wsimpl. f_equal.
  world_eq.

  - rewrite <- !app_assoc. reflexivity.
  - host_eq.
    rewrite !cells_of_floats by done.
    change (cells_of 0) with 0%nat. cbn [exec_command].
    assert (Hu : ∀ x, length (cl_uninit E x <$> seq 0 (Z.to_nat N)) = Z.to_nat N)
      by (intros; by rewrite length_fmap, length_seq).
    rewrite (run_ndrange_cuboid_area h (h + 1) (h + 2) (h + 3)
               (h_source_a hm) (h_source_b hm) (h_source_c hm)
               (cl_uninit E (h + 3) <$> seq 0 (Z.to_nat N))); try lia.
    + rewrite lookup_insert_eq. cbn [default option_rect from_option id].
      rewrite drop_0, drop_ge, app_nil_r by (rewrite Hu; lia).
      apply blit_all; [by rewrite length_fmap, length_seq | done].
    + buffer_lookup. by rewrite blit_all.
    + buffer_lookup. by rewrite blit_all.
    + buffer_lookup. by rewrite blit_all.
    + buffer_lookup. reflexivity.
    + rewrite Hu. lia.
Qed.

(** ** Lines 117-266 on a device that accepts every call *)

Lemma clGetDeviceInfo_ok device param size E w :
  status_now E w = CL_SUCCESS →
  clGetDeviceInfo device param size E w
  = (Ret (CL_SUCCESS, cl_device_info E device param),
     log_call (EvGetDeviceInfo device param size) w).
Proof. intros Hs. unfold clGetDeviceInfo. rewrite Hs. reflexivity. Qed.

Lemma clBuildProgram_ok program E w :
  status_now E w = CL_SUCCESS →
  clBuildProgram program E w = (Ret CL_SUCCESS, log_call (EvBuildProgram program) w).
Proof. intros Hs. unfold clBuildProgram. rewrite Hs. reflexivity. Qed.

Lemma clReleaseMemObject_any memobj E w :
  ∃ d, clReleaseMemObject memobj E w
       = (Ret (status_now E w), set_dev d (log_call (EvReleaseMemObject memobj) w)).
Proof.
  unfold clReleaseMemObject. destruct (status_now E w =? CL_SUCCESS).
  - eexists. reflexivity.
  - exists (w_dev w). f_equal.
Qed.

Lemma print_device_type t E w :
  (if t =? CL_DEVICE_TYPE_GPU then printf "Device type: GPU \n" []
   else if t =? CL_DEVICE_TYPE_CPU then printf "Device type: CPU \n" []
   else printf "Device type: Not CPU nor GPU \n" []) E w
  = (Ret tt, put_stdout (device_type_line t) w).
Proof.
  unfold device_type_line.
  destruct (t =? CL_DEVICE_TYPE_GPU); [reflexivity|].
  destruct (t =? CL_DEVICE_TYPE_CPU); reflexivity.
Qed.

Ltac skip_guard :=
  change (negb (CL_SUCCESS =? CL_SUCCESS)) with false; cbn iota;
  erewrite bind_Ret by reflexivity.

(** Bring sums such as [h + 1 + 1] to the form [h + 2]. *)
Ltac norm_handles h :=
  repeat match goal with
         | |- context [h + Zpos ?a + Zpos ?b] =>
             let c := eval compute in (Zpos a + Zpos b) in
             replace (h + Zpos a + Zpos b) with (h + c) by lia
         end.

Lemma run_on_device_ok E N device_id w :
  100 ≤ N →
  h_freed (w_host w) = [] →
  length (h_source_a (w_host w)) = Z.to_nat N →
  length (h_source_b (w_host w)) = Z.to_nat N →
  length (h_source_c (w_host w)) = Z.to_nat N →
  length (h_result_opencl (w_host w)) = Z.to_nat N →
  length (h_result_sequential (w_host w)) = Z.to_nat N →
  dev_queue (w_dev w) = [] →
  (∀ i, (i < 21)%nat → cl_status E (i + w_calls w) = CL_SUCCESS) →
  ∃ d, run_on_device N device_id E w = (Ret 0, finished_world E N device_id w d).
Proof.
  intros HN Hfreed Ha Hb Hc Ho Hs Hq H.
  destruct w as [rs ck cl tr so se hm [h m ar q]].
  simpl in Hfreed, Ha, Hb, Hc, Ho, Hs, Hq, H. subst q.
  unfold run_on_device.
  step ltac:(apply clGetDeviceInfo_ok; status H 0%nat). skip_guard.
  step ltac:(apply print_device_type).
  step ltac:(apply clGetDeviceInfo_ok; status H 1%nat). skip_guard.
  step ltac:(reflexivity).
  step ltac:(apply create_object_ok; status H 2%nat). check_ok.
  step ltac:(apply create_object_ok; status H 3%nat). check_ok.
  step ltac:(apply create_object_ok; status H 4%nat). check_ok.
  step ltac:(apply clBuildProgram_ok; status H 5%nat). skip_guard.
  step ltac:(apply create_object_ok; status H 6%nat). check_ok.
  wsimpl.
  norm_handles h.
  match goal with
  | |- context [ (compute_on_device ?n ?c ?q ?k ≫= _) E ?W ] =>
      destruct (compute_on_device_ok E n c q k W) as [d Hd];
        [ lia | exact Hfreed | exact Ha | exact Hb | exact Hc | exact Ho
        | reflexivity
        | intros i Hi; wsimpl;
          replace (i + S (S (S (S (S (S (S cl)))))))%nat with (i + 7 + cl)%nat by lia;
          apply H; lia
        | rewrite (bind_Ret _ _ _ _ _ _ Hd) ]
  end.
  cbn beta iota zeta. wsimpl.
  step ltac:(reflexivity).
  step ltac:(apply sequential_steps; wsimpl;
             rewrite ?length_fmap, ?length_seq; done).
  step ltac:(reflexivity).
  step ltac:(reflexivity).
  step ltac:(reflexivity).
  step ltac:(apply print_result_steps; wsimpl;
             rewrite ?length_app, ?length_fmap, ?length_seq, ?length_drop;
             first [done | lia]).
  step ltac:(reflexivity).
  match goal with
  | |- context [ (clReleaseMemObject ?b ≫= _) E ?W ] =>
      destruct (clReleaseMemObject_any b E W) as [d1 Hd1];
      rewrite (bind_Ret _ _ _ _ _ _ Hd1)
  end.
  match goal with
  | |- context [ (clReleaseMemObject ?b ≫= _) E ?W ] =>
      destruct (clReleaseMemObject_any b E W) as [d2 Hd2];
      rewrite (bind_Ret _ _ _ _ _ _ Hd2)
  end.
  match goal with
  | |- context [ (clReleaseMemObject ?b ≫= _) E ?W ] =>
      destruct (clReleaseMemObject_any b E W) as [d3 Hd3];
      rewrite (bind_Ret _ _ _ _ _ _ Hd3)
  end.
  do 4 step ltac:(reflexivity).
  do 5 step ltac:(reflexivity).
  step ltac:(reflexivity).
  norm_handles h.
  eexists. unfold mret, M_ret. f_equal. world_eq.
  - rewrite <- !app_assoc. norm_handles h. reflexivity.
  - rewrite drop_ge, app_nil_r by lia. rewrite <- !app_assoc. reflexivity.
  - unfold mark_freed. host_eq.
    + unfold areas. wsimpl. rewrite drop_ge, app_nil_r by lia. reflexivity.
    + rewrite Hfreed. reflexivity.
Qed.

(** ** Device selection *)

Lemma log_call_log_calls e es w :
  log_calls es (log_call e w) = log_calls (e :: es) w.
Proof.
  world_eq.
  - rewrite Nat.add_succ_r. reflexivity.
  - rewrite <- app_assoc. reflexivity.
Qed.

Lemma secure_gpu_loop_found E Platform : ∀ j p err device_id w,
  Platform !! j = Some p →
  cl_status E (j + w_calls w) = CL_SUCCESS →
  (∀ i, (i < j)%nat → cl_status E (i + w_calls w) ≠ CL_SUCCESS) →
  secure_gpu_loop Platform err device_id E w
  = (Ret (CL_SUCCESS, cl_device_of E p CL_DEVICE_TYPE_GPU),
     log_calls (gpu_request <$> take (S j) Platform) w).
Proof.
  induction Platform as [|p0 rest IH]; intros j p err device_id w Hp Hj Hbefore.
  - done.
  - cbn [secure_gpu_loop]. erewrite bind_Ret by reflexivity. cbn beta iota zeta.
    destruct j as [|j].
    + injection Hp as ->. unfold status_now. cbn [Nat.add] in Hj. rewrite Hj.
      change (CL_SUCCESS =? CL_SUCCESS) with true. cbn iota.
      unfold mret, M_ret. f_equal.
    + assert (H0 : cl_status E (w_calls w) ≠ CL_SUCCESS) by (apply (Hbefore 0%nat); lia).
      unfold status_now.
      destruct (Z.eqb_spec (cl_status E (w_calls w)) CL_SUCCESS) as [|_]; [done|].
      rewrite (IH j p); [apply f_equal, log_call_log_calls | exact Hp | |].
      * wsimpl. rewrite Nat.add_succ_r. exact Hj.
      * intros i Hi. wsimpl. rewrite Nat.add_succ_r. apply (Hbefore (S i)). lia.
Qed.

Lemma secure_gpu_loop_none E Platform : ∀ err device_id w,
  (∀ i, (i < length Platform)%nat → cl_status E (i + w_calls w) ≠ CL_SUCCESS) →
  ∃ err',
    (Platform ≠ [] → err' ≠ CL_SUCCESS) ∧
    secure_gpu_loop Platform err device_id E w
    = (Ret (err', device_id), log_calls (gpu_request <$> Platform) w).
Proof.
  induction Platform as [|p0 rest IH]; intros err device_id w Hall.
  - exists err. split; [done|]. unfold secure_gpu_loop, mret, M_ret. f_equal.
    world_eq. symmetry. apply app_nil_r.
  - assert (H0 : cl_status E (w_calls w) ≠ CL_SUCCESS)
      by (apply (Hall 0%nat); simpl; lia).
    destruct (IH (cl_status E (w_calls w)) device_id
                (log_call (EvGetDeviceIDs p0 CL_DEVICE_TYPE_GPU 1) w)) as (err' & Herr' & Hloop).
    { intros i Hi. wsimpl. rewrite Nat.add_succ_r. apply (Hall (S i)). simpl. lia. }
    exists err'. split.
    + intros _. destruct rest as [|p1 rest]; [|by apply Herr'].
      unfold secure_gpu_loop, mret, M_ret in Hloop. by injection Hloop as <- _.
    + cbn [secure_gpu_loop]. erewrite bind_Ret by reflexivity. cbn beta iota zeta.
      unfold status_now.
      destruct (Z.eqb_spec (cl_status E (w_calls w)) CL_SUCCESS) as [|_]; [done|].
      rewrite Hloop. apply f_equal, log_call_log_calls.
Qed.

Lemma secure_gpu_found E Platform j p err w :
  Platform !! j = Some p →
  cl_status E (j + w_calls w) = CL_SUCCESS →
  (∀ i, (i < j)%nat → cl_status E (i + w_calls w) ≠ CL_SUCCESS) →
  secure_gpu Platform err NULL E w
  = (Ret (cl_device_of E p CL_DEVICE_TYPE_GPU),
     log_calls (gpu_request <$> take (S j) Platform) w).
Proof.
  intros Hp Hj Hbefore. unfold secure_gpu.
  rewrite (bind_Ret _ _ _ _ _ _ (secure_gpu_loop_found E Platform j p err NULL w Hp Hj Hbefore)).
  cbn beta iota zeta.
  destruct (cl_device_of E p CL_DEVICE_TYPE_GPU =? NULL).
  - check_ok. reflexivity.
  - reflexivity.
Qed.

Lemma secure_gpu_none E Platform err w :
  Platform ≠ [] →
  (∀ i, (i < length Platform)%nat → cl_status E (i + w_calls w) ≠ CL_SUCCESS) →
  ∃ err',
    err' ≠ CL_SUCCESS ∧
    secure_gpu Platform err NULL E w
    = (Exit EXIT_FAILURE,
       put_stderr ("Finding a device"%string, [PErrCode err'; PInt err'])
         (log_calls (gpu_request <$> Platform) w)).
Proof.
  intros Hne Hall.
  destruct (secure_gpu_loop_none E Platform err NULL w Hall) as (err' & Herr' & Hloop).
  exists err'. split; [by apply Herr'|].
  unfold secure_gpu. rewrite (bind_Ret _ _ _ _ _ _ Hloop). cbn beta iota zeta.
  change (NULL =? NULL) with true. cbn iota.
  erewrite bind_Exit; [reflexivity|]. apply checkError_failure. by apply Herr'.
Qed.

Lemma select_device_no_platform E w :
  cl_platforms E = [] →
  ∃ w', select_device E w = (Exit EXIT_FAILURE, w')
        ∧ w_trace w' = w_trace w ++ [EvGetPlatformIDs 0]
        ∧ w_stdout w' = w_stdout w
             ++ (if cl_status E (w_calls w) =? CL_SUCCESS
                 then [("Found 0 platforms!\n"%string, [])] else []).
Proof.
  intros Hnone. unfold select_device.
  erewrite bind_Ret by reflexivity. cbn beta iota zeta.
  rewrite Hnone. unfold status_now. cbn [length Z.of_nat].
  destruct (Z.eqb_spec (cl_status E (w_calls w)) CL_SUCCESS) as [->|Hfail].
  - check_ok. change (0 =? 0) with true. cbn iota.
    eexists. split; [reflexivity|]. split; reflexivity.
  - erewrite bind_Exit by (by apply checkError_failure).
    eexists. split; [reflexivity|]. split; [reflexivity|].
    wsimpl. symmetry. apply app_nil_r.
Qed.

Lemma select_device_found E w j p :
  cl_status E (w_calls w) = CL_SUCCESS →
  cl_status E (S (w_calls w)) = CL_SUCCESS →
  cl_platforms E !! j = Some p →
  cl_status E (j + S (S (w_calls w))) = CL_SUCCESS →
  (∀ i, (i < j)%nat → cl_status E (i + S (S (w_calls w))) ≠ CL_SUCCESS) →
  select_device E w
  = (Ret (cl_device_of E p CL_DEVICE_TYPE_GPU), log_calls (selection_trace E j) w).
Proof.
  intros H0 H1 Hp Hj Hbefore. unfold select_device.
  erewrite bind_Ret by reflexivity. cbn beta iota zeta.
  unfold status_now. rewrite H0. check_ok.
  assert (Hlen : (0 < length (cl_platforms E))%nat)
    by (apply lookup_lt_Some in Hp; lia).
  destruct (Z.eqb_spec (Z.of_nat (length (cl_platforms E))) 0) as [|_]; [lia|].
  erewrite bind_Ret by reflexivity. cbn beta iota zeta.
  unfold status_now. wsimpl. rewrite H1. check_ok.
  rewrite Nat2Z.id, firstn_all.
  rewrite (secure_gpu_found E (cl_platforms E) j p); [| done | exact Hj | exact Hbefore].
  f_equal. unfold selection_trace. world_eq.
  - cbn [length]. lia.
  - rewrite <- !app_assoc. reflexivity.
Qed.

Lemma select_device_none E w :
  cl_status E (w_calls w) = CL_SUCCESS →
  cl_status E (S (w_calls w)) = CL_SUCCESS →
  cl_platforms E ≠ [] →
  (∀ i, (i < length (cl_platforms E))%nat →
        cl_status E (i + S (S (w_calls w))) ≠ CL_SUCCESS) →
  ∃ w', select_device E w = (Exit EXIT_FAILURE, w')
        ∧ w_trace w'
          = w_trace w
            ++ [EvGetPlatformIDs 0;
                EvGetPlatformIDs (Z.of_nat (length (cl_platforms E)))]
            ++ (gpu_request <$> cl_platforms E).
Proof.
  intros H0 H1 Hne Hall. unfold select_device.
  erewrite bind_Ret by reflexivity. cbn beta iota zeta.
  unfold status_now. rewrite H0. check_ok.
  assert (Hlen : (0 < length (cl_platforms E))%nat)
    by (destruct (cl_platforms E); [done | simpl; lia]).
  destruct (Z.eqb_spec (Z.of_nat (length (cl_platforms E))) 0) as [|_]; [lia|].
  erewrite bind_Ret by reflexivity. cbn beta iota zeta.
  unfold status_now. wsimpl. rewrite H1. check_ok.
  rewrite Nat2Z.id, firstn_all.
  match goal with
  | |- context [ secure_gpu ?P ?e NULL E ?W ] =>
      destruct (secure_gpu_none E P e W Hne Hall) as (err' & _ & ->)
  end.
  eexists. split; [reflexivity|]. wsimpl. rewrite <- !app_assoc. reflexivity.
Qed.

Lemma found_gpu_Some E j :
  found_gpu E = Some j ↔
  (j < length (cl_platforms E))%nat
  ∧ cl_status E (2 + j) = CL_SUCCESS
  ∧ ∀ i, (i < j)%nat → cl_status E (2 + i) ≠ CL_SUCCESS.
Proof.
  unfold found_gpu. split.
  - intros Hfind.
    destruct (list_find _ _) as [[i x]|] eqn:Hf; [|done].
    injection Hfind as ->. apply list_find_Some in Hf as (Hx & Hs & Hbefore).
    apply lookup_seq in Hx as [-> Hj]. simpl in *.
    split; [done|]. split; [done|].
    intros i Hi. apply (Hbefore i i); [|done].
    apply lookup_seq. split; [done | lia].
  - intros (Hj & Hs & Hbefore).
    assert (Hf : list_find (λ i, cl_status E (2 + i)%nat = CL_SUCCESS)
                   (seq 0 (length (cl_platforms E))) = Some (j, j)).
    { apply list_find_Some. split; [by apply lookup_seq|]. split; [done|].
      intros i y Hy Hi. apply lookup_seq in Hy as [-> _]. by apply Hbefore. }
    rewrite Hf. reflexivity.
Qed.

(** ** The whole program *)

Lemma main_on_prologue G E N :
  0 ≤ N →
  G source_a = true → G source_b = true → G source_c = true →
  main_on G N E initial_world
  = (select_device ≫= run_on_device N) E (filled_world_on G E N).
Proof.
  intros HN Ha Hb Hc. unfold main_on. rewrite Ha, Hb, Hc.
  do 5 (erewrite bind_Ret by reflexivity).
  erewrite bind_Ret; cycle 1.
  { apply fill_vectors_steps; wsimpl;
      rewrite ?length_replicate, ?cells_of_calloc by done; reflexivity. }
  f_equal. unfold fill_world, fill_host, initial_world, calloc, filled_world_on.
  world_eq.
  host_eq; rewrite ?cells_of_calloc by done.
  - rewrite drop_ge, app_nil_r by (by rewrite length_replicate). reflexivity.
  - rewrite drop_ge, app_nil_r by (by rewrite length_replicate). reflexivity.
  - rewrite drop_ge, app_nil_r by (by rewrite length_replicate). reflexivity.
  - reflexivity.
  - reflexivity.
Qed.

Lemma main_body_prologue E N :
  0 ≤ N →
  main_body N E initial_world
  = (select_device ≫= run_on_device N) E (filled_world E N).
Proof. intros HN. by apply (main_on_prologue (λ _, true)). Qed.

Lemma main_on_all_granted G N : (∀ x, G x = true) → main_on G N = main_body N.
Proof. intros HG. unfold main_body, main_on. by rewrite !HG. Qed.

Lemma accepts_spec E :
  accepts E = true →
  ∃ j p,
    found_gpu E = Some j ∧ cl_platforms E !! j = Some p
    ∧ cl_status E 0 = CL_SUCCESS ∧ cl_status E 1 = CL_SUCCESS
    ∧ cl_status E (2 + j) = CL_SUCCESS
    ∧ (∀ i, (i < j)%nat → cl_status E (2 + i) ≠ CL_SUCCESS)
    ∧ (∀ i, (i < 21)%nat → cl_status E (i + (3 + j)) = CL_SUCCESS).
Proof.
  unfold accepts. intros Hacc.
  apply andb_prop in Hacc as [Hacc Hrest]. apply andb_prop in Hacc as [H0 H1].
  apply bool_decide_eq_true in H0, H1.
  destruct (found_gpu E) as [j|] eqn:Hj; [|done].
  pose proof (proj1 (found_gpu_Some E j) Hj) as (Hlt & Hs & Hbefore).
  destruct (lookup_lt_is_Some_2 (cl_platforms E) j Hlt) as [p Hp].
  exists j, p. repeat split; try done.
  intros i Hi. rewrite forallb_forall in Hrest.
  apply Z.eqb_eq, (Hrest i), in_seq. lia.
Qed.

Lemma main_body_accepted E N :
  100 ≤ N →
  accepts E = true →
  ∃ j p d,
    found_gpu E = Some j ∧ cl_platforms E !! j = Some p
    ∧ main_body N E initial_world
      = (Ret 0,
         finished_world E N (cl_device_of E p CL_DEVICE_TYPE_GPU)
           (log_calls (selection_trace E j) (filled_world E N)) d).
Proof.
  intros HN Hacc.
  destruct (accepts_spec E Hacc) as (j & p & Hj & Hp & H0 & H1 & Hs & Hbefore & Hrest).
  assert (Hlen : length (selection_trace E j) = (3 + j)%nat).
  { unfold selection_trace. rewrite length_app, length_fmap, length_take.
    apply lookup_lt_Some in Hp. cbn [length]. lia. }
  destruct (run_on_device_ok E N (cl_device_of E p CL_DEVICE_TYPE_GPU)
              (log_calls (selection_trace E j) (filled_world E N))) as [d Hd];
    try (wsimpl; rewrite ?length_fmap, ?length_seq, ?length_replicate; done).
  { intros i Hi. wsimpl. rewrite Hlen, Nat.add_0_r. by apply Hrest. }
  exists j, p, d. split; [done|]. split; [done|].
  rewrite main_body_prologue by lia.
  erewrite bind_Ret; [exact Hd|].
  apply select_device_found; try done.
  - wsimpl. rewrite Nat.add_comm. exact Hs.
  - intros i Hi. wsimpl. rewrite Nat.add_comm. by apply Hbefore.
Qed.

Lemma LENGTH_value : LENGTH = 78643200.
Proof. reflexivity. Qed.

Lemma run_accepted E :
  accepts E = true →
  ∃ j p d,
    found_gpu E = Some j ∧ cl_platforms E !! j = Some p
    ∧ run E
      = (Ret 0,
         finished_world E LENGTH (cl_device_of E p CL_DEVICE_TYPE_GPU)
           (log_calls (selection_trace E j) (filled_world E LENGTH)) d).
Proof.
  intros Hacc. unfold run, main.
  apply (main_body_accepted E LENGTH); [rewrite LENGTH_value; lia | exact Hacc].
Qed.

Lemma run_trace E :
  accepts E = true →
  ∃ j p,
    found_gpu E = Some j ∧ cl_platforms E !! j = Some p
    ∧ w_trace (run E).2
      = selection_trace E j
        ++ device_trace LENGTH (cl_device_of E p CL_DEVICE_TYPE_GPU) 1.
Proof.
  intros Hacc. destruct (run_accepted E Hacc) as (j & p & d & Hj & Hp & ->).
  exists j, p. split; [done|]. split; [done|]. reflexivity.
Qed.

Lemma area_cell_exact la lb lc i :
  area_cell la lb lc i
  = wrap_int (2 * ((la !!! i) * (lb !!! i) + (lb !!! i) * (lc !!! i)
                   + (la !!! i) * (lc !!! i))).
Proof.
  unfold area_cell. unfold int_mul at 2 3 4.
  rewrite !int_add_exact. apply int_mul_exact_l. unfold INT_MIN, INT_MAX. lia.
Qed.

(** ** Reading traces *)

Lemma buffer_allocations_selection E j : buffer_allocations (selection_trace E j) = [].
Proof.
  unfold selection_trace, buffer_allocations. cbn [app omap list_omap].
  induction (take (S j) (cl_platforms E)) as [|p l IH]; [done | exact IH].
Qed.

Lemma buffer_allocations_app tr1 tr2 :
  buffer_allocations (tr1 ++ tr2) = buffer_allocations tr1 ++ buffer_allocations tr2.
Proof. apply omap_app. Qed.

Lemma wtime_not_in_selection E j : EvWtime ∉ selection_trace E j.
Proof.
  unfold selection_trace. rewrite elem_of_app, list_elem_of_fmap.
  intros [Hin | (p & Hp & _)]; [|discriminate].
  apply elem_of_cons in Hin as [|Hin]; [discriminate|].
  apply elem_of_cons in Hin as [|Hin]; [discriminate|].
  by apply elem_of_nil in Hin.
Qed.








(** ** What no later step of [main] touches *)

Create HintDb keeps.

Lemma keeps_ret {A} (a : A) : keeps_inputs (mret a).
Proof. intros E w. reflexivity. Qed.

Lemma keeps_exit {A} code : keeps_inputs (@exit A code).
Proof. intros E w. reflexivity. Qed.

Lemma keeps_bind {A B} (m : M A) (f : A → M B) :
  keeps_inputs m → (∀ a, keeps_inputs (f a)) → keeps_inputs (m ≫= f).
Proof.
  intros Hm Hf E w. specialize (Hm E w). unfold mbind, M_bind.
  destruct (m E w) as [[a|c|] w']; cbn [snd] in *; [|done..].
  rewrite <- Hm. apply Hf.
Qed.

Lemma keeps_for_range body lo cnt :
  (∀ i, keeps_inputs (body i)) → keeps_inputs (for_range lo cnt body).
Proof.
  intros Hbody. revert lo.
  induction cnt as [|cnt IH]; intros lo; cbn [for_range].
  - apply keeps_ret.
  - apply keeps_bind; [apply Hbody | intros _; apply IH].
Qed.

Lemma keeps_printf fmt args : keeps_inputs (printf fmt args).
Proof. intros E w. reflexivity. Qed.
Lemma keeps_wtime : keeps_inputs wtime.
Proof. intros E w. reflexivity. Qed.
Lemma keeps_free x : keeps_inputs (free x).
Proof. intros E w. reflexivity. Qed.
Lemma keeps_load x i : keeps_inputs (load x i).
Proof. intros E w. unfold load. repeat case_match; reflexivity. Qed.
Lemma keeps_store_result_sequential i v :
  keeps_inputs (store result_sequential i v).
Proof. intros E w. unfold store. repeat case_match; reflexivity. Qed.
Lemma keeps_checkError err op : keeps_inputs (checkError err op).
Proof. intros E w. unfold checkError. repeat case_match; reflexivity. Qed.
Lemma keeps_clGetPlatformIDs_count : keeps_inputs clGetPlatformIDs_count.
Proof. intros E w. reflexivity. Qed.
Lemma keeps_clGetPlatformIDs n : keeps_inputs (clGetPlatformIDs n).
Proof. intros E w. reflexivity. Qed.
Lemma keeps_clGetDeviceIDs p t n d : keeps_inputs (clGetDeviceIDs p t n d).
Proof. intros E w. reflexivity. Qed.
Lemma keeps_clGetDeviceInfo d p s : keeps_inputs (clGetDeviceInfo d p s).
Proof. intros E w. reflexivity. Qed.
Lemma keeps_create_object ev : keeps_inputs (create_object ev).
Proof. intros E w. unfold create_object. repeat case_match; reflexivity. Qed.
Lemma keeps_clBuildProgram p : keeps_inputs (clBuildProgram p).
Proof. intros E w. reflexivity. Qed.
Lemma keeps_clGetProgramBuildInfo p d x s b :
  keeps_inputs (clGetProgramBuildInfo p d x s b).
Proof. intros E w. reflexivity. Qed.
Lemma keeps_undefined {A} : keeps_inputs (@undefined A).
Proof. intros E w. reflexivity. Qed.
Lemma keeps_clCreateBuffer c f s : keeps_inputs (clCreateBuffer c f s).
Proof. intros E w. unfold clCreateBuffer. repeat case_match; reflexivity. Qed.
Lemma keeps_clEnqueueWriteBuffer q b k o s x :
  keeps_inputs (clEnqueueWriteBuffer q b k o s x).
Proof. intros E w. unfold clEnqueueWriteBuffer. repeat case_match; reflexivity. Qed.
Lemma keeps_clSetKernelArg k i s v : keeps_inputs (clSetKernelArg k i s v).
Proof. intros E w. unfold clSetKernelArg. repeat case_match; reflexivity. Qed.
Lemma keeps_clEnqueueNDRangeKernel q k d g :
  keeps_inputs (clEnqueueNDRangeKernel q k d g).
Proof. intros E w. unfold clEnqueueNDRangeKernel. repeat case_match; reflexivity. Qed.
Lemma keeps_clFinish q : keeps_inputs (clFinish q).
Proof. intros E w. unfold clFinish. repeat case_match; reflexivity. Qed.
Lemma keeps_clEnqueueReadBuffer_result_opencl q b k o s :
  keeps_inputs (clEnqueueReadBuffer q b k o s result_opencl).
Proof. intros E w. unfold clEnqueueReadBuffer. repeat case_match; reflexivity. Qed.
Lemma keeps_clReleaseMemObject h : keeps_inputs (clReleaseMemObject h).
Proof. intros E w. unfold clReleaseMemObject. repeat case_match; reflexivity. Qed.
Lemma keeps_release_object e : keeps_inputs (release_object e).
Proof. intros E w. reflexivity. Qed.

#[local] Hint Resolve keeps_ret keeps_exit keeps_undefined keeps_printf keeps_wtime keeps_free
  keeps_load keeps_store_result_sequential keeps_checkError
  keeps_clGetPlatformIDs_count keeps_clGetPlatformIDs keeps_clGetDeviceIDs
  keeps_clGetDeviceInfo keeps_create_object keeps_clBuildProgram
  keeps_clGetProgramBuildInfo keeps_clCreateBuffer keeps_clEnqueueWriteBuffer
  keeps_clSetKernelArg keeps_clEnqueueNDRangeKernel keeps_clFinish
  keeps_clEnqueueReadBuffer_result_opencl keeps_clReleaseMemObject
  keeps_release_object : keeps.

(** Walk through a program: binds, branches, tuples, then the primitives. *)
Ltac keeps_walk :=
  repeat first
    [ apply keeps_bind; [| intros ?]
    | apply keeps_for_range; intros ?
    | match goal with
      | |- keeps_inputs (match ?x with pair _ _ => _ end) => destruct x
      | |- keeps_inputs (if ?b then _ else _) => destruct b
      | |- keeps_inputs (match ?x with Some _ => _ | None => _ end) => destruct x
      end
    | solve [auto with keeps] ].

Lemma keeps_secure_gpu_loop Platform : ∀ err device_id,
  keeps_inputs (secure_gpu_loop Platform err device_id).
Proof.
  induction Platform as [|p rest IH]; intros err device_id; cbn [secure_gpu_loop].
  - apply keeps_ret.
  - keeps_walk.
Qed.

#[local] Hint Resolve keeps_secure_gpu_loop : keeps.

Lemma keeps_select_device : keeps_inputs select_device.
Proof.
  unfold select_device, secure_gpu. keeps_walk.
Qed.

Lemma keeps_run_on_device N device_id : keeps_inputs (run_on_device N device_id).
Proof.
  unfold run_on_device, compute_on_device, sequential, print_result,
    clCreateContext, clCreateCommandQueue, clCreateProgramWithSource,
    clCreateKernel, clReleaseProgram, clReleaseKernel, clReleaseCommandQueue,
    clReleaseContext.
  keeps_walk.
Qed.

Lemma main_body_inputs E N :
  0 ≤ N → inputs_of (main_body N E initial_world).2 = inputs_of (filled_world E N).
Proof.
  intros HN. rewrite main_body_prologue by done.
  apply keeps_bind; [apply keeps_select_device | apply keeps_run_on_device].
Qed.

(** ** The generated inputs *)

Lemma edge_in_range r : 0 ≤ r ≤ RAND_MAX → 1 ≤ edge r ≤ 9.
Proof.
  intros Hr. unfold edge, int_add, int_rem.
  pose proof (Z.rem_bound_pos r 9 ltac:(lia) ltac:(lia)) as Hrem.
  rewrite wrap_int_in_range; unfold INT_MIN, INT_MAX; lia.
Qed.

Lemma checked_in_range z : INT_MIN ≤ z ≤ INT_MAX → checked z = Some z.
Proof.
  intros Hz. unfold checked, in_int_range.
  destruct (Z.leb_spec INT_MIN z); [|lia].
  destruct (Z.leb_spec z INT_MAX); [|lia]. reflexivity.
Qed.

Lemma small_cuboid a b c :
  1 ≤ a ≤ 9 → 1 ≤ b ≤ 9 → 1 ≤ c ≤ 9 →
  2 * ((a * b) + (b * c) + (a * c)) ≤ 486
  ∧ int_mul 2 (int_add (int_add (int_mul a b) (int_mul b c)) (int_mul a c))
    = 2 * ((a * b) + (b * c) + (a * c))
  ∧ checked_area a b c = Some (2 * ((a * b) + (b * c) + (a * c))).
Proof.
  intros Ha Hb Hc.
  assert (Hab : 1 ≤ a * b ≤ 81) by nia.
  assert (Hbc : 1 ≤ b * c ≤ 81) by nia.
  assert (Hac : 1 ≤ a * c ≤ 81) by nia.
  split; [lia|]. split.
  - unfold int_mul, int_add.
    rewrite (wrap_int_in_range (a * b)), (wrap_int_in_range (b * c)),
      (wrap_int_in_range (a * c)) by (unfold INT_MIN, INT_MAX; lia).
    rewrite (wrap_int_in_range (a * b + b * c)) by (unfold INT_MIN, INT_MAX; lia).
    rewrite (wrap_int_in_range (a * b + b * c + a * c))
      by (unfold INT_MIN, INT_MAX; lia).
    apply wrap_int_in_range. unfold INT_MIN, INT_MAX. lia.
  - unfold checked_area, checked_mul, checked_add. cbn [mbind option_bind].
    rewrite (checked_in_range (a * b)), (checked_in_range (b * c)),
      (checked_in_range (a * c)) by (unfold INT_MIN, INT_MAX; lia).
    cbn [mbind option_bind].
    rewrite (checked_in_range (a * b + b * c)) by (unfold INT_MIN, INT_MAX; lia).
    cbn [mbind option_bind].
    rewrite (checked_in_range (a * b + b * c + a * c))
      by (unfold INT_MIN, INT_MAX; lia).
    cbn [mbind option_bind].
    apply checked_in_range. unfold INT_MIN, INT_MAX. lia.
Qed.

Lemma main_body_sources E N :
  0 ≤ N →
  h_source_a (w_host (main_body N E initial_world).2)
  = drawn E 1 0 <$> seq 0 (Z.to_nat N)
  ∧ h_source_b (w_host (main_body N E initial_world).2)
    = drawn E 1 1 <$> seq 0 (Z.to_nat N)
  ∧ h_source_c (w_host (main_body N E initial_world).2)
    = drawn E 1 2 <$> seq 0 (Z.to_nat N)
  ∧ w_rand (main_body N E initial_world).2 = rand_state E (3 * Z.to_nat N) 1.
Proof.
  intros HN. pose proof (main_body_inputs E N HN) as Hin. unfold inputs_of in Hin.
  injection Hin as Ha Hb Hc Hr.
  split; [exact Ha|]. split; [exact Hb|]. split; [exact Hc | exact Hr].
Qed.

Lemma run_sources E :
  h_source_a (w_host (run E).2) = drawn E 1 0 <$> seq 0 (Z.to_nat LENGTH)
  ∧ h_source_b (w_host (run E).2) = drawn E 1 1 <$> seq 0 (Z.to_nat LENGTH)
  ∧ h_source_c (w_host (run E).2) = drawn E 1 2 <$> seq 0 (Z.to_nat LENGTH)
  ∧ w_rand (run E).2 = rand_state E (3 * Z.to_nat LENGTH) 1.
Proof.
  unfold run, main. apply (main_body_sources E LENGTH). rewrite LENGTH_value. lia.
Qed.

Lemma lcg_in_range s : 0 ≤ (lcg s).1 ≤ RAND_MAX.
Proof.
  unfold lcg, RAND_MAX. cbn [fst].
  pose proof (Z.mod_pos_bound ((s * 1103515245 + 12345) mod 4294967296 / 65536)
                32768 ltac:(lia)).
  lia.
Qed.

Lemma rand_state_ext E1 E2 k s :
  (∀ s, rand_impl E1 s = rand_impl E2 s) → rand_state E1 k s = rand_state E2 k s.
Proof.
  intros Hsame. induction k as [|k IH]; cbn [rand_state]; [done|].
  by rewrite IH, Hsame.
Qed.

Lemma drawn_ext E1 E2 s off n :
  (∀ s, rand_impl E1 s = rand_impl E2 s) →
  drawn E1 s off <$> seq 0 n = drawn E2 s off <$> seq 0 n.
Proof.
  intros Hsame. apply list_fmap_ext. intros _ i _. unfold drawn, rand_value.
  by rewrite (rand_state_ext E1 E2), Hsame.
Qed.

Lemma main_body_results E N :
  100 ≤ N →
  accepts E = true →
  h_result_sequential (w_host (main_body N E initial_world).2)
  = area_cell (h_source_a (w_host (main_body N E initial_world).2))
              (h_source_b (w_host (main_body N E initial_world).2))
              (h_source_c (w_host (main_body N E initial_world).2))
    <$> seq 0 (Z.to_nat N).
Proof.
  intros HN Hacc.
  destruct (main_body_accepted E N HN Hacc) as (j & p & d & _ & _ & ->).
  reflexivity.
Qed.

Lemma main_body_repeats E1 E2 N :
  100 ≤ N →
  (∀ s, rand_impl E1 s = rand_impl E2 s) →
  h_source_a (w_host (main_body N E1 initial_world).2)
  = h_source_a (w_host (main_body N E2 initial_world).2)
  ∧ h_source_b (w_host (main_body N E1 initial_world).2)
    = h_source_b (w_host (main_body N E2 initial_world).2)
  ∧ h_source_c (w_host (main_body N E1 initial_world).2)
    = h_source_c (w_host (main_body N E2 initial_world).2)
  ∧ w_rand (main_body N E1 initial_world).2
    = rand_state E1 (3 * Z.to_nat N) (w_rand initial_world)
  ∧ (accepts E1 = true → accepts E2 = true →
     h_result_sequential (w_host (main_body N E1 initial_world).2)
     = h_result_sequential (w_host (main_body N E2 initial_world).2)).
Proof.
  intros HN Hsame.
  destruct (main_body_sources E1 N ltac:(lia)) as (Ha1 & Hb1 & Hc1 & Hr1).
  destruct (main_body_sources E2 N ltac:(lia)) as (Ha2 & Hb2 & Hc2 & _).
  assert (Ha : h_source_a (w_host (main_body N E1 initial_world).2)
               = h_source_a (w_host (main_body N E2 initial_world).2))
    by (rewrite Ha1, Ha2; by apply drawn_ext).
  assert (Hb : h_source_b (w_host (main_body N E1 initial_world).2)
               = h_source_b (w_host (main_body N E2 initial_world).2))
    by (rewrite Hb1, Hb2; by apply drawn_ext).
  assert (Hc : h_source_c (w_host (main_body N E1 initial_world).2)
               = h_source_c (w_host (main_body N E2 initial_world).2))
    by (rewrite Hc1, Hc2; by apply drawn_ext).
  split; [exact Ha|]. split; [exact Hb|]. split; [exact Hc|]. split; [exact Hr1|].
  intros Hacc1 Hacc2.
  rewrite (main_body_results E1 N HN Hacc1), (main_body_results E2 N HN Hacc2).
  rewrite Ha, Hb, Hc. reflexivity.
Qed.

(** ** Runs that return 0 are the accepted ones *)

Lemma bind_fst_Ret {A B} (m : M A) (f : A → M B) E w b :
  ((m ≫= f) E w).1 = Ret b →
  ∃ a, (m E w).1 = Ret a ∧ (f a E (m E w).2).1 = Ret b.
Proof.
  unfold mbind, M_bind. destruct (m E w) as [[a|c|] w']; cbn [fst snd]; [|done..].
  intros Hf. by exists a.
Qed.

Lemma checkError_passed {B} err op (f : unit → M B) E w b :
  ((checkError err op ≫= f) E w).1 = Ret b →
  err = CL_SUCCESS ∧ (f tt E w).1 = Ret b.
Proof.
  intros H. destruct (Z.eqb_spec err CL_SUCCESS) as [->|Hne].
  - split; [done|]. by rewrite (bind_Ret _ _ _ _ _ _ (checkError_success op E w)) in H.
  - by rewrite (bind_Exit _ _ _ _ _ _ (checkError_failure err op E w Hne)) in H.
Qed.

Lemma never_returns_exit {A} c : never_returns (@exit A c).
Proof. intros E w a. discriminate. Qed.

Lemma never_returns_bind {A B} (m : M A) (f : A → M B) :
  (∀ a, never_returns (f a)) → never_returns (m ≫= f).
Proof.
  intros Hf E w b Hb. apply bind_fst_Ret in Hb as (a & _ & Hb). by apply Hf in Hb.
Qed.

Lemma guard_passed {B} err (fail : M unit) (f : unit → M B) E w b :
  never_returns fail →
  (((if negb (err =? CL_SUCCESS) then fail else mret tt) ≫= f) E w).1 = Ret b →
  err = CL_SUCCESS ∧ (f tt E w).1 = Ret b.
Proof.
  intros Hfail H. destruct (Z.eqb_spec err CL_SUCCESS) as [->|Hne]; cbn [negb] in H.
  - split; [done|]. by erewrite bind_Ret in H by reflexivity.
  - apply bind_fst_Ret in H as (a & Ha & _). by apply Hfail in Ha.
Qed.

Ltac calls_once_tac :=
  intros E w a; unfold status_now; repeat case_match;
  first [ intros [= <-]; split; reflexivity | intros [=] ].

Lemma calls_once_clGetDeviceInfo d p s : calls_once (clGetDeviceInfo d p s) fst.
Proof. unfold clGetDeviceInfo. calls_once_tac. Qed.
Lemma calls_once_create_object ev : calls_once (create_object ev) snd.
Proof. unfold create_object. calls_once_tac. Qed.
Lemma calls_once_clBuildProgram p : calls_once (clBuildProgram p) id.
Proof. unfold clBuildProgram. calls_once_tac. Qed.
Lemma calls_once_clCreateBuffer c f s : calls_once (clCreateBuffer c f s) snd.
Proof. unfold clCreateBuffer. calls_once_tac. Qed.
Lemma calls_once_clEnqueueWriteBuffer q b k o s x :
  calls_once (clEnqueueWriteBuffer q b k o s x) id.
Proof. unfold clEnqueueWriteBuffer. calls_once_tac. Qed.
Lemma calls_once_clSetKernelArg k i s v : calls_once (clSetKernelArg k i s v) id.
Proof. unfold clSetKernelArg. calls_once_tac. Qed.
Lemma calls_once_clEnqueueNDRangeKernel q k d g :
  calls_once (clEnqueueNDRangeKernel q k d g) id.
Proof. unfold clEnqueueNDRangeKernel. calls_once_tac. Qed.
Lemma calls_once_clFinish q : calls_once (clFinish q) id.
Proof. unfold clFinish. calls_once_tac. Qed.
Lemma calls_once_clEnqueueReadBuffer q b k o s x :
  calls_once (clEnqueueReadBuffer q b k o s x) id.
Proof. unfold clEnqueueReadBuffer. calls_once_tac. Qed.

(** One API call in front of [H]: its status goes to [Hs], the count of
    calls made so far is kept in [Hc]. *)
Ltac inv_call H lem Hc Hs :=
  let a := fresh "a" in
  let Ha := fresh "Ha" in
  let Hc' := fresh "Hc" in
  apply bind_fst_Ret in H as (a & Ha & H);
  lazymatch type of Ha with
  | fst ?X = Ret _ =>
      apply lem in Ha as [Hs Hc'];
      lazymatch type of Hc' with
      | _ = ?n => change (w_calls (snd X) = n) in Hc'
      end;
      cbn [w_calls put_stdout log_wtime] in Hs, Hc';
      rewrite Hc in Hs; rewrite Hc in Hc'; clear Hc; rename Hc' into Hc;
      let w1 := fresh "w" in
      remember (snd X) as w1 eqn:Hw1 in *; clear Hw1
  end.

Ltac inv_check H := apply checkError_passed in H as [-> H].

Ltac inv_guard H :=
  apply guard_passed in H as [-> H];
  [| repeat (apply never_returns_bind; intros ?); apply never_returns_exit ].

(** A call that yields a pair. *)
Ltac inv_call2 H lem Hc Hs :=
  inv_call H lem Hc Hs;
  lazymatch type of Hs with
  | fst ?a = _ => destruct a as [? ?]
  | snd ?a = _ => destruct a as [? ?]
  end;
  cbn beta iota zeta in H; cbn [fst snd] in Hs.

Lemma compute_on_device_checked E N context commands kernel w r :
  (compute_on_device N context commands kernel E w).1 = Ret r →
  ∀ i, (i < 14)%nat → cl_status E (i + w_calls w) = CL_SUCCESS.
Proof.
  intros H. remember (w_calls w) as c eqn:Hc. symmetry in Hc.
  unfold compute_on_device in H.
  inv_call2 H calls_once_clCreateBuffer Hc Hs0. inv_check H.
  inv_call2 H calls_once_clCreateBuffer Hc Hs1. inv_check H.
  inv_call2 H calls_once_clCreateBuffer Hc Hs2. inv_check H.
  inv_call2 H calls_once_clCreateBuffer Hc Hs3. inv_check H.
  inv_call H calls_once_clEnqueueWriteBuffer Hc Hs4. inv_check H.
  inv_call H calls_once_clEnqueueWriteBuffer Hc Hs5. inv_check H.
  inv_call H calls_once_clEnqueueWriteBuffer Hc Hs6. inv_check H.
  inv_call H calls_once_clSetKernelArg Hc Hs7.
  inv_call H calls_once_clSetKernelArg Hc Hs8.
  inv_call H calls_once_clSetKernelArg Hc Hs9.
  inv_call H calls_once_clSetKernelArg Hc Hs10.
  cbn zeta in H. apply checkError_passed in H as [Hlor H].
  apply Z.lor_eq_0_iff in Hlor as [Hlor ->].
  apply Z.lor_eq_0_iff in Hlor as [Hlor ->].
  apply Z.lor_eq_0_iff in Hlor as [-> ->].
  erewrite bind_Ret in H by reflexivity.
  inv_call H calls_once_clEnqueueNDRangeKernel Hc Hs11. inv_check H.
  inv_call H calls_once_clFinish Hc Hs12. inv_check H.
  erewrite bind_Ret in H by reflexivity. cbn zeta in H.
  erewrite bind_Ret in H by reflexivity.
  inv_call H calls_once_clEnqueueReadBuffer Hc Hs13. inv_guard H.
  unfold id in *.
  intros i Hi.
  do 14 (destruct i as [|i]; [symmetry; assumption|]). lia.
Qed.

Lemma run_on_device_checked E N device_id w :
  (run_on_device N device_id E w).1 = Ret 0 →
  ∀ i, (i < 21)%nat → cl_status E (i + w_calls w) = CL_SUCCESS.
Proof.
  intros H. remember (w_calls w) as c eqn:Hc. symmetry in Hc.
  unfold run_on_device in H.
  inv_call2 H calls_once_clGetDeviceInfo Hc Hs0. inv_guard H.
  erewrite bind_Ret in H by apply print_device_type.
  inv_call2 H calls_once_clGetDeviceInfo Hc Hs1. inv_guard H.
  erewrite bind_Ret in H by reflexivity.
  inv_call2 H calls_once_create_object Hc Hs2. inv_check H.
  inv_call2 H calls_once_create_object Hc Hs3. inv_check H.
  inv_call2 H calls_once_create_object Hc Hs4. inv_check H.
  inv_call H calls_once_clBuildProgram Hc Hs5. inv_guard H.
  inv_call2 H calls_once_create_object Hc Hs6. inv_check H.
  apply bind_fst_Ret in H as (r & Hr & _).
  pose proof (compute_on_device_checked _ _ _ _ _ _ _ Hr) as Hrest.
  rewrite Hc in Hrest. unfold id in *.
  intros i Hi.
  do 7 (destruct i as [|i]; [symmetry; assumption|]).
  replace (S (S (S (S (S (S (S i)))))) + c)%nat with (i + (S (S (S (S (S (S (S c))))))))%nat
    by lia.
  apply Hrest. lia.
Qed.

Lemma secure_gpu_returns E Platform err w device_id :
  Platform ≠ [] →
  (secure_gpu Platform err NULL E w).1 = Ret device_id →
  ∃ j p, Platform !! j = Some p
         ∧ cl_status E (j + w_calls w) = CL_SUCCESS
         ∧ ∀ i, (i < j)%nat → cl_status E (i + w_calls w) ≠ CL_SUCCESS.
Proof.
  intros Hne Hret.
  destruct (list_find (λ i, cl_status E (i + w_calls w)%nat = CL_SUCCESS)
              (seq 0 (length Platform))) as [[j x]|] eqn:Hf.
  - apply list_find_Some in Hf as (Hx & Hs & Hbefore).
    apply lookup_seq in Hx as [-> Hj]. cbn [Nat.add] in *.
    destruct (lookup_lt_is_Some_2 Platform j Hj) as [p Hp].
    exists j, p. split; [done|]. split; [done|].
    intros i Hi. apply (Hbefore i i); [|done]. apply lookup_seq. split; [done|lia].
  - apply list_find_None in Hf. rewrite Forall_forall in Hf.
    destruct (secure_gpu_none E Platform err w Hne) as (err' & _ & Hexit).
    { intros i Hi. apply Hf, list_elem_of_In, in_seq. lia. }
    rewrite Hexit in Hret. discriminate.
Qed.

Lemma select_device_returns E w device_id :
  (select_device E w).1 = Ret device_id →
  ∃ j p,
    cl_platforms E !! j = Some p
    ∧ cl_status E (w_calls w) = CL_SUCCESS
    ∧ cl_status E (S (w_calls w)) = CL_SUCCESS
    ∧ cl_status E (j + S (S (w_calls w))) = CL_SUCCESS
    ∧ (∀ i, (i < j)%nat → cl_status E (i + S (S (w_calls w))) ≠ CL_SUCCESS).
Proof.
  intros H. unfold select_device in H.
  erewrite bind_Ret in H by reflexivity. cbn beta iota zeta in H.
  apply checkError_passed in H as [H0 H].
  destruct (Z.eqb_spec (Z.of_nat (length (cl_platforms E))) 0) as [Hzero|Hsome].
  { apply bind_fst_Ret in H as (a & _ & H). discriminate. }
  erewrite bind_Ret in H by reflexivity. cbn beta iota zeta in H.
  apply checkError_passed in H as [H1 H].
  rewrite Nat2Z.id, firstn_all in H.
  apply secure_gpu_returns in H as (j & p & Hp & Hj & Hbefore).
  - exists j, p. repeat split; done.
  - intros Hnil. rewrite Hnil in Hsome. done.
Qed.

Lemma forallb_seq_true (f : nat → bool) n :
  forallb f (seq 0 n) = true ↔ ∀ i, (i < n)%nat → f i = true.
Proof.
  rewrite forallb_forall. split.
  - intros H i Hi. apply H, in_seq. lia.
  - intros H i Hi. apply H. apply in_seq in Hi. lia.
Qed.

Lemma main_on_returns_0 G E N :
  0 ≤ N →
  G source_a = true → G source_b = true → G source_c = true →
  (main_on G N E initial_world).1 = Ret 0 → accepts E = true.
Proof.
  intros HN Ha Hb Hc H. rewrite main_on_prologue in H by done.
  apply bind_fst_Ret in H as (device_id & Hsel & H).
  pose proof (select_device_returns E _ _ Hsel) as (j & p & Hp & H0 & H1 & Hj & Hbefore).
  cbn [w_calls filled_world_on] in H0, H1, Hj, Hbefore.
  rewrite (select_device_found E (filled_world_on G E N) j p H0 H1 Hp Hj Hbefore) in H.
  cbn [snd] in H.
  pose proof (run_on_device_checked E N device_id _ H) as Hrest.
  cbn [w_calls log_calls filled_world_on] in Hrest.
  assert (Hlen : length (selection_trace E j) = (3 + j)%nat).
  { unfold selection_trace. rewrite length_app, length_fmap, length_take.
    apply lookup_lt_Some in Hp. cbn [length]. lia. }
  rewrite Hlen, Nat.add_0_r in Hrest.
  unfold accepts. rewrite !bool_decide_eq_true_2 by done. cbn [andb].
  assert (Hfound : found_gpu E = Some j).
  { apply found_gpu_Some. split; [by apply lookup_lt_Some in Hp|]. split.
    - by rewrite Nat.add_comm.
    - intros i Hi. rewrite Nat.add_comm. by apply Hbefore. }
  rewrite Hfound. apply forallb_seq_true. intros i Hi.
  apply Z.eqb_eq. by apply Hrest.
Qed.

Lemma main_body_returns_0 E N :
  0 ≤ N → (main_body N E initial_world).1 = Ret 0 → accepts E = true.
Proof. intros HN. by apply (main_on_returns_0 (λ _, true)). Qed.

(** The runs that return 0 are exactly those on which every checked call
    succeeds. *)
Lemma run_returns_0_iff E : (run E).1 = Ret 0 ↔ accepts E = true.
Proof.
  split.
  - unfold run, main. apply main_body_returns_0. rewrite LENGTH_value. lia.
  - intros Hacc. destruct (run_accepted E Hacc) as (j & p & d & _ & _ & ->).
    reflexivity.
Qed.

(** ** Small runs *)

(** With 100 items the whole program can be evaluated. *)
Example run_of_100_items :
  (main_body 100 sample_environment initial_world).1 = Ret 0.
Proof. vm_compute. reflexivity. Qed.

(** With fewer than 100 items the printing loop reads past the end of the
    arrays. *)
Example run_of_4_items : (main_body 4 sample_environment initial_world).1 = Undef.
Proof. vm_compute. reflexivity. Qed.

Example second_platform_environment_accepted :
  accepts second_platform_environment = true.
Proof. reflexivity. Qed.

(** A build that fails with a log that cannot be read ends at the [printf]
    of line 164. *)
Example unreadable_log_environment_garbled :
  garbled_log unreadable_log_environment = true.
Proof. reflexivity. Qed.

Example run_with_unreadable_log :
  (main_body 100 unreadable_log_environment initial_world).1 = Undef.
Proof. vm_compute. reflexivity. Qed.

(** Without [result_opencl] the readback writes through [NULL]; without
    [source_b] the filling loop does. *)
Example run_without_result_opencl :
  (main_on (λ x, match x with result_opencl => false | _ => true end) 100
     sample_environment initial_world).1 = Undef.
Proof. vm_compute. reflexivity. Qed.

Example run_without_source_b :
  (main_on (λ x, match x with source_b => false | _ => true end) 100
     sample_environment initial_world).1 = Undef.
Proof. vm_compute. reflexivity. Qed.

(** A device that reports [2^32 - 1] compute units is shown with -1. *)
Example compute_units_read_as_int : wrap_int 4294967295 = -1.
Proof. reflexivity. Qed.

(** ** Rules of the judgement for every path *)

Lemma hoare_ret {A} E (a : A) (Q : A → world → Prop) X : hoare E (Q a) (mret a) Q X.
Proof. intros w HQ. exact HQ. Qed.

Lemma hoare_bind {A B} E P (m : M A) (f : A → M B) Q R X :
  hoare E P m Q X → (∀ a, hoare E (Q a) (f a) R X) → hoare E P (m ≫= f) R X.
Proof.
  intros Hm Hf w HP. specialize (Hm w HP). unfold mbind, M_bind.
  destruct (m E w) as [[a|c|] w']; [by apply Hf | done | done].
Qed.

Lemma hoare_pre {A} E (P P' : world → Prop) (m : M A) Q X :
  (∀ w, P w → P' w) → hoare E P' m Q X → hoare E P m Q X.
Proof. intros HP Hm w Hw. by apply Hm, HP. Qed.

Lemma hoare_post {A} E P (m : M A) (Q Q' : A → world → Prop) X :
  (∀ a w, Q' a w → Q a w) → hoare E P m Q' X → hoare E P m Q X.
Proof.
  intros HQ Hm w Hw. specialize (Hm w Hw).
  destruct (m E w) as [[a|c|] w']; [by apply HQ | done | done].
Qed.

Lemma hoare_pure {A} E (φ : Prop) P (m : M A) Q X :
  (φ → hoare E P m Q X) → hoare E (λ w, φ ∧ P w) m Q X.
Proof. intros Hm w [Hφ Hw]. by apply Hm. Qed.

Lemma hoare_for_range E P body X cnt : ∀ lo,
  (∀ i, (lo ≤ i < lo + cnt)%nat → hoare E P (body i) (λ _, P) X) →
  hoare E P (for_range lo cnt body) (λ _, P) X.
Proof.
  induction cnt as [|cnt IH]; intros lo Hbody; cbn [for_range].
  - apply (hoare_ret E tt (λ _, P)).
  - eapply hoare_bind; [apply Hbody; lia|]. intros []. apply IH.
    intros i Hi. apply Hbody. lia.
Qed.

(** ** What each call keeps intact *)

Lemma released_handles_snoc tr e :
  released_handles tr = [] → released_handles [e] = [] → released_handles (tr ++ [e]) = [].
Proof. intros Htr He. unfold released_handles in *. by rewrite omap_app, Htr, He. Qed.

(** The goal [intact _ _ _ w'] for a world [w'] built from an intact one by
    logging, printing or rebinding. *)
Ltac intact_tac H :=
  destruct H as [Hlive Hhost Hcells Hheld Hkept Hquiet Hcalls];
  revert Hlive Hhost Hcells Hheld Hkept Hquiet Hcalls; wsimpl;
  intros Hlive Hhost Hcells Hheld Hkept Hquiet Hcalls;
  constructor; wsimpl;
  first [ assumption
        | by apply released_handles_snoc
        | by rewrite Hcalls
        | idtac ].

Lemma hoare_printf E G N held k fmt args X :
  hoare E (intact G N held k) (printf fmt args) (λ _, intact G N held k) X.
Proof. intros w H. unfold printf. intact_tac H. Qed.

Lemma hoare_wtime E G N held k X :
  hoare E (intact G N held k) wtime (λ _, intact G N held k) X.
Proof. intros w H. unfold wtime. intact_tac H. Qed.

Lemma hoare_clGetPlatformIDs_count E G N held k X :
  hoare E (intact G N held k) clGetPlatformIDs_count
    (λ a w, (a.1 = cl_status E k ∧ a.2 = Z.of_nat (length (cl_platforms E)))
            ∧ intact G N held (S k) w) X.
Proof.
  intros w H. unfold clGetPlatformIDs_count, status_now. cbn [fst snd].
  split; [by rewrite (intact_calls _ _ _ _ _ H)|]. intact_tac H.
Qed.

Lemma hoare_clGetPlatformIDs E G N held k num X :
  hoare E (intact G N held k) (clGetPlatformIDs num)
    (λ a w, (a.1 = cl_status E k ∧ a.2 = take (Z.to_nat num) (cl_platforms E))
            ∧ intact G N held (S k) w) X.
Proof.
  intros w H. unfold clGetPlatformIDs, status_now. cbn [fst snd].
  split; [by rewrite (intact_calls _ _ _ _ _ H)|]. intact_tac H.
Qed.

Lemma hoare_clGetDeviceIDs E G N held k p t num dev X :
  hoare E (intact G N held k) (clGetDeviceIDs p t num dev)
    (λ a w, a.1 = cl_status E k ∧ intact G N held (S k) w) X.
Proof.
  intros w H. unfold clGetDeviceIDs, status_now. cbn [fst snd].
  split; [by rewrite (intact_calls _ _ _ _ _ H)|]. intact_tac H.
Qed.

Lemma hoare_clGetDeviceInfo E G N held k device param size X :
  hoare E (intact G N held k) (clGetDeviceInfo device param size)
    (λ a w, a.1 = cl_status E k ∧ intact G N held (S k) w) X.
Proof.
  intros w H. unfold clGetDeviceInfo, status_now. cbn [fst snd].
  split; [by rewrite (intact_calls _ _ _ _ _ H)|]. intact_tac H.
Qed.

Lemma hoare_create_object E G N held k ev X :
  (∀ h, released_handles [ev h] = []) →
  hoare E (intact G N held k) (create_object ev)
    (λ a w, a.2 = cl_status E k ∧ intact G N held (S k) w) X.
Proof.
  intros Hev w H. unfold create_object, status_now.
  rewrite (intact_calls _ _ _ _ _ H).
  destruct (cl_status E k =? CL_SUCCESS); cbn [fst snd];
    (split; [reflexivity|]); intact_tac H.
Qed.

Lemma hoare_clBuildProgram E G N held k program X :
  hoare E (intact G N held k) (clBuildProgram program)
    (λ a w, a = cl_status E k ∧ intact G N held (S k) w) X.
Proof.
  intros w H. unfold clBuildProgram, status_now.
  split; [by rewrite (intact_calls _ _ _ _ _ H)|]. intact_tac H.
Qed.

(** Work items and queued commands keep every buffer and its size. *)
Lemma cuboid_area_lookup a b c r i (mem : gmap Z (list Z)) h l :
  cuboid_area a b c r i mem !! h = Some l →
  ∃ l', mem !! h = Some l' ∧ length l' = length l.
Proof.
  unfold cuboid_area. repeat case_match; try (intros; by exists l).
  destruct (decide (r = h)) as [->|Hne].
  - rewrite lookup_alter_eq. intros Hl. apply fmap_Some in Hl as (l' & Hl' & ->).
    exists l'. split; [done|]. by rewrite length_insert.
  - rewrite lookup_alter_ne by done. intros; by exists l.
Qed.

Lemma cuboid_area_is_Some a b c r i (mem : gmap Z (list Z)) h :
  is_Some (mem !! h) → is_Some (cuboid_area a b c r i mem !! h).
Proof.
  unfold cuboid_area. repeat case_match; try done.
  intros Hh. destruct (decide (r = h)) as [->|Hne].
  - rewrite lookup_alter_eq. by apply fmap_is_Some.
  - by rewrite lookup_alter_ne.
Qed.

Lemma exec_commands_keep n (held : list Z) (q : list command) : ∀ mem : gmap Z (list Z),
  (∀ h l, mem !! h = Some l → length l = n) →
  (∀ h, h ∈ held → is_Some (mem !! h)) →
  (∀ h l, fold_left (λ m c, exec_command c m) q mem !! h = Some l → length l = n)
  ∧ (∀ h, h ∈ held → is_Some (fold_left (λ m c, exec_command c m) q mem !! h)).
Proof.
  assert (Hitems : ∀ a b c r (ids : list nat) (mem : gmap Z (list Z)),
            (∀ h l, mem !! h = Some l → length l = n) →
            (∀ h, h ∈ held → is_Some (mem !! h)) →
            (∀ h l, fold_left (λ m i, cuboid_area a b c r i m) ids mem !! h = Some l
                    → length l = n)
            ∧ (∀ h, h ∈ held →
                    is_Some (fold_left (λ m i, cuboid_area a b c r i m) ids mem !! h))).
  { intros a b c r ids. induction ids as [|i ids IH]; intros mem Hlen Hin; [done|].
    cbn [fold_left]. apply IH.
    - intros h l Hl. apply cuboid_area_lookup in Hl as (l' & Hl' & <-). by eapply Hlen.
    - intros h Hh. by apply cuboid_area_is_Some, Hin. }
  induction q as [|c q IH]; intros mem Hlen Hin; [done|].
  cbn [fold_left]. apply IH.
  - destruct c as [kn args g]. unfold exec_command, run_ndrange.
    repeat case_match; try done. by apply Hitems.
  - destruct c as [kn args g]. unfold exec_command, run_ndrange.
    repeat case_match; try done. by apply Hitems.
Qed.

Lemma intact_flush G N held k w :
  intact G N held k w → intact G N held k (set_dev (flush (w_dev w)) w).
Proof.
  intros H. destruct H as [Hlive Hhost Hcells Hheld Hkept Hquiet Hcalls].
  destruct (exec_commands_keep (Z.to_nat N) held (dev_queue (w_dev w))
              (dev_buffers (w_dev w)) Hcells Hheld) as [Hc Hh].
  constructor; wsimpl; assumption.
Qed.

Lemma hoare_clCreateBuffer E G N held k context flags X :
  0 ≤ N →
  hoare E (intact G N held k) (clCreateBuffer context flags (sizeof_float * N))
    (λ a w, a.2 = cl_status E k
            ∧ (if a.2 =? CL_SUCCESS then intact G N (a.1 :: held) (S k) w
               else intact G N held (S k) w)) X.
Proof.
  intros HN w H. unfold clCreateBuffer, status_now.
  rewrite (intact_calls _ _ _ _ _ H).
  destruct (cl_status E k =? CL_SUCCESS) eqn:Hs; cbn [fst snd];
    (split; [reflexivity|]); rewrite Hs.
  - destruct H as [Hlive Hhost Hcells Hheld Hkept Hquiet Hcalls].
    constructor; wsimpl; try assumption.
    + intros h l. destruct (decide (dev_next (w_dev w) = h)) as [->|Hne].
      * rewrite lookup_insert_eq. intros [= <-].
        by rewrite length_fmap, length_seq, cells_of_floats.
      * rewrite lookup_insert_ne by done. apply Hcells.
    + intros h Hh. destruct (decide (dev_next (w_dev w) = h)) as [->|Hne].
      * by rewrite lookup_insert_eq.
      * rewrite lookup_insert_ne by done. apply Hheld.
        apply elem_of_cons in Hh as [|]; [congruence | done].
    + by apply released_handles_snoc.
    + by rewrite Hcalls.
  - intact_tac H.
Qed.

Lemma intact_held_more G N held k w h :
  intact G N (h :: held) k w → intact G N held k w.
Proof.
  intros [Hlive Hhost Hcells Hheld Hkept Hquiet Hcalls]. constructor; try assumption.
  intros h' Hh'. apply Hheld. by apply elem_of_cons; right.
Qed.

Lemma length_blit_all (new old : list Z) n :
  length new = n → length old = n → length (blit 0 n new old) = n.
Proof. intros Hn Ho. by rewrite blit_all. Qed.

Lemma hoare_clEnqueueWriteBuffer E G N held k queue buffer src X :
  0 ≤ N → G src = true →
  hoare E (intact G N held k)
    (clEnqueueWriteBuffer queue buffer CL_TRUE 0 (sizeof_float * N) src)
    (λ a w, a = cl_status E k ∧ intact G N held (S k) w) X.
Proof.
  intros HN Hsrc w H. unfold clEnqueueWriteBuffer, status_now.
  rewrite (intact_calls _ _ _ _ _ H).
  destruct (cl_status E k =? CL_SUCCESS) eqn:Hs.
  - rewrite is_live_fresh by apply H.
    rewrite bool_decide_eq_true_2
      by (rewrite cells_of_floats, (intact_host _ _ _ _ _ H) by done; lia).
    cbn [andb]. split; [reflexivity|].
    apply intact_flush in H.
    destruct H as [Hlive Hhost Hcells Hheld Hkept Hquiet Hcalls].
    revert Hlive Hhost Hcells Hheld Hkept Hquiet Hcalls. wsimpl.
    intros Hlive Hhost Hcells Hheld Hkept Hquiet Hcalls.
    constructor; wsimpl; try assumption.
    + intros h l. destruct (decide (buffer = h)) as [->|Hne].
      * rewrite lookup_alter_eq. intros Hl. apply fmap_Some in Hl as (l' & Hl' & ->).
        rewrite cells_of_floats by done. change (cells_of 0) with 0%nat.
        apply length_blit_all; [by apply Hhost | by eapply Hcells].
      * rewrite lookup_alter_ne by done. apply Hcells.
    + intros h Hh. destruct (decide (buffer = h)) as [->|Hne].
      * rewrite lookup_alter_eq. by apply fmap_is_Some, Hheld.
      * rewrite lookup_alter_ne by done. by apply Hheld.
    + by apply released_handles_snoc.
    + by rewrite Hcalls.
  - split; [reflexivity|]. intact_tac H.
Qed.

Lemma hoare_clSetKernelArg E G N held k kernel index value X :
  hoare E (intact G N held k) (clSetKernelArg kernel index sizeof_cl_mem value)
    (λ a w, a = cl_status E k
            ∧ (intact G N held (S k) w
               ∧ last (w_trace w) = Some (EvSetKernelArg kernel index sizeof_cl_mem value)))
    X.
Proof.
  intros w H. unfold clSetKernelArg, status_now.
  rewrite (intact_calls _ _ _ _ _ H).
  destruct (cl_status E k =? CL_SUCCESS);
    (split; [reflexivity|]); (split; [intact_tac H | wsimpl; apply last_snoc]).
Qed.

Lemma hoare_clEnqueueNDRangeKernel E G N held k queue kernel dim global X :
  hoare E (intact G N held k) (clEnqueueNDRangeKernel queue kernel dim global)
    (λ a w, a = cl_status E k ∧ intact G N held (S k) w) X.
Proof.
  intros w H. unfold clEnqueueNDRangeKernel, status_now.
  rewrite (intact_calls _ _ _ _ _ H).
  destruct (cl_status E k =? CL_SUCCESS); (split; [reflexivity|]); intact_tac H.
Qed.

Lemma hoare_clFinish E G N held k queue X :
  hoare E (intact G N held k) (clFinish queue)
    (λ a w, a = cl_status E k ∧ intact G N held (S k) w) X.
Proof.
  intros w H. unfold clFinish, status_now.
  rewrite (intact_calls _ _ _ _ _ H).
  destruct (cl_status E k =? CL_SUCCESS); (split; [reflexivity|]).
  - apply intact_flush in H. intact_tac H.
  - intact_tac H.
Qed.

Lemma hoare_clEnqueueReadBuffer E G N held k queue buffer X :
  0 ≤ N → buffer ∈ held →
  (cl_status E k = CL_SUCCESS → G result_opencl = true) →
  hoare E (intact G N held k)
    (clEnqueueReadBuffer queue buffer CL_TRUE 0 (sizeof_float * N) result_opencl)
    (λ a w, a = cl_status E k ∧ intact G N held (S k) w) X.
Proof.
  intros HN Hin Hdst w H. unfold clEnqueueReadBuffer, status_now.
  rewrite (intact_calls _ _ _ _ _ H).
  destruct (Z.eqb_spec (cl_status E k) CL_SUCCESS) as [Hs|Hs].
  - specialize (Hdst Hs).
    rewrite is_live_fresh by apply H.
    rewrite bool_decide_eq_true_2
      by (rewrite cells_of_floats, (intact_host _ _ _ _ _ H) by done; lia).
    cbn [andb]. split; [reflexivity|].
    pose proof (intact_host _ _ _ _ _ H result_opencl Hdst) as Ho.
    apply intact_flush in H.
    destruct H as [Hlive Hhost Hcells Hheld Hkept Hquiet Hcalls].
    revert Hlive Hhost Hcells Hheld Hkept Hquiet Hcalls. wsimpl.
    intros Hlive Hhost Hcells Hheld Hkept Hquiet Hcalls.
    constructor; wsimpl; try assumption.
    + intros x Hx. destruct x; try apply (Hhost source_a Hx);
        try apply (Hhost source_b Hx); try apply (Hhost source_c Hx);
        try apply (Hhost result_sequential Hx).
      destruct (Hheld buffer Hin) as [l Hl]. rewrite Hl.
      cbn [default option_rect from_option id]. change (cells_of 0) with 0%nat.
      rewrite drop_0, cells_of_floats by done.
      apply length_blit_all; [by eapply Hcells | exact Ho].
    + by apply released_handles_snoc.
    + by rewrite Hcalls.
  - split; [reflexivity|]. intact_tac H.
Qed.

Lemma hoare_load E G N held k x i X :
  (i < Z.to_nat N)%nat → G x = true →
  hoare E (intact G N held k) (load x i) (λ _, intact G N held k) X.
Proof.
  intros Hi Hx w H. unfold load. rewrite is_live_fresh by apply H.
  destruct (lookup_lt_is_Some_2 (array_of x (w_host w)) i) as [v ->];
    [by rewrite (intact_host _ _ _ _ _ H) | exact H].
Qed.

Lemma hoare_store E G N held k x i v X :
  (i < Z.to_nat N)%nat → G x = true →
  hoare E (intact G N held k) (store x i v) (λ _, intact G N held k) X.
Proof.
  intros Hi Hx w H. unfold store. rewrite is_live_fresh by apply H.
  rewrite bool_decide_eq_true_2 by (by rewrite (intact_host _ _ _ _ _ H)).
  cbn [andb].
  destruct H as [Hlive Hhost Hcells Hheld Hkept Hquiet Hcalls].
  constructor; wsimpl; try assumption.
  - by destruct x.
  - intros y Hy. specialize (Hhost y Hy).
    destruct x, y; wsimpl; rewrite ?length_insert; assumption.
Qed.

(** ** Checks and guards *)

Lemma halted_put E w w' :
  w_calls w' = w_calls w → w_trace w' = w_trace w → halted E w → halted E w'.
Proof. unfold halted. intros -> ->. done. Qed.

Lemma failed_after_call E G N held k w :
  intact G N held (S k) w → cl_status E k ≠ CL_SUCCESS → halted E w.
Proof.
  intros H Hk. right. exists k. split; [done|]. left. apply H.
Qed.

Lemma hoare_checkError E G N held k err op (P : world → Prop) :
  (∀ w, P w → intact G N held k w) →
  (∀ w, P w → err ≠ CL_SUCCESS → halted E w) →
  hoare E P (checkError err op) (λ _ w, err = CL_SUCCESS ∧ P w) (failed E).
Proof.
  intros HP Hhalt w Hw. unfold checkError.
  destruct (Z.eqb_spec err CL_SUCCESS) as [->|Hne]; [by split|].
  cbn. split; [reflexivity|].
  pose proof (HP w Hw) as H.
  split; [apply H|]. split; [apply H|]. split.
  - eapply halted_put; [| | by apply Hhalt]; reflexivity.
  - right. exists op, err. split; [done|]. wsimpl.
    by rewrite (intact_quiet _ _ _ _ _ H).
Qed.

(** The guard of lines 120-124, 136-140 and 219-223. *)
Lemma hoare_guard E G N held k err fmt args code :
  code = EXIT_FAILURE →
  fmt ∈ complaints →
  err = cl_status E k →
  hoare E (intact G N held (S k))
    (if negb (err =? CL_SUCCESS) then printf fmt args ;; exit code else mret tt)
    (λ _ w, err = CL_SUCCESS ∧ intact G N held (S k) w) (failed E).
Proof.
  intros -> Hfmt -> w H.
  destruct (Z.eqb_spec (cl_status E k) CL_SUCCESS) as [Hs|Hne]; cbn [negb].
  - by split.
  - cbn. split; [reflexivity|]. split; [apply H|]. split; [apply H|]. split.
    + eapply halted_put; [| | by eapply failed_after_call]; reflexivity.
    + left. wsimpl. split; [apply H|]. exists fmt, args.
      split; [|exact Hfmt]. apply elem_of_app. right. by apply list_elem_of_singleton.
Qed.

(** The guard of lines 157-166, when the log of a failed build can be
    printed. *)
Lemma hoare_build_guard E G N held k err fmt args program device fmt' :
  fmt ∈ complaints →
  err = cl_status E k →
  (cl_status E k ≠ CL_SUCCESS → log_readable E (S k) = true) →
  hoare E (intact G N held (S k))
    (if negb (err =? CL_SUCCESS) then
       printf fmt args ;;
       buffer ← clGetProgramBuildInfo program device CL_PROGRAM_BUILD_LOG 2048 None;
       match buffer with
       | Some log => printf fmt' [PString log]
       | None => undefined
       end ;;
       exit EXIT_FAILURE
     else mret tt)
    (λ _ w, err = CL_SUCCESS ∧ intact G N held (S k) w) (failed E).
Proof.
  intros Hfmt -> Hlog w H.
  destruct (Z.eqb_spec (cl_status E k) CL_SUCCESS) as [Hs|Hne]; cbn [negb].
  - by split.
  - specialize (Hlog Hne). unfold log_readable in Hlog.
    unfold mbind, M_bind, printf, clGetProgramBuildInfo, status_now. wsimpl.
    rewrite (intact_calls _ _ _ _ _ H), Hlog.
    cbn. split; [reflexivity|]. split; [apply H|]. split; [|split].
    + apply released_handles_snoc; [apply H | done].
    + right. exists k. split; [done|]. right; left.
      wsimpl. rewrite (intact_calls _ _ _ _ _ H). split; [done|].
      by rewrite last_snoc.
    + left. wsimpl. split; [apply H|]. exists fmt, args.
      split; [|exact Hfmt]. rewrite !elem_of_app. left; right.
      by apply list_elem_of_singleton.
Qed.

Lemma hoare_sequential E G N held k X :
  G source_a = true → G source_b = true → G source_c = true →
  G result_sequential = true →
  hoare E (intact G N held k) (sequential N) (λ _, intact G N held k) X.
Proof.
  intros Ha Hb Hc Hs. unfold sequential. apply hoare_for_range. intros i Hi.
  repeat (eapply hoare_bind; [apply hoare_load; [lia | assumption] | intros ?]).
  apply hoare_store; [lia | assumption].
Qed.

Lemma hoare_print_result E G N held k X :
  100 ≤ N → (∀ x, G x = true) →
  hoare E (intact G N held k) print_result (λ _, intact G N held k) X.
Proof.
  intros HN HG. unfold print_result. apply hoare_for_range. intros i Hi.
  repeat (eapply hoare_bind; [apply hoare_load; [lia | apply HG] | intros ?]).
  apply hoare_printf.
Qed.

(** ** The blocks of [main] on every path *)

Lemma hoare_exists {A B} E (P : B → world → Prop) (m : M A) Q X :
  (∀ x, hoare E (P x) m Q X) → hoare E (λ w, ∃ x, P x w) m Q X.
Proof. intros Hm w [x Hx]. by apply (Hm x). Qed.

Lemma hoare_secure_gpu_loop E G N held Platform X : ∀ err device_id k,
  hoare E (intact G N held k) (secure_gpu_loop Platform err device_id)
    (λ a w, ∃ k', intact G N held k' w
                  ∧ ((a.1 = err ∧ k' = k) ∨ ∃ k0, k' = S k0 ∧ a.1 = cl_status E k0)) X.
Proof.
  induction Platform as [|p rest IH]; intros err device_id k; cbn [secure_gpu_loop].
  - intros w H. exists k. split; [exact H | by left].
  - eapply hoare_bind; [apply hoare_clGetDeviceIDs|].
    intros [e d]. cbn beta iota. cbn [fst snd]. apply hoare_pure. intros ->.
    destruct (cl_status E k =? CL_SUCCESS).
    + intros w H. exists (S k). split; [exact H|]. right. by exists k.
    + eapply hoare_post; [|apply IH].
      intros a w (k' & H & [[Ha Hk]|Hd]); exists k'; (split; [exact H|]); right.
      * by exists k.
      * exact Hd.
Qed.

Lemma hoare_secure_gpu E G N held k Platform :
  hoare E (intact G N held k) (secure_gpu Platform CL_SUCCESS NULL)
    (λ _ w, ∃ k', intact G N held k' w) (failed E).
Proof.
  unfold secure_gpu.
  eapply hoare_bind; [apply hoare_secure_gpu_loop|].
  intros [err dev]. cbn beta iota. cbn [fst snd].
  apply (hoare_bind _ _ _ _ (λ _ w, ∃ k', intact G N held k' w)).
  - destruct (dev =? NULL).
    + intros w (k' & H & Hd). unfold checkError.
      destruct (Z.eqb_spec err CL_SUCCESS) as [->|Hne]; [by exists k'|].
      cbn. split; [reflexivity|]. split; [apply H|]. split; [apply H|]. split.
      * destruct Hd as [[Herr _]|(k0 & -> & ->)]; [done|].
        eapply halted_put; [| | by eapply failed_after_call]; reflexivity.
      * right. eexists _, err. split; [done|]. wsimpl.
        by rewrite (intact_quiet _ _ _ _ _ H).
    + intros w (k' & H & _). by exists k'.
  - intros []. apply (hoare_ret E dev (λ _ w, ∃ k', intact G N held k' w)).
Qed.

Ltac hcall spec :=
  eapply hoare_bind;
  [ eapply spec; try done
  | first [ intros [? ?] | intros ? ]; cbn beta iota; cbn [fst snd];
    apply hoare_pure ].

Ltac hcheck :=
  eapply hoare_bind;
  [ eapply hoare_checkError;
    [ intros ? HP; exact HP
    | intros ? HP ?; by eapply failed_after_call ]
  | intros []; apply hoare_pure; intros ? ].

Lemma hoare_select_device E G N held k :
  hoare E (intact G N held k) select_device (λ _ w, ∃ k', intact G N held k' w) (failed E).
Proof.
  unfold select_device. cbn zeta.
  hcall hoare_clGetPlatformIDs_count. intros [-> ->].
  hcheck.
  destruct (Z.eqb_spec (Z.of_nat (length (cl_platforms E))) 0) as [Hzero|Hsome].
  - intros w Hw. cbn. split; [reflexivity|]. split; [apply Hw|]. split; [apply Hw|].
    split; [left; apply nil_length_inv; lia|].
    left. wsimpl. split; [apply Hw|]. eexists _, _. split.
    + apply elem_of_app. right. by apply list_elem_of_singleton.
    + by apply elem_of_cons; left.
  - hcall hoare_clGetPlatformIDs. intros [-> ->].
    hcheck.
    match goal with Hs : cl_status E (S k) = CL_SUCCESS |- _ => rewrite Hs end.
    apply hoare_secure_gpu.
Qed.

Ltac hplain spec := eapply hoare_bind; [ eapply spec; try done | intros ? ].

Ltac complaint := apply list_elem_of_In; cbn; tauto.

Ltac hguard :=
  eapply hoare_bind;
  [ eapply hoare_guard; [reflexivity | complaint | reflexivity]
  | intros []; apply hoare_pure; intros ? ].

Lemma lor_failure a b c d :
  Z.lor (Z.lor (Z.lor a b) c) d ≠ 0 → a ≠ 0 ∨ b ≠ 0 ∨ c ≠ 0 ∨ d ≠ 0.
Proof.
  intros Hlor.
  destruct (decide (a = 0)) as [->|]; [|by left].
  destruct (decide (b = 0)) as [->|]; [|by right; left].
  destruct (decide (c = 0)) as [->|]; [|by right; right; left].
  destruct (decide (d = 0)) as [->|]; [done | by right; right; right].
Qed.

Tactic Notation "statuses" integer(n) :=
  let i := fresh "i" in
  let Hi := fresh "Hi" in
  intros i Hi; do n (destruct i as [|i]; [assumption|]); try lia.

Lemma hoare_compute_on_device E G N held k context commands kernel :
  0 ≤ N →
  G source_a = true → G source_b = true → G source_c = true →
  ((∀ i, (i < 14)%nat → cl_status E (i + k) = CL_SUCCESS) → G result_opencl = true) →
  hoare E (intact G N held k) (compute_on_device N context commands kernel)
    (λ _ w, (∀ i, (i < 14)%nat → cl_status E (i + k) = CL_SUCCESS)
            ∧ intact G N held (14 + k) w) (failed E).
Proof.
  intros HN Ha Hb Hc Hdst. unfold compute_on_device.
  (* the buffers *)
  hcall hoare_clCreateBuffer. intros ->.
  eapply hoare_pre;
    [intros w Hw; instantiate (1 := intact G N held (S k));
     destruct (_ =? _); [by eapply intact_held_more | exact Hw] |].
  hcheck.
  hcall hoare_clCreateBuffer. intros ->.
  eapply hoare_pre;
    [intros w Hw; instantiate (1 := intact G N held (S (S k)));
     destruct (_ =? _); [by eapply intact_held_more | exact Hw] |].
  hcheck.
  hcall hoare_clCreateBuffer. intros ->.
  eapply hoare_pre;
    [intros w Hw; instantiate (1 := intact G N held (S (S (S k))));
     destruct (_ =? _); [by eapply intact_held_more | exact Hw] |].
  hcheck.
  hcall hoare_clCreateBuffer. intros ->.
  eapply hoare_bind.
  { eapply (hoare_checkError E G N held (S (S (S (S k))))).
    - intros w Hw. destruct (_ =? _); [by eapply intact_held_more | exact Hw].
    - intros w Hw Hne. eapply (failed_after_call E G N held); [|exact Hne].
      destruct (_ =? _); [by eapply intact_held_more | exact Hw]. }
  intros []. apply hoare_pure. intros Hres. rewrite Hres.
  change (CL_SUCCESS =? CL_SUCCESS) with true. cbn iota.
  (* the uploads *)
  hcall hoare_clEnqueueWriteBuffer. intros ->. hcheck.
  hcall hoare_clEnqueueWriteBuffer. intros ->. hcheck.
  hcall hoare_clEnqueueWriteBuffer. intros ->. hcheck.
  (* the arguments *)
  hcall hoare_clSetKernelArg. intros ->.
  eapply hoare_pre; [intros w Hw; exact (proj1 Hw)|].
  hcall hoare_clSetKernelArg. intros ->.
  eapply hoare_pre; [intros w Hw; exact (proj1 Hw)|].
  hcall hoare_clSetKernelArg. intros ->.
  eapply hoare_pre; [intros w Hw; exact (proj1 Hw)|].
  hcall hoare_clSetKernelArg. intros ->. cbn zeta.
  eapply hoare_bind.
  { eapply hoare_checkError.
    - intros w Hw. exact (proj1 Hw).
    - intros w [Hw Hlast] Hne. right.
      pose proof (intact_calls _ _ _ _ _ Hw) as Hcalls.
      apply lor_failure in Hne as [Hne|[Hne|[Hne|Hne]]];
        (eexists; split; [exact Hne|]); right; right;
        (split; [lia | by rewrite Hlast]). }
  intros []. apply hoare_pure. intros Hlor.
  apply Z.lor_eq_0_iff in Hlor as [Hlor Hs10].
  apply Z.lor_eq_0_iff in Hlor as [Hlor Hs9].
  apply Z.lor_eq_0_iff in Hlor as [Hs7 Hs8].
  eapply hoare_pre; [intros w Hw; exact (proj1 Hw)|].
  (* the launch *)
  hplain hoare_wtime.
  hcall hoare_clEnqueueNDRangeKernel. intros ->. hcheck.
  hcall hoare_clFinish. intros ->. hcheck.
  hplain hoare_wtime. cbn zeta.
  hplain hoare_printf.
  (* the readback *)
  hcall hoare_clEnqueueReadBuffer;
    [by apply elem_of_cons; left | intros Hs13; apply Hdst; statuses 14 |].
  intros ->. hguard.
  intros w Hw. split; [statuses 14 | by eapply intact_held_more].
Qed.

Lemma hoare_print_device_type E G N held k t X :
  hoare E (intact G N held k)
    (if t =? CL_DEVICE_TYPE_GPU then printf "Device type: GPU \n" []
     else if t =? CL_DEVICE_TYPE_CPU then printf "Device type: CPU \n" []
     else printf "Device type: Not CPU nor GPU \n" [])
    (λ _, intact G N held k) X.
Proof. repeat case_match; apply hoare_printf. Qed.

(** Lines 249-266 always run to the end. *)
Lemma cleanup_returns E d_a d_b d_c program kernel commands context w :
  ∃ w',
    (clReleaseMemObject d_a ;; clReleaseMemObject d_b ;; clReleaseMemObject d_c ;;
     clReleaseProgram program ;; clReleaseKernel kernel ;;
     clReleaseCommandQueue commands ;; clReleaseContext context ;;
     free source_a ;; free source_b ;; free source_c ;;
     free result_opencl ;; free result_sequential ;;
     printf "\n" [] ;; mret 0) E w
    = (Ret 0, w').
Proof.
  destruct (clReleaseMemObject_any d_a E w) as [d1 H1].
  rewrite (bind_Ret _ _ _ _ _ _ H1).
  match goal with
  | |- context [ (clReleaseMemObject ?b ≫= _) E ?W ] =>
      destruct (clReleaseMemObject_any b E W) as [d2 H2];
      rewrite (bind_Ret _ _ _ _ _ _ H2)
  end.
  match goal with
  | |- context [ (clReleaseMemObject ?b ≫= _) E ?W ] =>
      destruct (clReleaseMemObject_any b E W) as [d3 H3];
      rewrite (bind_Ret _ _ _ _ _ _ H3)
  end.
  do 10 (erewrite bind_Ret by reflexivity).
  eexists. reflexivity.
Qed.

Lemma hoare_cleanup E d_a d_b d_c program kernel commands context X :
  hoare E (λ _, True)
    (clReleaseMemObject d_a ;; clReleaseMemObject d_b ;; clReleaseMemObject d_c ;;
     clReleaseProgram program ;; clReleaseKernel kernel ;;
     clReleaseCommandQueue commands ;; clReleaseContext context ;;
     free source_a ;; free source_b ;; free source_c ;;
     free result_opencl ;; free result_sequential ;;
     printf "\n" [] ;; mret 0)
    (λ a _, a = 0) X.
Proof.
  intros w _.
  destruct (cleanup_returns E d_a d_b d_c program kernel commands context w)
    as [w' ->].
  reflexivity.
Qed.

(** Lines 117-266 never reach an undefined step when the input arrays
    exist, the result arrays exist if every checked call succeeds, and the
    log of a failed build can be printed. *)
Lemma hoare_run_on_device E G N held k device_id :
  100 ≤ N →
  G source_a = true → G source_b = true → G source_c = true →
  ((∀ i, (i < 21)%nat → cl_status E (i + k) = CL_SUCCESS) →
   G result_opencl = true ∧ G result_sequential = true) →
  ((∀ i, (i < 5)%nat → cl_status E (i + k) = CL_SUCCESS) →
   cl_status E (5 + k) ≠ CL_SUCCESS → log_readable E (6 + k) = true) →
  hoare E (intact G N held k) (run_on_device N device_id) (λ a _, a = 0) (failed E).
Proof.
  intros HN Ha Hb Hc Hres Hlog. unfold run_on_device.
  hcall hoare_clGetDeviceInfo. intros ->. hguard.
  hplain hoare_print_device_type.
  hcall hoare_clGetDeviceInfo. intros ->. hguard.
  hplain hoare_printf.
  hcall hoare_create_object. intros ->. hcheck.
  hcall hoare_create_object. intros ->. hcheck.
  hcall hoare_create_object. intros ->. hcheck.
  hcall hoare_clBuildProgram. intros ->.
  eapply hoare_bind;
    [eapply hoare_build_guard;
     [complaint | reflexivity | apply Hlog; statuses 5]|].
  intros []. apply hoare_pure. intros ?.
  hcall hoare_create_object. intros ->. hcheck.
  eapply hoare_bind.
  { apply hoare_compute_on_device; [lia | done.. |].
    intros Hrest. apply Hres. statuses 7.
    replace (S (S (S (S (S (S (S i)))))) + k)%nat with (i + (7 + k))%nat by lia.
    apply Hrest. lia. }
  intros [[[[d_a d_b] d_c] d_result] cl_time]. cbn beta iota.
  apply hoare_pure. intros Hrest.
  assert (Hall : G result_opencl = true ∧ G result_sequential = true).
  { apply Hres. statuses 7.
    replace (S (S (S (S (S (S (S i)))))) + k)%nat with (i + (7 + k))%nat by lia.
    apply Hrest. lia. }
  destruct Hall as [Ho Hs].
  hplain hoare_wtime.
  hplain hoare_sequential.
  hplain hoare_wtime. cbn zeta.
  hplain hoare_printf.
  hplain hoare_printf.
  eapply hoare_bind; [apply hoare_print_result; [lia | by intros []]|]. intros [].
  hplain hoare_printf.
  eapply hoare_pre; [|apply hoare_cleanup]. done.
Qed.

(** ** Runs that fail once a device is held *)

Lemma refused_at_spec E k :
  refused_at E = Some k →
  ∃ j p,
    found_gpu E = Some j ∧ cl_platforms E !! j = Some p
    ∧ cl_status E 0 = CL_SUCCESS ∧ cl_status E 1 = CL_SUCCESS
    ∧ cl_status E (2 + j) = CL_SUCCESS
    ∧ (∀ i, (i < j)%nat → cl_status E (2 + i) ≠ CL_SUCCESS)
    ∧ (k < 21)%nat
    ∧ (∀ i, (i < k)%nat → cl_status E (i + (3 + j)) = CL_SUCCESS)
    ∧ cl_status E (k + (3 + j)) ≠ CL_SUCCESS.
Proof.
  unfold refused_at. intros Href.
  destruct (bool_decide (cl_status E 0 = CL_SUCCESS)) eqn:H0; [|done].
  destruct (bool_decide (cl_status E 1 = CL_SUCCESS)) eqn:H1; [|done].
  apply bool_decide_eq_true in H0, H1. cbn [andb] in Href.
  destruct (found_gpu E) as [j|] eqn:Hj; [|done]. cbn [mbind option_bind] in Href.
  pose proof (proj1 (found_gpu_Some E j) Hj) as (Hlt & Hs & Hbefore).
  destruct (lookup_lt_is_Some_2 (cl_platforms E) j Hlt) as [p Hp].
  destruct (list_find _ _) as [[i x]|] eqn:Hf; [|done].
  injection Href as ->. apply list_find_Some in Hf as (Hx & Hfail & Hfirst).
  apply lookup_seq in Hx as [-> Hk]. cbn [Nat.add] in *.
  exists j, p. repeat split; try done.
  intros i Hi. destruct (decide (cl_status E (i + (3 + j)) = CL_SUCCESS)) as [|Hne]; [done|].
  exfalso. apply (Hfirst i i); [|done..]. apply lookup_seq. split; [done | lia].
Qed.

Lemma main_on_refused G E N k :
  0 ≤ N →
  G source_a = true → G source_b = true → G source_c = true →
  refused_at E = Some k →
  ∃ j p,
    found_gpu E = Some j ∧ cl_platforms E !! j = Some p
    ∧ (∀ i, (i < k)%nat → cl_status E (i + (3 + j)) = CL_SUCCESS)
    ∧ cl_status E (k + (3 + j)) ≠ CL_SUCCESS
    ∧ main_on G N E initial_world
      = run_on_device N (cl_device_of E p CL_DEVICE_TYPE_GPU) E
          (log_calls (selection_trace E j) (filled_world_on G E N)).
Proof.
  intros HN Ha Hb Hc Href.
  destruct (refused_at_spec E k Href)
    as (j & p & Hj & Hp & H0 & H1 & Hs & Hbefore & Hk & Hok & Hfail).
  exists j, p. repeat (split; [done|]).
  rewrite main_on_prologue by done.
  apply bind_Ret. apply select_device_found; try done.
  - wsimpl. rewrite Nat.add_comm. exact Hs.
  - intros i Hi. wsimpl. rewrite Nat.add_comm. by apply Hbefore.
Qed.

Lemma main_body_refused E N k :
  0 ≤ N →
  refused_at E = Some k →
  ∃ j p,
    found_gpu E = Some j ∧ cl_platforms E !! j = Some p
    ∧ (∀ i, (i < k)%nat → cl_status E (i + (3 + j)) = CL_SUCCESS)
    ∧ cl_status E (k + (3 + j)) ≠ CL_SUCCESS
    ∧ main_body N E initial_world
      = run_on_device N (cl_device_of E p CL_DEVICE_TYPE_GPU) E
          (log_calls (selection_trace E j) (filled_world E N)).
Proof. intros HN. by apply (main_on_refused (λ _, true)). Qed.

Lemma length_selection_trace E j p :
  cl_platforms E !! j = Some p → length (selection_trace E j) = (3 + j)%nat.
Proof.
  intros Hp. unfold selection_trace. rewrite length_app, length_fmap, length_take.
  apply lookup_lt_Some in Hp. cbn [length]. lia.
Qed.

(** Lines 117-124 when the query of the device type fails. *)
Lemma run_on_device_no_type E N device_id w :
  cl_status E (w_calls w) ≠ CL_SUCCESS →
  run_on_device N device_id E w
  = (Exit EXIT_FAILURE,
     put_stdout ("Error: Failed to access device type information!\n"%string, [])
       (log_call (EvGetDeviceInfo device_id CL_DEVICE_TYPE sizeof_long) w)).
Proof.
  intros Hfail. unfold run_on_device.
  erewrite bind_Ret by reflexivity. cbn beta iota zeta. unfold status_now.
  destruct (Z.eqb_spec (cl_status E (w_calls w)) CL_SUCCESS) as [|_]; [done|].
  reflexivity.
Qed.

(** Lines 117-141 when the query of the compute units fails. *)
Lemma run_on_device_no_units E N device_id w :
  cl_status E (w_calls w) = CL_SUCCESS →
  cl_status E (S (w_calls w)) ≠ CL_SUCCESS →
  run_on_device N device_id E w
  = (Exit EXIT_FAILURE,
     put_stdout
       ("Error: Failed to access device number of compute units !\n"%string, [])
       (log_call (EvGetDeviceInfo device_id CL_DEVICE_MAX_COMPUTE_UNITS sizeof_cl_uint)
          (put_stdout (device_type_line (cl_device_info E device_id CL_DEVICE_TYPE))
             (log_call (EvGetDeviceInfo device_id CL_DEVICE_TYPE sizeof_long) w)))).
Proof.
  intros Hok Hfail. unfold run_on_device.
  step ltac:(apply clGetDeviceInfo_ok; exact Hok). skip_guard.
  step ltac:(apply print_device_type).
  erewrite bind_Ret by reflexivity. cbn beta iota zeta. unfold status_now. wsimpl.
  destruct (Z.eqb_spec (cl_status E (S (w_calls w))) CL_SUCCESS) as [|_]; [done|].
  reflexivity.
Qed.

(** Lines 117-166 when the build of the program fails: the log is printed
    and the run ends, or the log cannot be printed and line 164 is
    undefined. *)
Lemma run_on_device_build_fails E N device_id w :
  (∀ i, (i < 5)%nat → cl_status E (i + w_calls w) = CL_SUCCESS) →
  cl_status E (5 + w_calls w) ≠ CL_SUCCESS →
  ∃ w',
    run_on_device N device_id E w
    = (if log_readable E (6 + w_calls w) then Exit EXIT_FAILURE else Undef, w')
    ∧ w_trace w'
      = w_trace w
        ++ [ EvGetDeviceInfo device_id CL_DEVICE_TYPE sizeof_long;
             EvGetDeviceInfo device_id CL_DEVICE_MAX_COMPUTE_UNITS sizeof_cl_uint;
             EvCreateContext device_id (dev_next (w_dev w));
             EvCreateCommandQueue (dev_next (w_dev w)) device_id
               (dev_next (w_dev w) + 1);
             EvCreateProgramWithSource (dev_next (w_dev w)) OpenCL_code
               (dev_next (w_dev w) + 2);
             EvBuildProgram (dev_next (w_dev w) + 2);
             EvGetProgramBuildInfo (dev_next (w_dev w) + 2) device_id
               CL_PROGRAM_BUILD_LOG 2048 ]
    ∧ w_stdout w'
      = w_stdout w
        ++ [ device_type_line (cl_device_info E device_id CL_DEVICE_TYPE);
             ("Total compute units: %d compute units \n"%string,
              [PInt (wrap_int (cl_device_info E device_id CL_DEVICE_MAX_COMPUTE_UNITS))]);
             ("Error: Failed to build program executable!\n%s\n"%string,
              [PErrCode (cl_status E (5 + w_calls w))]) ]
        ++ (if log_readable E (6 + w_calls w)
            then [("%s\n"%string, [PString (cl_build_log E)])] else [])
    ∧ w_stderr w' = w_stderr w
    ∧ w_host w' = w_host w
    ∧ w_calls w' = (7 + w_calls w)%nat.
Proof.
  intros H Hfail.
  destruct w as [rs ck cl tr so se hm [h m ar q]]. simpl in H, Hfail.
  unfold run_on_device.
  step ltac:(apply clGetDeviceInfo_ok; status H 0%nat). skip_guard.
  step ltac:(apply print_device_type).
  step ltac:(apply clGetDeviceInfo_ok; status H 1%nat). skip_guard.
  step ltac:(reflexivity).
  step ltac:(apply create_object_ok; status H 2%nat). check_ok.
  step ltac:(apply create_object_ok; status H 3%nat). check_ok.
  step ltac:(apply create_object_ok; status H 4%nat). check_ok.
  erewrite bind_Ret by reflexivity. cbn beta iota zeta. unfold status_now. wsimpl.
  destruct (Z.eqb_spec (cl_status E (S (S (S (S (S cl)))))) CL_SUCCESS) as [|_]; [done|].
  cbn [negb]. norm_handles h.
  unfold mbind, M_bind, printf, clGetProgramBuildInfo, status_now, log_readable.
  wsimpl. cbn [Nat.add].
  destruct ((cl_status E (S (S (S (S (S (S cl)))))) =? CL_SUCCESS)
            && (Z.of_nat (String.length (cl_build_log E)) <? 2048));
    (eexists; split; [reflexivity|]); wsimpl;
    (split; [by rewrite <- !app_assoc|]); (split; [by rewrite <- !app_assoc|]); done.
Qed.

Lemma clEnqueueReadBuffer_refused queue buffer blocking offset size dst E w :
  status_now E w ≠ CL_SUCCESS →
  clEnqueueReadBuffer queue buffer blocking offset size dst E w
  = (Ret (status_now E w),
     log_call (EvEnqueueReadBuffer queue buffer blocking offset size dst) w).
Proof.
  intros Hs. unfold clEnqueueReadBuffer.
  destruct (Z.eqb_spec (status_now E w) CL_SUCCESS) as [|_]; [done | reflexivity].
Qed.

Lemma clSetKernelArg_any kernel index size value E w :
  ∃ d, clSetKernelArg kernel index size value E w
       = (Ret (status_now E w),
          set_dev d (log_call (EvSetKernelArg kernel index size value) w)).
Proof.
  unfold clSetKernelArg. destruct (status_now E w =? CL_SUCCESS).
  - eexists. reflexivity.
  - exists (w_dev w). f_equal.
Qed.

(** Lines 117-223 when lines 172-223 end the run. *)
Lemma run_on_device_compute_exits E N device_id w c w' :
  (∀ i, (i < 7)%nat → cl_status E (i + w_calls w) = CL_SUCCESS) →
  compute_on_device N (dev_next (w_dev w)) (dev_next (w_dev w) + 1)
    (dev_next (w_dev w) + 3) E (ready_world E device_id w)
  = (Exit c, w') →
  run_on_device N device_id E w = (Exit c, w').
Proof.
  intros H Hexit.
  destruct w as [rs ck cl tr so se hm [h m ar q]]. simpl in H.
  unfold run_on_device.
  step ltac:(apply clGetDeviceInfo_ok; status H 0%nat). skip_guard.
  step ltac:(apply print_device_type).
  step ltac:(apply clGetDeviceInfo_ok; status H 1%nat). skip_guard.
  step ltac:(reflexivity).
  step ltac:(apply create_object_ok; status H 2%nat). check_ok.
  step ltac:(apply create_object_ok; status H 3%nat). check_ok.
  step ltac:(apply create_object_ok; status H 4%nat). check_ok.
  step ltac:(apply clBuildProgram_ok; status H 5%nat). skip_guard.
  step ltac:(apply create_object_ok; status H 6%nat). check_ok.
  wsimpl. norm_handles h.
  apply bind_Exit. rewrite <- Hexit. f_equal.
  unfold ready_world, setup_trace. world_eq.
  - rewrite <- !app_assoc. reflexivity.
  - rewrite <- !app_assoc. reflexivity.
  - unfold next_handle. cbn. f_equal. lia.
Qed.

(** Lines 172-223 when the readback fails. *)
Lemma compute_on_device_readback_fails E N context commands kernel w :
  0 ≤ N →
  h_freed (w_host w) = [] →
  length (h_source_a (w_host w)) = Z.to_nat N →
  length (h_source_b (w_host w)) = Z.to_nat N →
  length (h_source_c (w_host w)) = Z.to_nat N →
  (∀ i, (i < 13)%nat → cl_status E (i + w_calls w) = CL_SUCCESS) →
  cl_status E (13 + w_calls w) ≠ CL_SUCCESS →
  ∃ w',
    compute_on_device N context commands kernel E w = (Exit EXIT_FAILURE, w')
    ∧ w_trace w'
      = w_trace w ++ compute_trace N context commands kernel (dev_next (w_dev w))
    ∧ w_stdout w'
      = w_stdout w
        ++ [ ("\nThe OpenCL kernel ran in %lf seconds\n"%string,
              [PDouble (kernel_time E (w_clock w))]);
             ("Error: Failed to read output array!\n%s\n"%string,
              [PErrCode (cl_status E (13 + w_calls w))]) ]
    ∧ w_stderr w' = w_stderr w
    ∧ w_host w' = w_host w
    ∧ w_clock w' = S (S (w_clock w)).
Proof.
  intros HN Hfreed Ha Hb Hc H Hfail.
  destruct w as [rs ck cl tr so se hm [h m ar q]].
  simpl in Hfreed, Ha, Hb, Hc, H, Hfail.
  unfold compute_on_device.
  step ltac:(apply clCreateBuffer_ok; status H 0%nat). check_ok.
  step ltac:(apply clCreateBuffer_ok; status H 1%nat). check_ok.
  step ltac:(apply clCreateBuffer_ok; status H 2%nat). check_ok.
  step ltac:(apply clCreateBuffer_ok; status H 3%nat). check_ok.
  wsimpl.
  step ltac:(apply clEnqueueWriteBuffer_ok;
             [status H 4%nat | by apply is_live_fresh
             | rewrite cells_of_floats by done; wsimpl; lia]).
  check_ok. wsimpl.
  step ltac:(apply clEnqueueWriteBuffer_ok;
             [status H 5%nat | by apply is_live_fresh
             | rewrite cells_of_floats by done; wsimpl; lia]).
  check_ok. wsimpl.
  step ltac:(apply clEnqueueWriteBuffer_ok;
             [status H 6%nat | by apply is_live_fresh
             | rewrite cells_of_floats by done; wsimpl; lia]).
  check_ok. wsimpl.
  step ltac:(apply clSetKernelArg_ok; status H 7%nat).
  step ltac:(apply clSetKernelArg_ok; status H 8%nat).
  step ltac:(apply clSetKernelArg_ok; status H 9%nat).
  step ltac:(apply clSetKernelArg_ok; status H 10%nat).
  change (Z.lor (Z.lor (Z.lor CL_SUCCESS CL_SUCCESS) CL_SUCCESS) CL_SUCCESS)
    with CL_SUCCESS.
  check_ok. wsimpl.
  step ltac:(reflexivity).
  step ltac:(apply clEnqueueNDRangeKernel_ok; status H 11%nat). check_ok.
  step ltac:(apply clFinish_ok; status H 12%nat). check_ok.
  step ltac:(reflexivity).
  step ltac:(reflexivity).
  wsimpl.
  step ltac:(apply clEnqueueReadBuffer_refused; unfold status_now; wsimpl; exact Hfail).
  unfold status_now. wsimpl.
  rewrite (proj2 (Z.eqb_neq _ _) Hfail).
  cbn [negb]. norm_handles h.
  eexists. split; [reflexivity|]. wsimpl. unfold compute_trace, kernel_time.
  split; [by rewrite <- !app_assoc|]. split; [by rewrite <- !app_assoc|]. done.
Qed.

Ltac bind_any_arg :=
  match goal with
  | |- context [ (clSetKernelArg ?k ?i ?s ?v ≫= _) ?E ?W ] =>
      let d := fresh "d" in
      let Hd := fresh "Hd" in
      destruct (clSetKernelArg_any k i s v E W) as [d Hd];
      rewrite (bind_Ret _ _ _ _ _ _ Hd); clear Hd;
      cbn beta iota zeta; unfold status_now; wsimpl
  end.

(** Lines 172-200 when the binding of a kernel argument fails. *)
Lemma compute_on_device_binding_fails E N context commands kernel w :
  0 ≤ N →
  h_freed (w_host w) = [] →
  length (h_source_a (w_host w)) = Z.to_nat N →
  length (h_source_b (w_host w)) = Z.to_nat N →
  length (h_source_c (w_host w)) = Z.to_nat N →
  (∀ i, (i < 7)%nat → cl_status E (i + w_calls w) = CL_SUCCESS) →
  binding_status E (7 + w_calls w) ≠ CL_SUCCESS →
  ∃ w',
    compute_on_device N context commands kernel E w = (Exit EXIT_FAILURE, w')
    ∧ w_trace w'
      = w_trace w
        ++ take 11 (compute_trace N context commands kernel (dev_next (w_dev w)))
    ∧ w_stdout w' = w_stdout w
    ∧ w_stderr w'
      = w_stderr w
        ++ [ ("Setting kernel arguments"%string,
              [PErrCode (binding_status E (7 + w_calls w));
               PInt (binding_status E (7 + w_calls w))]) ]
    ∧ w_host w' = w_host w
    ∧ w_clock w' = w_clock w.
Proof.
  intros HN Hfreed Ha Hb Hc H Hfail.
  destruct w as [rs ck cl tr so se hm [h m ar q]].
  simpl in Hfreed, Ha, Hb, Hc, H, Hfail.
  unfold compute_on_device.
  step ltac:(apply clCreateBuffer_ok; status H 0%nat). check_ok.
  step ltac:(apply clCreateBuffer_ok; status H 1%nat). check_ok.
  step ltac:(apply clCreateBuffer_ok; status H 2%nat). check_ok.
  step ltac:(apply clCreateBuffer_ok; status H 3%nat). check_ok.
  wsimpl.
  step ltac:(apply clEnqueueWriteBuffer_ok;
             [status H 4%nat | by apply is_live_fresh
             | rewrite cells_of_floats by done; wsimpl; lia]).
  check_ok. wsimpl.
  step ltac:(apply clEnqueueWriteBuffer_ok;
             [status H 5%nat | by apply is_live_fresh
             | rewrite cells_of_floats by done; wsimpl; lia]).
  check_ok. wsimpl.
  step ltac:(apply clEnqueueWriteBuffer_ok;
             [status H 6%nat | by apply is_live_fresh
             | rewrite cells_of_floats by done; wsimpl; lia]).
  check_ok. wsimpl.
  do 4 bind_any_arg.
  erewrite bind_Exit by (apply checkError_failure; exact Hfail).
  norm_handles h.
  eexists. split; [reflexivity|]. wsimpl. unfold compute_trace. cbn [take].
  split; [by rewrite <- !app_assoc|]. done.
Qed.

Lemma calls_after_selection_on G E N j p :
  cl_platforms E !! j = Some p →
  w_calls (log_calls (selection_trace E j) (filled_world_on G E N)) = (3 + j)%nat.
Proof. intros Hp. wsimpl. rewrite (length_selection_trace E j p Hp). lia. Qed.

Lemma calls_after_selection E N j p :
  cl_platforms E !! j = Some p →
  w_calls (log_calls (selection_trace E j) (filled_world E N)) = (3 + j)%nat.
Proof. apply (calls_after_selection_on (λ _, true)). Qed.

Lemma main_body_no_type E N :
  0 ≤ N →
  refused_at E = Some 0%nat →
  ∃ j p w,
    found_gpu E = Some j ∧ cl_platforms E !! j = Some p
    ∧ main_body N E initial_world = (Exit EXIT_FAILURE, w)
    ∧ w_trace w
      = selection_trace E j
        ++ [EvGetDeviceInfo (cl_device_of E p CL_DEVICE_TYPE_GPU) CL_DEVICE_TYPE
              sizeof_long]
    ∧ w_stdout w = [("Error: Failed to access device type information!\n"%string, [])]
    ∧ w_stderr w = [].
Proof.
  intros HN Href.
  destruct (main_body_refused E N 0 HN Href) as (j & p & Hj & Hp & Hok & Hfail & ->).
  exists j, p. eexists. split; [done|]. split; [done|]. split.
  - apply run_on_device_no_type.
    by rewrite (calls_after_selection E N j p Hp).
  - done.
Qed.

Lemma main_body_no_units E N :
  0 ≤ N →
  refused_at E = Some 1%nat →
  ∃ j p w,
    found_gpu E = Some j ∧ cl_platforms E !! j = Some p
    ∧ main_body N E initial_world = (Exit EXIT_FAILURE, w)
    ∧ w_trace w
      = selection_trace E j
        ++ [EvGetDeviceInfo (cl_device_of E p CL_DEVICE_TYPE_GPU) CL_DEVICE_TYPE
              sizeof_long;
            EvGetDeviceInfo (cl_device_of E p CL_DEVICE_TYPE_GPU)
              CL_DEVICE_MAX_COMPUTE_UNITS sizeof_cl_uint]
    ∧ w_stdout w
      = [device_type_line
           (cl_device_info E (cl_device_of E p CL_DEVICE_TYPE_GPU) CL_DEVICE_TYPE);
         ("Error: Failed to access device number of compute units !\n"%string, [])]
    ∧ w_stderr w = [].
Proof.
  intros HN Href.
  destruct (main_body_refused E N 1 HN Href) as (j & p & Hj & Hp & Hok & Hfail & ->).
  exists j, p. eexists. split; [done|]. split; [done|]. split.
  - apply run_on_device_no_units; rewrite (calls_after_selection E N j p Hp).
    + apply (Hok 0%nat). lia.
    + exact Hfail.
  - wsimpl. split; [|done]. by rewrite <- app_assoc.
Qed.

Lemma main_on_build_fails G E N :
  0 ≤ N →
  G source_a = true → G source_b = true → G source_c = true →
  refused_at E = Some 5%nat →
  ∃ j p w,
    found_gpu E = Some j ∧ cl_platforms E !! j = Some p
    ∧ main_on G N E initial_world
      = (if log_readable E (9 + j) then Exit EXIT_FAILURE else Undef, w)
    ∧ w_trace w
      = selection_trace E j
        ++ [ EvGetDeviceInfo (cl_device_of E p CL_DEVICE_TYPE_GPU) CL_DEVICE_TYPE
               sizeof_long;
             EvGetDeviceInfo (cl_device_of E p CL_DEVICE_TYPE_GPU)
               CL_DEVICE_MAX_COMPUTE_UNITS sizeof_cl_uint;
             EvCreateContext (cl_device_of E p CL_DEVICE_TYPE_GPU) 1;
             EvCreateCommandQueue 1 (cl_device_of E p CL_DEVICE_TYPE_GPU) 2;
             EvCreateProgramWithSource 1 OpenCL_code 3;
             EvBuildProgram 3;
             EvGetProgramBuildInfo 3 (cl_device_of E p CL_DEVICE_TYPE_GPU)
               CL_PROGRAM_BUILD_LOG 2048 ]
    ∧ w_stdout w
      = [ device_type_line
            (cl_device_info E (cl_device_of E p CL_DEVICE_TYPE_GPU) CL_DEVICE_TYPE);
          ("Total compute units: %d compute units \n"%string,
           [PInt (wrap_int (cl_device_info E (cl_device_of E p CL_DEVICE_TYPE_GPU)
                    CL_DEVICE_MAX_COMPUTE_UNITS))]);
          ("Error: Failed to build program executable!\n%s\n"%string,
           [PErrCode (cl_status E (8 + j))]) ]
        ++ (if log_readable E (9 + j)
            then [("%s\n"%string, [PString (cl_build_log E)])] else [])
    ∧ w_stderr w = []
    ∧ h_freed (w_host w) = []
    ∧ w_calls w = (10 + j)%nat.
Proof.
  intros HN Ha Hb Hc Href.
  destruct (main_on_refused G E N 5 HN Ha Hb Hc Href)
    as (j & p & Hj & Hp & Hok & Hfail & ->).
  exists j, p.
  destruct (run_on_device_build_fails E N (cl_device_of E p CL_DEVICE_TYPE_GPU)
              (log_calls (selection_trace E j) (filled_world_on G E N)))
    as (w & Hw & Htrace & Hout & Herr & Hhost & Hcalls).
  - intros i Hi. rewrite (calls_after_selection_on G E N j p Hp). by apply Hok.
  - by rewrite (calls_after_selection_on G E N j p Hp).
  - rewrite (calls_after_selection_on G E N j p Hp) in Hw, Hout, Hcalls.
    exists w. split; [done|]. split; [done|]. split; [exact Hw|].
    rewrite Htrace, Hout, Herr, Hhost, Hcalls. by wsimpl.
Qed.

Lemma main_body_build_fails E N :
  0 ≤ N →
  refused_at E = Some 5%nat →
  ∃ j p w,
    found_gpu E = Some j ∧ cl_platforms E !! j = Some p
    ∧ main_body N E initial_world
      = (if log_readable E (9 + j) then Exit EXIT_FAILURE else Undef, w)
    ∧ w_trace w
      = selection_trace E j
        ++ [ EvGetDeviceInfo (cl_device_of E p CL_DEVICE_TYPE_GPU) CL_DEVICE_TYPE
               sizeof_long;
             EvGetDeviceInfo (cl_device_of E p CL_DEVICE_TYPE_GPU)
               CL_DEVICE_MAX_COMPUTE_UNITS sizeof_cl_uint;
             EvCreateContext (cl_device_of E p CL_DEVICE_TYPE_GPU) 1;
             EvCreateCommandQueue 1 (cl_device_of E p CL_DEVICE_TYPE_GPU) 2;
             EvCreateProgramWithSource 1 OpenCL_code 3;
             EvBuildProgram 3;
             EvGetProgramBuildInfo 3 (cl_device_of E p CL_DEVICE_TYPE_GPU)
               CL_PROGRAM_BUILD_LOG 2048 ]
    ∧ w_stdout w
      = [ device_type_line
            (cl_device_info E (cl_device_of E p CL_DEVICE_TYPE_GPU) CL_DEVICE_TYPE);
          ("Total compute units: %d compute units \n"%string,
           [PInt (wrap_int (cl_device_info E (cl_device_of E p CL_DEVICE_TYPE_GPU)
                    CL_DEVICE_MAX_COMPUTE_UNITS))]);
          ("Error: Failed to build program executable!\n%s\n"%string,
           [PErrCode (cl_status E (8 + j))]) ]
        ++ (if log_readable E (9 + j)
            then [("%s\n"%string, [PString (cl_build_log E)])] else [])
    ∧ w_stderr w = [].
Proof.
  intros HN Href.
  destruct (main_on_build_fails (λ _, true) E N HN eq_refl eq_refl eq_refl Href)
    as (j & p & w & Hj & Hp & Hw & Htrace & Hout & Herr & _).
  by exists j, p, w.
Qed.

Lemma main_body_binding_fails E N k :
  0 ≤ N →
  (14 ≤ k < 18)%nat →
  refused_at E = Some k →
  ∃ j p w,
    found_gpu E = Some j ∧ cl_platforms E !! j = Some p
    ∧ main_body N E initial_world = (Exit EXIT_FAILURE, w)
    ∧ w_trace w
      = selection_trace E j
        ++ setup_trace (cl_device_of E p CL_DEVICE_TYPE_GPU) 1
        ++ take 11 (compute_trace N 1 2 4 5)
    ∧ w_stderr w
      = [ ("Setting kernel arguments"%string,
           [PErrCode (binding_status E (17 + j)); PInt (binding_status E (17 + j))]) ]
    ∧ binding_status E (17 + j) ≠ CL_SUCCESS
    ∧ w_clock w = 0%nat.
Proof.
  intros HN Hk Href.
  destruct (main_body_refused E N k HN Href) as (j & p & Hj & Hp & Hok & Hfail & ->).
  exists j, p.
  assert (Hbind : binding_status E (17 + j) ≠ CL_SUCCESS).
  { unfold binding_status, CL_SUCCESS. rewrite !Z.lor_eq_0_iff. intros [[[H0 H1] H2] H3].
    assert (k = 14 ∨ k = 15 ∨ k = 16 ∨ k = 17)%nat as [-> | [-> | [-> | ->]]] by lia;
      apply Hfail; assumption. }
  set (dev := cl_device_of E p CL_DEVICE_TYPE_GPU).
  set (w0 := log_calls (selection_trace E j) (filled_world E N)).
  destruct (compute_on_device_binding_fails E N (dev_next (w_dev w0))
              (dev_next (w_dev w0) + 1) (dev_next (w_dev w0) + 3)
              (ready_world E dev w0))
    as (w & Hw & Htrace & Hout & Herr & _ & Hclock); try done.
  - unfold w0. cbn. by rewrite length_fmap, length_seq.
  - unfold w0. cbn. by rewrite length_fmap, length_seq.
  - unfold w0. cbn. by rewrite length_fmap, length_seq.
  - intros i Hi. unfold ready_world. cbn [w_calls]. unfold w0.
    rewrite (calls_after_selection E N j p Hp).
    replace (i + (7 + (3 + j)))%nat with (i + 7 + (3 + j))%nat by lia.
    apply Hok. lia.
  - unfold ready_world. cbn [w_calls]. unfold w0.
    by rewrite (calls_after_selection E N j p Hp).
  - exists w. split; [done|]. split; [done|]. split.
    + apply run_on_device_compute_exits; [|exact Hw].
      intros i Hi. unfold w0. rewrite (calls_after_selection E N j p Hp).
      apply Hok. lia.
    + rewrite Htrace, Herr, Hclock. unfold ready_world. cbn [w_calls w_trace w_stderr w_clock w_dev dev_next].
      unfold w0. rewrite (calls_after_selection E N j p Hp). wsimpl.
      split; [by rewrite <- app_assoc|]. done.
Qed.

Lemma main_body_readback_fails E N :
  0 ≤ N →
  refused_at E = Some 20%nat →
  ∃ j p w,
    found_gpu E = Some j ∧ cl_platforms E !! j = Some p
    ∧ main_body N E initial_world = (Exit EXIT_FAILURE, w)
    ∧ w_trace w
      = selection_trace E j
        ++ setup_trace (cl_device_of E p CL_DEVICE_TYPE_GPU) 1
        ++ compute_trace N 1 2 4 5
    ∧ w_stdout w
      = [ device_type_line
            (cl_device_info E (cl_device_of E p CL_DEVICE_TYPE_GPU) CL_DEVICE_TYPE);
          ("Total compute units: %d compute units \n"%string,
           [PInt (wrap_int (cl_device_info E (cl_device_of E p CL_DEVICE_TYPE_GPU)
                    CL_DEVICE_MAX_COMPUTE_UNITS))]);
          ("\nThe OpenCL kernel ran in %lf seconds\n"%string,
           [PDouble (kernel_time E 0)]);
          ("Error: Failed to read output array!\n%s\n"%string,
           [PErrCode (cl_status E (23 + j))]) ]
    ∧ w_stderr w = []
    ∧ h_result_sequential (w_host w) = replicate (Z.to_nat N) 0.
Proof.
  intros HN Href.
  destruct (main_body_refused E N 20 HN Href) as (j & p & Hj & Hp & Hok & Hfail & ->).
  exists j, p.
  set (dev := cl_device_of E p CL_DEVICE_TYPE_GPU).
  set (w0 := log_calls (selection_trace E j) (filled_world E N)).
  destruct (compute_on_device_readback_fails E N (dev_next (w_dev w0))
              (dev_next (w_dev w0) + 1) (dev_next (w_dev w0) + 3)
              (ready_world E dev w0))
    as (w & Hw & Htrace & Hout & Herr & Hhost & _); try done.
  - unfold w0. cbn. by rewrite length_fmap, length_seq.
  - unfold w0. cbn. by rewrite length_fmap, length_seq.
  - unfold w0. cbn. by rewrite length_fmap, length_seq.
  - intros i Hi. unfold ready_world. cbn [w_calls]. unfold w0.
    rewrite (calls_after_selection E N j p Hp).
    replace (i + (7 + (3 + j)))%nat with (i + 7 + (3 + j))%nat by lia.
    apply Hok. lia.
  - unfold ready_world. cbn [w_calls]. unfold w0.
    by rewrite (calls_after_selection E N j p Hp).
  - exists w. split; [done|]. split; [done|]. split.
    + apply run_on_device_compute_exits; [|exact Hw].
      intros i Hi. unfold w0. rewrite (calls_after_selection E N j p Hp).
      apply Hok. lia.
    + rewrite Htrace, Hout, Herr, Hhost. unfold ready_world.
      cbn [w_calls w_trace w_stderr w_stdout w_clock w_dev dev_next w_host].
      unfold w0. rewrite (calls_after_selection E N j p Hp). wsimpl.
      split; [by rewrite <- app_assoc|]. done.
Qed.

(** ** Failures that [checkError] reports *)

Lemma create_object_refused ev E w :
  status_now E w ≠ CL_SUCCESS →
  create_object ev E w = (Ret (NULL, status_now E w), log_call (ev NULL) w).
Proof.
  intros Hs. unfold create_object. by rewrite (proj2 (Z.eqb_neq _ _) Hs).
Qed.

Lemma clCreateBuffer_refused context flags size E w :
  status_now E w ≠ CL_SUCCESS →
  clCreateBuffer context flags size E w
  = (Ret (NULL, status_now E w), log_call (EvCreateBuffer context flags size NULL) w).
Proof.
  intros Hs. unfold clCreateBuffer. by rewrite (proj2 (Z.eqb_neq _ _) Hs).
Qed.

Lemma clEnqueueWriteBuffer_refused queue buffer blocking offset size src E w :
  status_now E w ≠ CL_SUCCESS →
  clEnqueueWriteBuffer queue buffer blocking offset size src E w
  = (Ret (status_now E w),
     log_call (EvEnqueueWriteBuffer queue buffer blocking offset size src) w).
Proof.
  intros Hs. unfold clEnqueueWriteBuffer. by rewrite (proj2 (Z.eqb_neq _ _) Hs).
Qed.

Lemma clEnqueueNDRangeKernel_refused queue kernel work_dim global E w :
  status_now E w ≠ CL_SUCCESS →
  clEnqueueNDRangeKernel queue kernel work_dim global E w
  = (Ret (status_now E w),
     log_call (EvEnqueueNDRangeKernel queue kernel work_dim global) w).
Proof.
  intros Hs. unfold clEnqueueNDRangeKernel. by rewrite (proj2 (Z.eqb_neq _ _) Hs).
Qed.

Lemma clFinish_refused queue E w :
  status_now E w ≠ CL_SUCCESS →
  clFinish queue E w = (Ret (status_now E w), log_call (EvFinish queue) w).
Proof.
  intros Hs. unfold clFinish. by rewrite (proj2 (Z.eqb_neq _ _) Hs).
Qed.

(** The call in front fails and [checkError] ends the run. *)
Ltac fails_here refused Hop Hfail :=
  cbn [checked_step Nat.add] in Hop; injection Hop as <-;
  erewrite bind_Ret by (apply refused; unfold status_now; wsimpl; exact Hfail);
  cbn beta iota zeta;
  erewrite bind_Exit by (apply checkError_failure; unfold status_now; wsimpl; exact Hfail);
  eexists; split; [reflexivity|]; wsimpl; unfold status_now; wsimpl;
  split; [reflexivity|]; split; reflexivity.

(** Lines 172-212 when one of the calls checked by [checkError] is the
    first to fail; [k] counts from the creation of [d_a]. *)
Lemma compute_on_device_check_fails E N context commands kernel w k op :
  0 ≤ N →
  h_freed (w_host w) = [] →
  length (h_source_a (w_host w)) = Z.to_nat N →
  length (h_source_b (w_host w)) = Z.to_nat N →
  length (h_source_c (w_host w)) = Z.to_nat N →
  checked_step (7 + k) = Some op →
  (∀ i, (i < k)%nat → cl_status E (i + w_calls w) = CL_SUCCESS) →
  cl_status E (k + w_calls w) ≠ CL_SUCCESS →
  ∃ w',
    compute_on_device N context commands kernel E w = (Exit EXIT_FAILURE, w')
    ∧ w_stderr w'
      = w_stderr w
        ++ [(op, [PErrCode (cl_status E (k + w_calls w));
                  PInt (cl_status E (k + w_calls w))])]
    ∧ w_stdout w' = w_stdout w
    ∧ w_calls w' = S (k + w_calls w).
Proof.
  intros HN Hfreed Ha Hb Hc Hop H Hfail.
  destruct w as [rs ck cl tr so se hm [h m ar q]].
  simpl in Hfreed, Ha, Hb, Hc.
  cbn [w_calls w_stderr w_stdout] in H, Hfail |- *.
  unfold compute_on_device.
  destruct k as [|k]; [fails_here clCreateBuffer_refused Hop Hfail|].
  step ltac:(apply clCreateBuffer_ok; status H 0%nat). check_ok.
  destruct k as [|k]; [fails_here clCreateBuffer_refused Hop Hfail|].
  step ltac:(apply clCreateBuffer_ok; status H 1%nat). check_ok.
  destruct k as [|k]; [fails_here clCreateBuffer_refused Hop Hfail|].
  step ltac:(apply clCreateBuffer_ok; status H 2%nat). check_ok.
  destruct k as [|k]; [fails_here clCreateBuffer_refused Hop Hfail|].
  step ltac:(apply clCreateBuffer_ok; status H 3%nat). check_ok.
  wsimpl.
  destruct k as [|k]; [fails_here clEnqueueWriteBuffer_refused Hop Hfail|].
  step ltac:(apply clEnqueueWriteBuffer_ok;
             [status H 4%nat | by apply is_live_fresh
             | rewrite cells_of_floats by done; wsimpl; lia]).
  check_ok. wsimpl.
  destruct k as [|k]; [fails_here clEnqueueWriteBuffer_refused Hop Hfail|].
  step ltac:(apply clEnqueueWriteBuffer_ok;
             [status H 5%nat | by apply is_live_fresh
             | rewrite cells_of_floats by done; wsimpl; lia]).
  check_ok. wsimpl.
  destruct k as [|k]; [fails_here clEnqueueWriteBuffer_refused Hop Hfail|].
  step ltac:(apply clEnqueueWriteBuffer_ok;
             [status H 6%nat | by apply is_live_fresh
             | rewrite cells_of_floats by done; wsimpl; lia]).
  check_ok. wsimpl.
  do 4 (destruct k as [|k]; [discriminate Hop|]).
  step ltac:(apply clSetKernelArg_ok; status H 7%nat).
  step ltac:(apply clSetKernelArg_ok; status H 8%nat).
  step ltac:(apply clSetKernelArg_ok; status H 9%nat).
  step ltac:(apply clSetKernelArg_ok; status H 10%nat).
  change (Z.lor (Z.lor (Z.lor CL_SUCCESS CL_SUCCESS) CL_SUCCESS) CL_SUCCESS)
    with CL_SUCCESS.
  check_ok. wsimpl.
  step ltac:(reflexivity).
  destruct k as [|k]; [fails_here clEnqueueNDRangeKernel_refused Hop Hfail|].
  step ltac:(apply clEnqueueNDRangeKernel_ok; status H 11%nat). check_ok.
  destruct k as [|k]; [fails_here clFinish_refused Hop Hfail|].
  discriminate Hop.
Qed.

Ltac fails_at_setup refused Hop Hfail :=
  cbn [checked_step Nat.add] in Hop; injection Hop as <-;
  erewrite bind_Ret by (apply refused; unfold status_now; wsimpl; exact Hfail);
  cbn beta iota zeta;
  erewrite bind_Exit by (apply checkError_failure; unfold status_now; wsimpl; exact Hfail);
  eexists; split; [reflexivity|]; wsimpl; unfold status_now; wsimpl;
  rewrite <- ?app_assoc; split; [reflexivity|]; split; reflexivity.

(** Lines 117-212 when one of the calls checked by [checkError] is the
    first to fail; [k] counts from the query of the device type. *)
Lemma run_on_device_check_fails E N device_id w k op :
  0 ≤ N →
  h_freed (w_host w) = [] →
  length (h_source_a (w_host w)) = Z.to_nat N →
  length (h_source_b (w_host w)) = Z.to_nat N →
  length (h_source_c (w_host w)) = Z.to_nat N →
  checked_step k = Some op →
  (∀ i, (i < k)%nat → cl_status E (i + w_calls w) = CL_SUCCESS) →
  cl_status E (k + w_calls w) ≠ CL_SUCCESS →
  ∃ w',
    run_on_device N device_id E w = (Exit EXIT_FAILURE, w')
    ∧ w_stderr w'
      = w_stderr w
        ++ [(op, [PErrCode (cl_status E (k + w_calls w));
                  PInt (cl_status E (k + w_calls w))])]
    ∧ w_stdout w'
      = w_stdout w
        ++ [ device_type_line (cl_device_info E device_id CL_DEVICE_TYPE);
             ("Total compute units: %d compute units \n"%string,
              [PInt (wrap_int (cl_device_info E device_id CL_DEVICE_MAX_COMPUTE_UNITS))]) ]
    ∧ w_calls w' = S (k + w_calls w).
Proof.
  intros HN Hfreed Ha Hb Hc Hop H Hfail.
  destruct (decide (k < 7)%nat) as [Hk|Hk].
  - destruct w as [rs ck cl tr so se hm [h m ar q]].
    cbn [w_calls w_stderr w_stdout] in H, Hfail |- *.
    unfold run_on_device.
    destruct k as [|k]; [discriminate Hop|].
    step ltac:(apply clGetDeviceInfo_ok; status H 0%nat). skip_guard.
    step ltac:(apply print_device_type).
    destruct k as [|k]; [discriminate Hop|].
    step ltac:(apply clGetDeviceInfo_ok; status H 1%nat). skip_guard.
    step ltac:(reflexivity).
    destruct k as [|k]; [fails_at_setup create_object_refused Hop Hfail|].
    step ltac:(apply create_object_ok; status H 2%nat). check_ok.
    destruct k as [|k]; [fails_at_setup create_object_refused Hop Hfail|].
    step ltac:(apply create_object_ok; status H 3%nat). check_ok.
    destruct k as [|k]; [fails_at_setup create_object_refused Hop Hfail|].
    step ltac:(apply create_object_ok; status H 4%nat). check_ok.
    destruct k as [|k]; [discriminate Hop|].
    step ltac:(apply clBuildProgram_ok; status H 5%nat). skip_guard.
    destruct k as [|k]; [fails_at_setup create_object_refused Hop Hfail|].
    lia.
  - assert (Hk7 : ∃ k', k = (7 + k')%nat) by (exists (k - 7)%nat; lia).
    destruct Hk7 as [k' ->].
    destruct (compute_on_device_check_fails E N (dev_next (w_dev w))
                (dev_next (w_dev w) + 1) (dev_next (w_dev w) + 3)
                (ready_world E device_id w) k' op)
      as (w' & Hw' & Herr & Hout & Hcalls); try done.
    + intros i Hi. unfold ready_world. cbn [w_calls].
      replace (i + (7 + w_calls w))%nat with (7 + i + w_calls w)%nat by lia.
      apply H. lia.
    + unfold ready_world. cbn [w_calls].
      by replace (k' + (7 + w_calls w))%nat with (7 + k' + w_calls w)%nat by lia.
    + exists w'. split.
      * apply run_on_device_compute_exits; [|exact Hw'].
        intros i Hi. apply H. lia.
      * rewrite Herr, Hout, Hcalls. unfold ready_world.
        cbn [w_calls w_stderr w_stdout].
        replace (k' + (7 + w_calls w))%nat with (7 + k' + w_calls w)%nat by lia.
        done.
Qed.

Lemma main_body_check_fails E N k op :
  0 ≤ N →
  refused_at E = Some k →
  checked_step k = Some op →
  ∃ j p w,
    found_gpu E = Some j ∧ cl_platforms E !! j = Some p
    ∧ main_body N E initial_world = (Exit EXIT_FAILURE, w)
    ∧ w_stderr w
      = [(op, [PErrCode (cl_status E (k + (3 + j))); PInt (cl_status E (k + (3 + j)))])]
    ∧ w_stdout w
      = [ device_type_line
            (cl_device_info E (cl_device_of E p CL_DEVICE_TYPE_GPU) CL_DEVICE_TYPE);
          ("Total compute units: %d compute units \n"%string,
           [PInt (wrap_int (cl_device_info E (cl_device_of E p CL_DEVICE_TYPE_GPU)
                    CL_DEVICE_MAX_COMPUTE_UNITS))]) ]
    ∧ w_calls w = S (k + (3 + j)).
Proof.
  intros HN Href Hop.
  destruct (main_body_refused E N k HN Href) as (j & p & Hj & Hp & Hok & Hfail & ->).
  exists j, p.
  destruct (run_on_device_check_fails E N (cl_device_of E p CL_DEVICE_TYPE_GPU)
              (log_calls (selection_trace E j) (filled_world E N)) k op)
    as (w & Hw & Herr & Hout & Hcalls); try done.
  - cbn. by rewrite length_fmap, length_seq.
  - cbn. by rewrite length_fmap, length_seq.
  - cbn. by rewrite length_fmap, length_seq.
  - intros i Hi. rewrite (calls_after_selection E N j p Hp). by apply Hok.
  - by rewrite (calls_after_selection E N j p Hp).
  - exists w. split; [done|]. split; [done|]. split; [exact Hw|].
    rewrite Herr, Hout, Hcalls, (calls_after_selection E N j p Hp). by wsimpl.
Qed.

(** ** Failures of device selection *)

Lemma found_gpu_None E :
  found_gpu E = None →
  ∀ i, (i < length (cl_platforms E))%nat → cl_status E (2 + i) ≠ CL_SUCCESS.
Proof.
  unfold found_gpu. intros Hnone i Hi.
  destruct (list_find _ _) as [[j x]|] eqn:Hf; [done|].
  apply list_find_None in Hf. rewrite Forall_forall in Hf.
  apply (Hf i). apply list_elem_of_In, in_seq. lia.
Qed.

(** When no platform hands out a GPU, the status left in [err] is the one
    of the request to the last platform. *)
Lemma secure_gpu_loop_last_status E Platform : ∀ err device_id w,
  Platform ≠ [] →
  (∀ i, (i < length Platform)%nat → cl_status E (i + w_calls w) ≠ CL_SUCCESS) →
  secure_gpu_loop Platform err device_id E w
  = (Ret (cl_status E (length Platform - 1 + w_calls w), device_id),
     log_calls (gpu_request <$> Platform) w).
Proof.
  induction Platform as [|p0 rest IH]; intros err device_id w Hne Hall; [done|].
  assert (H0 : cl_status E (w_calls w) ≠ CL_SUCCESS)
    by (apply (Hall 0%nat); simpl; lia).
  cbn [secure_gpu_loop]. erewrite bind_Ret by reflexivity. cbn beta iota zeta.
  unfold status_now. rewrite (proj2 (Z.eqb_neq _ _) H0).
  destruct rest as [|p1 rest].
  - reflexivity.
  - rewrite IH; [| done |].
    + f_equal.
      * f_equal. f_equal. wsimpl. cbn [length]. f_equal. lia.
      * apply log_call_log_calls.
    + intros i Hi. wsimpl. rewrite Nat.add_succ_r. apply (Hall (S i)).
      cbn [length] in *. lia.
Qed.

Lemma select_device_reports E w op err :
  w_calls w = 0%nat →
  selection_failure E = Some (op, err) →
  ∃ w',
    select_device E w = (Exit EXIT_FAILURE, w')
    ∧ err ≠ CL_SUCCESS
    ∧ w_stderr w' = w_stderr w ++ [(op, [PErrCode err; PInt err])]
    ∧ w_stdout w' = w_stdout w
    ∧ (w_calls w' ≤ 2 + length (cl_platforms E))%nat.
Proof.
  intros Hcalls. unfold selection_failure, select_device.
  erewrite bind_Ret by reflexivity. cbn beta iota zeta.
  unfold status_now. rewrite Hcalls.
  destruct (Z.eqb_spec (cl_status E 0) CL_SUCCESS) as [H0|H0]; cbn [negb].
  2:{ intros [= <- <-]. erewrite bind_Exit by (by apply checkError_failure).
      eexists. split; [reflexivity|]. wsimpl. rewrite Hcalls.
      repeat split; [done | lia]. }
  rewrite H0. check_ok.
  destruct (decide (cl_platforms E = [])) as [Hnil|Hne].
  { by rewrite bool_decide_eq_true_2. }
  rewrite bool_decide_eq_false_2 by done.
  assert (Hlen : (0 < length (cl_platforms E))%nat)
    by (destruct (cl_platforms E); [done | simpl; lia]).
  destruct (Z.eqb_spec (Z.of_nat (length (cl_platforms E))) 0) as [|_]; [lia|].
  erewrite bind_Ret by reflexivity. cbn beta iota zeta.
  unfold status_now. wsimpl. rewrite Hcalls.
  destruct (Z.eqb_spec (cl_status E 1) CL_SUCCESS) as [H1|H1]; cbn [negb].
  2:{ intros [= <- <-]. erewrite bind_Exit by (by apply checkError_failure).
      eexists. split; [reflexivity|]. wsimpl. rewrite Hcalls.
      repeat split; [done | lia]. }
  rewrite H1. check_ok.
  destruct (found_gpu E) as [j|] eqn:Hj; [done|].
  intros [= <- <-].
  pose proof (found_gpu_None E Hj) as Hall.
  rewrite Nat2Z.id, firstn_all. unfold secure_gpu.
  erewrite bind_Ret; cycle 1.
  { apply secure_gpu_loop_last_status; [done|].
    intros i Hi. wsimpl. rewrite Hcalls. rewrite Nat.add_comm. by apply Hall. }
  cbn beta iota zeta. change (NULL =? NULL) with true. cbn iota.
  wsimpl. rewrite Hcalls.
  replace (length (cl_platforms E) - 1 + 2)%nat with (1 + length (cl_platforms E))%nat
    by lia.
  assert (Hlast : cl_status E (1 + length (cl_platforms E)) ≠ CL_SUCCESS).
  { replace (1 + length (cl_platforms E))%nat
      with (2 + (length (cl_platforms E) - 1))%nat by lia.
    apply Hall. lia. }
  erewrite bind_Exit by (by apply checkError_failure).
  eexists. split; [reflexivity|]. wsimpl. rewrite Hcalls, length_fmap.
  repeat split; [done | lia].
Qed.

Lemma main_body_selection_fails E N op err :
  0 ≤ N →
  selection_failure E = Some (op, err) →
  ∃ w,
    main_body N E initial_world = (Exit EXIT_FAILURE, w)
    ∧ err ≠ CL_SUCCESS
    ∧ w_stderr w = [(op, [PErrCode err; PInt err])]
    ∧ w_stdout w = []
    ∧ (w_calls w ≤ 2 + length (cl_platforms E))%nat.
Proof.
  intros HN Hsel. rewrite main_body_prologue by done.
  destruct (select_device_reports E (filled_world E N) op err eq_refl Hsel)
    as (w & Hw & Herr & Hstderr & Hstdout & Hcalls).
  exists w. split; [by apply bind_Exit|]. done.
Qed.

(** ** The sample loop on short arrays *)

(** A counting loop whose iteration number [k] makes an undefined access. *)
Lemma for_range_undef (body : nat → M unit) E (W : nat → world) : ∀ k cnt lo,
  (k < cnt)%nat →
  (∀ i, (lo ≤ i < lo + k)%nat → body i E (W i) = (Ret tt, W (S i))) →
  (body (lo + k)%nat E (W (lo + k)%nat)).1 = Undef →
  (for_range lo cnt body E (W lo)).1 = Undef.
Proof.
  induction k as [|k IH]; intros cnt lo Hk Hbody Hundef;
    (destruct cnt as [|cnt]; [lia|]); cbn [for_range]; unfold mbind, M_bind.
  - rewrite Nat.add_0_r in Hundef.
    destruct (body lo E (W lo)) as [[[]|c|] w']; cbn [fst] in Hundef; done.
  - rewrite (Hbody lo) by lia. apply IH; [lia | |].
    + intros i Hi. apply Hbody. lia.
    + by replace (S lo + k)%nat with (lo + S k)%nat by lia.
Qed.

Lemma print_result_short E w n :
  h_freed (w_host w) = [] →
  (∀ x, length (array_of x (w_host w)) = n) →
  (n < 100)%nat →
  (print_result E w).1 = Undef.
Proof.
  intros Hfreed Hlen Hn. unfold print_result.
  pose proof (Hlen source_a) as Ha. pose proof (Hlen source_b) as Hb.
  pose proof (Hlen source_c) as Hc. pose proof (Hlen result_opencl) as Ho.
  pose proof (Hlen result_sequential) as Hs. cbn [array_of] in Ha, Hb, Hc, Ho, Hs.
  set (W := λ k, put_lines (sample_line (w_host w) <$> seq 0 k) w).
  rewrite <- (put_lines_nil w) at 1. change (put_lines [] w) with (W 0%nat).
  apply (for_range_undef _ E W n 100 0 Hn).
  - intros k Hk. unfold W.
    do 5 (erewrite bind_Ret;
          [| apply load_ok; [apply is_live_fresh; wsimpl; exact Hfreed
                            | wsimpl; apply list_lookup_lookup_total_lt; lia] ]).
    unfold printf. f_equal. world_eq.
    rewrite seq_S, fmap_app, app_assoc. reflexivity.
  - cbn [Nat.add]. unfold W, mbind, M_bind, load. wsimpl.
    rewrite is_live_fresh by done.
    rewrite (lookup_ge_None_2 (h_source_a (w_host w)) n) by lia. reflexivity.
Qed.

(** ** What a run that returns 0 has printed *)

(** None of the lines of a run that reaches its end is a complaint. *)
Lemma report_no_complaint E N device_id k h fmt args :
  (fmt, args) ∈ report E N device_id k h → fmt ∉ complaints.
Proof.
  unfold report, complaints. rewrite !elem_of_app, list_elem_of_fmap.
  intros Hin Hfmt. apply list_elem_of_In in Hfmt. cbn [In] in Hfmt.
  destruct Hin as [Hin | [(i & Hline & _) | Hin]].
  - apply list_elem_of_In in Hin. cbn [In] in Hin. unfold device_type_line in Hin.
    destruct Hin as [Hin|[Hin|[Hin|[Hin|[Hin|[]]]]]];
      repeat case_match; injection Hin as <- _;
      repeat (destruct Hfmt as [Hfmt|Hfmt]; [discriminate|]); exact Hfmt.
  - unfold sample_line in Hline. injection Hline as -> _.
    repeat (destruct Hfmt as [Hfmt|Hfmt]; [discriminate|]). exact Hfmt.
  - apply list_elem_of_In in Hin. cbn [In] in Hin.
    destruct Hin as [Hin|[Hin|[]]]; injection Hin as <- _;
      repeat (destruct Hfmt as [Hfmt|Hfmt]; [discriminate|]); exact Hfmt.
Qed.

Lemma main_body_quiet E N :
  100 ≤ N → accepts E = true → ¬ reported (main_body N E initial_world).2.
Proof.
  intros HN Hacc.
  destruct (main_body_accepted E N HN Hacc) as (j & p & d & _ & _ & ->).
  cbn [snd]. unfold reported. wsimpl.
  intros [(_ & fmt & args & Hin & Hfmt) | (op & err & _ & Herr)]; [|discriminate].
  by apply (report_no_complaint _ _ _ _ _ _ _ Hin).
Qed.

(** ** Every run, whatever memory it is granted *)

Lemma refused_at_intro E j k :
  cl_status E 0 = CL_SUCCESS → cl_status E 1 = CL_SUCCESS →
  found_gpu E = Some j → (k < 21)%nat →
  (∀ i, (i < k)%nat → cl_status E (i + (3 + j)) = CL_SUCCESS) →
  cl_status E (k + (3 + j)) ≠ CL_SUCCESS →
  refused_at E = Some k.
Proof.
  intros H0 H1 Hj Hk Hok Hfail. unfold refused_at.
  rewrite !bool_decide_eq_true_2 by done. cbn [andb]. rewrite Hj.
  cbn [mbind option_bind].
  assert (Hf : list_find (λ i, cl_status E (i + (3 + j))%nat ≠ CL_SUCCESS) (seq 0 21)
               = Some (k, k)).
  { apply list_find_Some. split; [by apply lookup_seq|]. split; [done|].
    intros i y Hy Hi Hne. apply lookup_seq in Hy as [-> _]. apply Hne. by apply Hok. }
  rewrite Hf. reflexivity.
Qed.

Lemma intact_filled G E N : intact G N [] 0 (filled_world_on G E N).
Proof.
  constructor; wsimpl; try done.
  - intros x Hx. destruct x; wsimpl; rewrite ?Hx;
      by rewrite ?length_fmap, ?length_seq, ?length_replicate.
  - intros h Hh. by apply elem_of_nil in Hh.
Qed.

(** Which device [main] holds once selection has returned. *)
Lemma main_on_selected G E N device_id w :
  select_device E (filled_world_on G E N) = (Ret device_id, w) →
  ∃ j p,
    found_gpu E = Some j ∧ cl_platforms E !! j = Some p
    ∧ cl_status E 0 = CL_SUCCESS ∧ cl_status E 1 = CL_SUCCESS
    ∧ device_id = cl_device_of E p CL_DEVICE_TYPE_GPU
    ∧ w = log_calls (selection_trace E j) (filled_world_on G E N).
Proof.
  intros Hsel.
  assert (Hret : (select_device E (filled_world_on G E N)).1 = Ret device_id)
    by (by rewrite Hsel).
  pose proof (select_device_returns E _ _ Hret) as (j & p & Hp & H0 & H1 & Hj & Hbefore).
  cbn [w_calls filled_world_on] in H0, H1, Hj, Hbefore.
  rewrite (select_device_found E (filled_world_on G E N) j p H0 H1 Hp Hj Hbefore)
    in Hsel.
  injection Hsel as <- <-.
  exists j, p. split; [|done].
  apply found_gpu_Some. split; [by apply lookup_lt_Some in Hp|]. split.
  - by rewrite Nat.add_comm.
  - intros i Hi. rewrite Nat.add_comm. by apply Hbefore.
Qed.

(** Every path of [main] when the input arrays exist, the result arrays
    exist if every checked call succeeds, and the log of a failed build can
    be printed: the run returns 0 or ends with the status of a failure, and
    never reaches an undefined step. *)
Lemma main_on_ends G E N :
  100 ≤ N →
  G source_a = true → G source_b = true → G source_c = true →
  (accepts E = true → G result_opencl = true ∧ G result_sequential = true) →
  garbled_log E = false →
  (main_on G N E initial_world).1 = Ret 0
  ∨ (main_on G N E initial_world).1 = Exit EXIT_FAILURE
    ∧ h_freed (w_host (main_on G N E initial_world).2) = []
    ∧ released_handles (w_trace (main_on G N E initial_world).2) = []
    ∧ halted E (main_on G N E initial_world).2
    ∧ reported (main_on G N E initial_world).2.
Proof.
  intros HN Ha Hb Hc Hres Hlog. rewrite main_on_prologue by (done || lia).
  pose proof (hoare_select_device E G N [] 0 _ (intact_filled G E N)) as Hsel.
  unfold mbind, M_bind.
  destruct (select_device E (filled_world_on G E N)) as [[d|c|] w] eqn:Hd.
  - destruct Hsel as [k Hk].
    destruct (main_on_selected G E N d w Hd) as (j & p & Hj & Hp & H0 & H1 & -> & Hw).
    assert (Hcalls : k = (3 + j)%nat).
    { rewrite <- (intact_calls _ _ _ _ _ Hk), Hw.
      apply (calls_after_selection_on G E N j p Hp). }
    subst k.
    pose proof (hoare_run_on_device E G N [] (3 + j)
                  (cl_device_of E p CL_DEVICE_TYPE_GPU) HN Ha Hb Hc) as Hrun.
    specialize (Hrun
      ltac:(intros Hall; apply Hres; unfold accepts;
            rewrite !bool_decide_eq_true_2, Hj by done;
            apply forallb_seq_true; intros i Hi; apply Z.eqb_eq; by apply Hall)
      ltac:(intros Hok Hfail;
            pose proof (refused_at_intro E j 5 H0 H1 Hj ltac:(lia) Hok Hfail) as Href;
            unfold garbled_log in Hlog; rewrite Href, Hj in Hlog;
            by apply negb_false_iff in Hlog)
      w Hk).
    destruct (run_on_device N (cl_device_of E p CL_DEVICE_TYPE_GPU) E w)
      as [[a|c|] w']; cbn [fst snd].
    + left. by f_equal.
    + right. by destruct Hrun as (-> & ?).
    + done.
  - right. cbn [fst snd]. by destruct Hsel as (-> & ?).
  - done.
Qed.

Lemma last_app_cons {A} (l : list A) x l' : last (l ++ x :: l') = last (x :: l').
Proof.
  rewrite last_app. by destruct (last (x :: l')) eqn:Hl; [|apply last_None in Hl].
Qed.

(** The run whose build fails and whose log cannot be printed. *)
Lemma main_on_garbled G E N :
  0 ≤ N →
  G source_a = true → G source_b = true → G source_c = true →
  garbled_log E = true →
  (main_on G N E initial_world).1 = Undef
  ∧ h_freed (w_host (main_on G N E initial_world).2) = []
  ∧ released_handles (w_trace (main_on G N E initial_world).2) = []
  ∧ halted E (main_on G N E initial_world).2
  ∧ reported (main_on G N E initial_world).2.
Proof.
  intros HN Ha Hb Hc Hlog. unfold garbled_log in Hlog.
  destruct (refused_at E) as [k|] eqn:Href; [|done].
  do 5 (destruct k as [|k]; [done|]). destruct k as [|k]; [|done].
  destruct (main_on_build_fails G E N HN Ha Hb Hc Href)
    as (j & p & w & Hj & Hp & Hw & Htrace & Hout & Herr & Hfreed & Hcalls).
  rewrite Hj in Hlog. apply negb_true_iff in Hlog.
  rewrite Hlog in Hw, Hout. rewrite Hw. cbn [fst snd].
  split; [done|]. split; [done|]. split; [|split].
  - rewrite Htrace. unfold released_handles. rewrite omap_app.
    unfold selection_trace. rewrite omap_app. cbn [omap].
    rewrite app_nil_r.
    induction (take (S j) (cl_platforms E)) as [|q l IH]; [done|]. exact IH.
  - destruct (refused_at_spec E 5 Href)
      as (j' & p' & Hj' & _ & _ & _ & _ & _ & _ & _ & Hfail).
    assert (j' = j) as -> by congruence.
    right. exists (8 + j)%nat. split; [exact Hfail|]. right; left.
    split; [by rewrite Hcalls|]. by rewrite Htrace, last_app_cons.
  - left. split; [done|]. rewrite Hout. eexists _, _. split.
    + apply list_elem_of_In. cbn. right; right; left. reflexivity.
    + complaint.
Qed.

(** *** Arrays that were not granted *)

Lemma store_wild x i v E w :
  array_of x (w_host w) = [] → store x i v E w = (Undef, w).
Proof.
  intros Hx. unfold store. rewrite Hx. cbn [length].
  rewrite bool_decide_eq_false_2 by lia. by rewrite andb_false_r.
Qed.

(** Lines 56-84 when one of the input arrays is [NULL]: the first iteration
    of the filling loop stores through it. *)
Lemma main_on_no_inputs G E N :
  0 < N →
  G source_a && G source_b && G source_c = false →
  ∃ w,
    main_on G N E initial_world = (Undef, w)
    ∧ w_trace w = [] ∧ w_stdout w = [] ∧ w_stderr w = []
    ∧ h_freed (w_host w) = [].
Proof.
  intros HN HG. unfold main_on.
  do 5 (erewrite bind_Ret by reflexivity).
  unfold fill_vectors, calloc, initial_world. wsimpl.
  rewrite !cells_of_calloc by lia.
  destruct (Z.to_nat N) as [|n] eqn:Hn; [lia|]. cbn [for_range].
  destruct (G source_a) eqn:Ha.
  - destruct (G source_b) eqn:Hb.
    + destruct (G source_c) eqn:Hc; [discriminate|].
      eexists. split.
      { apply bind_Undef, bind_Undef.
        erewrite bind_Ret by reflexivity.
        erewrite bind_Ret by (apply store_ok; [reflexivity | wsimpl; cbn; lia]).
        erewrite bind_Ret by reflexivity.
        erewrite bind_Ret by (apply store_ok; [reflexivity | wsimpl; cbn; lia]).
        erewrite bind_Ret by reflexivity.
        by apply store_wild. }
      done.
    + eexists. split.
      { apply bind_Undef, bind_Undef.
        erewrite bind_Ret by reflexivity.
        erewrite bind_Ret by (apply store_ok; [reflexivity | wsimpl; cbn; lia]).
        erewrite bind_Ret by reflexivity.
        by apply bind_Undef, store_wild. }
      done.
  - eexists. split.
    { apply bind_Undef, bind_Undef.
      erewrite bind_Ret by reflexivity.
      by apply bind_Undef, store_wild. }
    done.
Qed.

Lemma clEnqueueReadBuffer_wild queue buffer blocking offset size dst E w :
  status_now E w = CL_SUCCESS →
  (length (array_of dst (w_host w)) < cells_of size)%nat →
  clEnqueueReadBuffer queue buffer blocking offset size dst E w
  = (Undef, log_call (EvEnqueueReadBuffer queue buffer blocking offset size dst) w).
Proof.
  intros Hs Hlen. unfold clEnqueueReadBuffer. rewrite Hs.
  rewrite bool_decide_eq_false_2 by lia. by rewrite andb_false_r.
Qed.

(** Lines 172-218 when [result_opencl] is [NULL]: the readback writes
    through it. *)
Lemma compute_on_device_no_result E N context commands kernel w :
  0 < N →
  h_freed (w_host w) = [] →
  length (h_source_a (w_host w)) = Z.to_nat N →
  length (h_source_b (w_host w)) = Z.to_nat N →
  length (h_source_c (w_host w)) = Z.to_nat N →
  h_result_opencl (w_host w) = [] →
  (∀ i, (i < 14)%nat → cl_status E (i + w_calls w) = CL_SUCCESS) →
  ∃ w',
    compute_on_device N context commands kernel E w = (Undef, w')
    ∧ w_stdout w'
      = w_stdout w
        ++ [ ("\nThe OpenCL kernel ran in %lf seconds\n"%string,
              [PDouble (kernel_time E (w_clock w))]) ]
    ∧ w_stderr w' = w_stderr w.
Proof.
  intros HN Hfreed Ha Hb Hc Ho H.
  destruct w as [rs ck cl tr so se hm [h m ar q]].
  simpl in Hfreed, Ha, Hb, Hc, Ho, H.
  unfold compute_on_device.
  step ltac:(apply clCreateBuffer_ok; status H 0%nat). check_ok.
  step ltac:(apply clCreateBuffer_ok; status H 1%nat). check_ok.
  step ltac:(apply clCreateBuffer_ok; status H 2%nat). check_ok.
  step ltac:(apply clCreateBuffer_ok; status H 3%nat). check_ok.
  wsimpl.
  step ltac:(apply clEnqueueWriteBuffer_ok;
             [status H 4%nat | by apply is_live_fresh
             | rewrite cells_of_floats by lia; wsimpl; lia]).
  check_ok. wsimpl.
  step ltac:(apply clEnqueueWriteBuffer_ok;
             [status H 5%nat | by apply is_live_fresh
             | rewrite cells_of_floats by lia; wsimpl; lia]).
  check_ok. wsimpl.
  step ltac:(apply clEnqueueWriteBuffer_ok;
             [status H 6%nat | by apply is_live_fresh
             | rewrite cells_of_floats by lia; wsimpl; lia]).
  check_ok. wsimpl.
  step ltac:(apply clSetKernelArg_ok; status H 7%nat).
  step ltac:(apply clSetKernelArg_ok; status H 8%nat).
  step ltac:(apply clSetKernelArg_ok; status H 9%nat).
  step ltac:(apply clSetKernelArg_ok; status H 10%nat).
  change (Z.lor (Z.lor (Z.lor CL_SUCCESS CL_SUCCESS) CL_SUCCESS) CL_SUCCESS)
    with CL_SUCCESS.
  check_ok. wsimpl.
  step ltac:(reflexivity).
  step ltac:(apply clEnqueueNDRangeKernel_ok; status H 11%nat). check_ok.
  step ltac:(apply clFinish_ok; status H 12%nat). check_ok.
  step ltac:(reflexivity).
  step ltac:(reflexivity).
  wsimpl.
  eexists. split.
  - apply bind_Undef, clEnqueueReadBuffer_wild; [status H 13%nat|].
    wsimpl. rewrite Ho, cells_of_floats by lia. cbn [length]. lia.
  - wsimpl. unfold kernel_time. split; [by rewrite <- ?app_assoc | done].
Qed.

(** Lines 117-223 when lines 172-223 reach an undefined step. *)
Lemma run_on_device_compute_undef E N device_id w w' :
  (∀ i, (i < 7)%nat → cl_status E (i + w_calls w) = CL_SUCCESS) →
  compute_on_device N (dev_next (w_dev w)) (dev_next (w_dev w) + 1)
    (dev_next (w_dev w) + 3) E (ready_world E device_id w)
  = (Undef, w') →
  run_on_device N device_id E w = (Undef, w').
Proof.
  intros H Hundef.
  destruct w as [rs ck cl tr so se hm [h m ar q]]. simpl in H.
  unfold run_on_device.
  step ltac:(apply clGetDeviceInfo_ok; status H 0%nat). skip_guard.
  step ltac:(apply print_device_type).
  step ltac:(apply clGetDeviceInfo_ok; status H 1%nat). skip_guard.
  step ltac:(reflexivity).
  step ltac:(apply create_object_ok; status H 2%nat). check_ok.
  step ltac:(apply create_object_ok; status H 3%nat). check_ok.
  step ltac:(apply create_object_ok; status H 4%nat). check_ok.
  step ltac:(apply clBuildProgram_ok; status H 5%nat). skip_guard.
  step ltac:(apply create_object_ok; status H 6%nat). check_ok.
  wsimpl. norm_handles h.
  apply bind_Undef. rewrite <- Hundef. f_equal.
  unfold ready_world, setup_trace. world_eq.
  - rewrite <- !app_assoc. reflexivity.
  - rewrite <- !app_assoc. reflexivity.
  - unfold next_handle. cbn. f_equal. lia.
Qed.

(** Lines 227-229 when [result_sequential] is [NULL]: the first iteration
    stores through it. *)
Lemma sequential_wild E w N :
  0 < N →
  h_freed (w_host w) = [] →
  length (h_source_a (w_host w)) = Z.to_nat N →
  length (h_source_b (w_host w)) = Z.to_nat N →
  length (h_source_c (w_host w)) = Z.to_nat N →
  h_result_sequential (w_host w) = [] →
  sequential N E w = (Undef, w).
Proof.
  intros HN Hfreed Ha Hb Hc Hs. unfold sequential.
  destruct (Z.to_nat N) as [|n] eqn:Hn; [lia|]. cbn [for_range].
  apply bind_Undef.
  do 6 (erewrite bind_Ret;
        [| apply load_ok; [by apply is_live_fresh
                          | apply list_lookup_lookup_total_lt; cbn [array_of]; lia] ]).
  by apply store_wild.
Qed.

(** Lines 117-229 when every call succeeds and [result_sequential] is
    [NULL]. *)
Lemma run_on_device_no_sequential E N device_id w :
  100 ≤ N →
  h_freed (w_host w) = [] →
  length (h_source_a (w_host w)) = Z.to_nat N →
  length (h_source_b (w_host w)) = Z.to_nat N →
  length (h_source_c (w_host w)) = Z.to_nat N →
  length (h_result_opencl (w_host w)) = Z.to_nat N →
  h_result_sequential (w_host w) = [] →
  dev_queue (w_dev w) = [] →
  (∀ i, (i < 21)%nat → cl_status E (i + w_calls w) = CL_SUCCESS) →
  ∃ w',
    run_on_device N device_id E w = (Undef, w')
    ∧ w_stdout w'
      = w_stdout w
        ++ [ device_type_line (cl_device_info E device_id CL_DEVICE_TYPE);
             ("Total compute units: %d compute units \n"%string,
              [PInt (wrap_int (cl_device_info E device_id CL_DEVICE_MAX_COMPUTE_UNITS))]);
             ("\nThe OpenCL kernel ran in %lf seconds\n"%string,
              [PDouble (kernel_time E (w_clock w))]) ]
    ∧ w_stderr w' = w_stderr w.
Proof.
  intros HN Hfreed Ha Hb Hc Ho Hs Hq H.
  destruct w as [rs ck cl tr so se hm [h m ar q]].
  simpl in Hfreed, Ha, Hb, Hc, Ho, Hs, Hq, H. subst q.
  unfold run_on_device.
  step ltac:(apply clGetDeviceInfo_ok; status H 0%nat). skip_guard.
  step ltac:(apply print_device_type).
  step ltac:(apply clGetDeviceInfo_ok; status H 1%nat). skip_guard.
  step ltac:(reflexivity).
  step ltac:(apply create_object_ok; status H 2%nat). check_ok.
  step ltac:(apply create_object_ok; status H 3%nat). check_ok.
  step ltac:(apply create_object_ok; status H 4%nat). check_ok.
  step ltac:(apply clBuildProgram_ok; status H 5%nat). skip_guard.
  step ltac:(apply create_object_ok; status H 6%nat). check_ok.
  wsimpl.
  norm_handles h.
  match goal with
  | |- context [ (compute_on_device ?n ?c ?q ?k ≫= _) E ?W ] =>
      destruct (compute_on_device_ok E n c q k W) as [d Hd];
        [ lia | exact Hfreed | exact Ha | exact Hb | exact Hc | exact Ho
        | reflexivity
        | intros i Hi; wsimpl;
          replace (i + S (S (S (S (S (S (S cl)))))))%nat with (i + 7 + cl)%nat by lia;
          apply H; lia
        | rewrite (bind_Ret _ _ _ _ _ _ Hd) ]
  end.
  cbn beta iota zeta. wsimpl.
  step ltac:(reflexivity).
  eexists. split.
  - apply bind_Undef, sequential_wild; wsimpl; first [done | lia].
  - wsimpl. split; [by rewrite <- ?app_assoc | done].
Qed.

(** A run on which every checked call succeeds and a result array is
    [NULL]. *)
Lemma main_on_no_results G E N :
  100 ≤ N →
  G source_a = true → G source_b = true → G source_c = true →
  G result_opencl && G result_sequential = false →
  accepts E = true →
  ∃ j p w,
    found_gpu E = Some j ∧ cl_platforms E !! j = Some p
    ∧ main_on G N E initial_world = (Undef, w)
    ∧ w_stdout w
      = [ device_type_line
            (cl_device_info E (cl_device_of E p CL_DEVICE_TYPE_GPU) CL_DEVICE_TYPE);
          ("Total compute units: %d compute units \n"%string,
           [PInt (wrap_int (cl_device_info E (cl_device_of E p CL_DEVICE_TYPE_GPU)
                    CL_DEVICE_MAX_COMPUTE_UNITS))]);
          ("\nThe OpenCL kernel ran in %lf seconds\n"%string,
           [PDouble (kernel_time E 0)]) ]
    ∧ w_stderr w = [].
Proof.
  intros HN Ha Hb Hc HG Hacc.
  destruct (accepts_spec E Hacc) as (j & p & Hj & Hp & H0 & H1 & Hs & Hbefore & Hrest).
  exists j, p.
  set (dev := cl_device_of E p CL_DEVICE_TYPE_GPU).
  set (w0 := log_calls (selection_trace E j) (filled_world_on G E N)).
  assert (Hcalls : w_calls w0 = (3 + j)%nat)
    by apply (calls_after_selection_on G E N j p Hp).
  assert (Hmain : main_on G N E initial_world = run_on_device N dev E w0).
  { rewrite main_on_prologue by (done || lia).
    apply bind_Ret. apply select_device_found; try done.
    - wsimpl. rewrite Nat.add_comm. exact Hs.
    - intros i Hi. wsimpl. rewrite Nat.add_comm. by apply Hbefore. }
  rewrite Hmain.
  destruct (G result_opencl) eqn:Ho.
  - destruct (G result_sequential) eqn:Hseq; [discriminate|].
    destruct (run_on_device_no_sequential E N dev w0) as (w & Hw & Hout & Herr);
      try (unfold w0; cbn; rewrite ?Ho, ?Hseq;
           by rewrite ?length_fmap, ?length_seq, ?length_replicate).
    { intros i Hi. rewrite Hcalls. by apply Hrest. }
    exists w. by rewrite Hout, Herr.
  - destruct (compute_on_device_no_result E N (dev_next (w_dev w0))
                (dev_next (w_dev w0) + 1) (dev_next (w_dev w0) + 3)
                (ready_world E dev w0)) as (w & Hw & Hout & Herr);
      try (unfold w0; cbn; rewrite ?Ho;
           by rewrite ?length_fmap, ?length_seq, ?length_replicate).
    { lia. }
    { intros i Hi. unfold ready_world. cbn [w_calls]. rewrite Hcalls.
      replace (i + (7 + (3 + j)))%nat with (i + 7 + (3 + j))%nat by lia.
      apply Hrest. lia. }
    exists w. split; [done|]. split; [done|]. split.
    + apply run_on_device_compute_undef; [|exact Hw].
      intros i Hi. rewrite Hcalls. apply Hrest. lia.
    + by rewrite Hout, Herr.
Qed.

(** *** How every run ends *)

(** A run on which some checked call fails, when the input arrays exist:
    where it stops and what it leaves behind, whether it ends with the
    status of a failure or at the [printf] of line 164. *)
Lemma main_on_refused_ends G E N :
  100 ≤ N →
  G source_a = true → G source_b = true → G source_c = true →
  accepts E = false →
  h_freed (w_host (main_on G N E initial_world).2) = []
  ∧ released_handles (w_trace (main_on G N E initial_world).2) = []
  ∧ halted E (main_on G N E initial_world).2
  ∧ reported (main_on G N E initial_world).2.
Proof.
  intros HN Ha Hb Hc Hacc.
  destruct (garbled_log E) eqn:Hlog.
  - apply (main_on_garbled G E N); (done || lia).
  - destruct (main_on_ends G E N HN Ha Hb Hc) as [Hret|[_ Hexit]];
      [congruence | done | | done].
    apply main_on_returns_0 in Hret; (congruence || done || lia).
Qed.

Lemma main_on_outcome G E N :
  100 ≤ N →
  (main_on G N E initial_world).1
  = if G source_a && G source_b && G source_c then
      if accepts E then
        if G result_opencl && G result_sequential then Ret 0 else Undef
      else if garbled_log E then Undef else Exit EXIT_FAILURE
    else Undef.
Proof.
  intros HN.
  destruct (G source_a && G source_b && G source_c) eqn:Hin.
  - apply andb_prop in Hin as [Hin Hc]. apply andb_prop in Hin as [Ha Hb].
    destruct (accepts E) eqn:Hacc.
    + destruct (G result_opencl && G result_sequential) eqn:Hout.
      * apply andb_prop in Hout as [Ho Hs].
        rewrite (main_on_all_granted G N) by (by intros []).
        by destruct (main_body_accepted E N HN Hacc) as (j & p & d & _ & _ & ->).
      * by destruct (main_on_no_results G E N HN Ha Hb Hc Hout Hacc)
          as (j & p & w & _ & _ & -> & _).
    + destruct (garbled_log E) eqn:Hlog.
      * apply (main_on_garbled G E N); (done || lia).
      * destruct (main_on_ends G E N HN Ha Hb Hc) as [Hret|[Hexit _]];
          [congruence | done | | done].
        apply main_on_returns_0 in Hret; (congruence || done || lia).
  - by destruct (main_on_no_inputs G E N ltac:(lia) Hin) as (w & -> & _).
Qed.

Lemma main_on_reported G E N :
  100 ≤ N →
  G source_a = true → G source_b = true → G source_c = true →
  reported (main_on G N E initial_world).2 ↔ accepts E = false.
Proof.
  intros HN Ha Hb Hc. split.
  - intros Hrep. destruct (accepts E) eqn:Hacc; [exfalso | done].
    destruct (G result_opencl && G result_sequential) eqn:Hout.
    + apply andb_prop in Hout as [Ho Hs].
      rewrite (main_on_all_granted G N) in Hrep by (by intros []).
      by apply (main_body_quiet E N HN Hacc).
    + destruct (main_on_no_results G E N HN Ha Hb Hc Hout Hacc)
        as (j & p & w & _ & _ & Hw & Hprinted & Herr).
      rewrite Hw in Hrep. cbn [snd] in Hrep.
      destruct Hrep as [(_ & fmt & args & Hin & Hfmt) | (op & err & _ & Hline)];
        [|by rewrite Herr in Hline].
      rewrite Hprinted in Hin.
      apply (report_no_complaint E N (cl_device_of E p CL_DEVICE_TYPE_GPU) 0
               (w_host w) fmt args); [|exact Hfmt].
      unfold report. apply elem_of_app. left.
      apply list_elem_of_In in Hin. apply list_elem_of_In.
      cbn [In] in Hin |- *. tauto.
  - intros Hacc. by apply main_on_refused_ends.
Qed.

(** The same at [LENGTH]. *)
Lemma run_on_outcome G E :
  (run_on G E).1
  = if G source_a && G source_b && G source_c then
      if accepts E then
        if G result_opencl && G result_sequential then Ret 0 else Undef
      else if garbled_log E then Undef else Exit EXIT_FAILURE
    else Undef.
Proof. unfold run_on. apply (main_on_outcome G E LENGTH). rewrite LENGTH_value. lia. Qed.

Lemma run_on_reported G E :
  G source_a = true → G source_b = true → G source_c = true →
  reported (run_on G E).2 ↔ accepts E = false.
Proof.
  unfold run_on. apply (main_on_reported G E LENGTH). rewrite LENGTH_value. lia.
Qed.

Lemma run_on_no_inputs G E :
  G source_a && G source_b && G source_c = false →
  w_trace (run_on G E).2 = []
  ∧ w_stdout (run_on G E).2 = []
  ∧ w_stderr (run_on G E).2 = [].
Proof.
  intros HG. unfold run_on.
  destruct (main_on_no_inputs G E LENGTH) as (w & Hw & Htrace & Hout & Herr & _);
    [rewrite LENGTH_value; lia | exact HG |].
  rewrite Hw. exact (conj Htrace (conj Hout Herr)).
Qed.

Lemma run_refused E :
  accepts E = false →
  h_freed (w_host (run E).2) = []
  ∧ released_handles (w_trace (run E).2) = []
  ∧ halted E (run E).2
  ∧ reported (run E).2.
Proof.
  unfold run, main, main_body.
  apply (main_on_refused_ends (λ _, true) E LENGTH); [rewrite LENGTH_value; lia | done..].
Qed.

Lemma run_outcome E :
  (run E).1
  = if accepts E then Ret 0 else if garbled_log E then Undef else Exit EXIT_FAILURE.
Proof.
  unfold run, main, main_body.
  apply (main_on_outcome (λ _, true) E LENGTH). rewrite LENGTH_value. lia.
Qed.

(** * The claims *)

(** C1. On a run whose checked calls all succeed, for every index below
    [LENGTH] the result read back from the device and the result of the host
    loop are the same number: [2 * ((a * b) + (b * c) + (a * c))] reduced to
    32 bits, for the elements [a], [b], [c] of the three input arrays at that
    index. *)
Theorem accelerator_matches_sequential E (i : nat) :
  accepts E = true →
  (Z.of_nat i < LENGTH) →
  let h := w_host (run E).2 in
  ∃ a b c,
    h_source_a h !! i = Some a ∧ h_source_b h !! i = Some b
    ∧ h_source_c h !! i = Some c
    ∧ h_result_opencl h !! i = Some (wrap_int (2 * ((a * b) + (b * c) + (a * c))))
    ∧ h_result_sequential h !! i = h_result_opencl h !! i.
Proof.
  intros Hacc Hi. destruct (run_accepted E Hacc) as (j & p & d & _ & _ & ->).
  cbn zeta. wsimpl.
  assert (Hn : (i < Z.to_nat LENGTH)%nat) by lia.
  exists (drawn E 1 0 i), (drawn E 1 1 i), (drawn E 1 2 i).
  rewrite !lookup_cells by done. repeat split; try reflexivity.
  unfold areas. wsimpl. rewrite lookup_cells by done. rewrite area_cell_exact.
  rewrite !lookup_total_cells by done. reflexivity.
Qed.

Lemma accelerator_matches_sequential_witness :
  let h := w_host (run sample_environment).2 in
  ∃ a b c,
    h_source_a h !! 0%nat = Some a ∧ h_source_b h !! 0%nat = Some b
    ∧ h_source_c h !! 0%nat = Some c
    ∧ h_result_opencl h !! 0%nat
      = Some (wrap_int (2 * ((a * b) + (b * c) + (a * c))))
    ∧ h_result_sequential h !! 0%nat = h_result_opencl h !! 0%nat.
Proof.
  apply (accelerator_matches_sequential sample_environment 0);
    [reflexivity | rewrite LENGTH_value; lia].
Defined.

(** C2. For N = 4, a = [1,2,3,4], b = [1,1,1,1], c = [2,2,2,2], the device
    path of lines 172-223 (buffers, upload, kernel launch, readback) leaves
    [10,16,22,28] in [result_opencl], and the host loop of lines 227-229
    leaves [10,16,22,28] in [result_sequential]. *)
Theorem scenario_four_cuboids E context commands kernel :
  (∀ k, cl_status E k = CL_SUCCESS) →
  h_result_opencl
    (w_host (compute_on_device 4 context commands kernel E scenario_world).2)
  = [10; 16; 22; 28]
  ∧ h_result_sequential (w_host (sequential 4 E scenario_world).2)
    = [10; 16; 22; 28].
Proof.
  intros Hok. split.
  - destruct (compute_on_device_ok E 4 context commands kernel scenario_world)
      as [d ->]; try done.
  - rewrite sequential_steps by done. reflexivity.
Qed.

Lemma scenario_four_cuboids_witness :
  h_result_opencl
    (w_host (compute_on_device 4 1 2 4 sample_environment scenario_world).2)
  = [10; 16; 22; 28]
  ∧ h_result_sequential (w_host (sequential 4 sample_environment scenario_world).2)
    = [10; 16; 22; 28].
Proof. apply (scenario_four_cuboids sample_environment 1 2 4). reflexivity. Defined.

(** C3. When the runtime reports zero platforms the run ends with the
    non-zero status [EXIT_FAILURE], and the only call it has made is the
    platform count: no device is requested, queried or used. *)
Theorem zero_platforms_is_fatal E :
  cl_platforms E = [] →
  ∃ w, run E = (Exit EXIT_FAILURE, w)
       ∧ EXIT_FAILURE ≠ 0
       ∧ w_trace w = [EvGetPlatformIDs 0].
Proof.
  intros Hnone. unfold run, main.
  rewrite main_body_prologue by (rewrite LENGTH_value; lia).
  destruct (select_device_no_platform E (filled_world E LENGTH) Hnone)
    as (w & Hw & Htrace & _).
  exists w. split; [|split; [done | exact Htrace]].
  by apply bind_Exit.
Qed.

Lemma zero_platforms_is_fatal_witness :
  ∃ w, run bare_environment = (Exit EXIT_FAILURE, w)
       ∧ EXIT_FAILURE ≠ 0
       ∧ w_trace w = [EvGetPlatformIDs 0].
Proof. apply (zero_platforms_is_fatal bare_environment). reflexivity. Defined.

(** C4. Device selection (lines 86-115), once both platform queries have
    succeeded, asks the platforms for one GPU each in enumeration order.  If
    platform number [j] is the first whose request succeeds, selection
    returns the device of that platform after having asked exactly the
    platforms 0 to [j].  If there are platforms and every request fails,
    the run ends there with [EXIT_FAILURE], after every platform has been
    asked, whatever was to follow selection. *)
Theorem device_selection_first_match E w :
  cl_status E (w_calls w) = CL_SUCCESS →
  cl_status E (S (w_calls w)) = CL_SUCCESS →
  (∀ j p,
     cl_platforms E !! j = Some p →
     cl_status E (j + S (S (w_calls w))) = CL_SUCCESS →
     (∀ i, (i < j)%nat → cl_status E (i + S (S (w_calls w))) ≠ CL_SUCCESS) →
     select_device E w
     = (Ret (cl_device_of E p CL_DEVICE_TYPE_GPU),
        log_calls
          ([EvGetPlatformIDs 0;
            EvGetPlatformIDs (Z.of_nat (length (cl_platforms E)))]
           ++ (gpu_request <$> take (S j) (cl_platforms E)))
          w))
  ∧ (cl_platforms E ≠ [] →
     (∀ i, (i < length (cl_platforms E))%nat →
           cl_status E (i + S (S (w_calls w))) ≠ CL_SUCCESS) →
     ∃ w', (∀ k : Z → M Z, (select_device ≫= k) E w = (Exit EXIT_FAILURE, w'))
           ∧ w_trace w'
             = w_trace w
               ++ [EvGetPlatformIDs 0;
                   EvGetPlatformIDs (Z.of_nat (length (cl_platforms E)))]
               ++ (gpu_request <$> cl_platforms E)).
Proof.
  intros H0 H1. split.
  - intros j p Hp Hj Hbefore. by apply select_device_found.
  - intros Hne Hall.
    destruct (select_device_none E w H0 H1 Hne Hall) as (w' & Hw' & Htrace).
    exists w'. split; [|exact Htrace]. intros k. by apply bind_Exit.
Qed.

Lemma device_selection_first_match_witness :
  select_device second_platform_environment initial_world
  = (Ret 109,
     log_calls
       [EvGetPlatformIDs 0; EvGetPlatformIDs 2; gpu_request 7; gpu_request 9]
       initial_world)
  ∧ ∃ w', (∀ k : Z → M Z,
             (select_device ≫= k) no_gpu_environment initial_world
             = (Exit EXIT_FAILURE, w'))
          ∧ w_trace w'
            = [EvGetPlatformIDs 0; EvGetPlatformIDs 2; gpu_request 7; gpu_request 9].
Proof.
  split.
  - apply (proj1 (device_selection_first_match second_platform_environment
                    initial_world eq_refl eq_refl) 1%nat 9).
    + reflexivity.
    + reflexivity.
    + intros i Hi. assert (i = 0%nat) as -> by lia. discriminate.
  - apply (proj2 (device_selection_first_match no_gpu_environment
                    initial_world eq_refl eq_refl)).
    + discriminate.
    + intros i Hi. cbn [length cl_platforms no_gpu_environment] in Hi.
      destruct i as [|[|i]]; [discriminate | discriminate | lia].
Defined.




(** C6. On a run whose checked calls all succeed exactly four device buffers
    are created: three with [CL_MEM_READ_ONLY], then one with
    [CL_MEM_WRITE_ONLY], each of [LENGTH * sizeof(int)] bytes, [LENGTH] being
    the number of elements of each host array.  (The source spells the
    element size [sizeof(float)], the same number of bytes.) *)
Theorem four_device_buffers E :
  accepts E = true →
  buffer_allocations (w_trace (run E).2)
  = [ (CL_MEM_READ_ONLY, LENGTH * sizeof_int);
      (CL_MEM_READ_ONLY, LENGTH * sizeof_int);
      (CL_MEM_READ_ONLY, LENGTH * sizeof_int);
      (CL_MEM_WRITE_ONLY, LENGTH * sizeof_int) ]
  ∧ Forall (λ x, Z.of_nat (length (array_of x (w_host (run E).2))) = LENGTH)
      [source_a; source_b; source_c; result_opencl; result_sequential].
Proof.
  intros Hacc. split.
  - destruct (run_trace E Hacc) as (j & p & _ & _ & ->).
    rewrite buffer_allocations_app, buffer_allocations_selection. reflexivity.
  - destruct (run_accepted E Hacc) as (j & p & d & _ & _ & ->).
    assert (Hn : Z.of_nat (Z.to_nat LENGTH) = LENGTH)
      by (apply Z2Nat.id; rewrite LENGTH_value; lia).
    repeat apply Forall_cons_2; [..|apply Forall_nil_2]; wsimpl; unfold areas;
      rewrite length_fmap, length_seq; exact Hn.
Qed.

Lemma four_device_buffers_witness :
  buffer_allocations (w_trace (run sample_environment).2)
  = [ (CL_MEM_READ_ONLY, LENGTH * sizeof_int);
      (CL_MEM_READ_ONLY, LENGTH * sizeof_int);
      (CL_MEM_READ_ONLY, LENGTH * sizeof_int);
      (CL_MEM_WRITE_ONLY, LENGTH * sizeof_int) ]
  ∧ Forall (λ x, Z.of_nat (length (array_of x (w_host (run sample_environment).2)))
                 = LENGTH)
      [source_a; source_b; source_c; result_opencl; result_sequential].
Proof. apply (four_device_buffers sample_environment). reflexivity. Defined.

(** C7. On a run whose checked calls all succeed the timer is read for the
    first time immediately before the kernel is enqueued and for the second
    time immediately after [clFinish] has returned; nothing else happens
    between the two readings, so no build and no transfer; and the time
    printed for the kernel is the second reading minus the first. *)
Theorem kernel_timing_interval E :
  accepts E = true →
  ∃ before after,
    w_trace (run E).2
    = before
      ++ [EvWtime; EvEnqueueNDRangeKernel 2 4 1 LENGTH; EvFinish 2; EvWtime]
      ++ after
    ∧ (EvWtime ∉ before)
    ∧ ("\nThe OpenCL kernel ran in %lf seconds\n"%string,
       [PDouble (DSub (DReading (clock E 1)) (DReading (clock E 0)))])
      ∈ w_stdout (run E).2.
Proof.
  intros Hacc. destruct (run_accepted E Hacc) as (j & p & d & _ & _ & ->).
  wsimpl.
  set (dev := cl_device_of E p CL_DEVICE_TYPE_GPU).
  exists (selection_trace E j ++ setup_trace dev 1
          ++ take 11 (compute_trace LENGTH 1 2 4 5)),
         (drop 15 (compute_trace LENGTH 1 2 4 5) ++ [EvWtime; EvWtime]
          ++ cleanup_trace 1).
  split; [|split].
  - unfold device_trace. rewrite <- !app_assoc. reflexivity.
  - rewrite elem_of_app. intros [Hin | Hin].
    + by apply (wtime_not_in_selection E j).
    + revert Hin. unfold setup_trace, compute_trace. cbn [take app].
      rewrite !elem_of_cons, elem_of_nil. intros Hin.
      repeat (destruct Hin as [Hin | Hin]; [discriminate|]). exact Hin.
  - unfold report. by apply (list_elem_of_lookup_2 _ 2%nat).
Qed.

Lemma kernel_timing_interval_witness :
  ∃ before after,
    w_trace (run sample_environment).2
    = before
      ++ [EvWtime; EvEnqueueNDRangeKernel 2 4 1 LENGTH; EvFinish 2; EvWtime]
      ++ after
    ∧ (EvWtime ∉ before)
    ∧ ("\nThe OpenCL kernel ran in %lf seconds\n"%string,
       [PDouble (DSub (DReading (clock sample_environment 1))
                      (DReading (clock sample_environment 0)))])
      ∈ w_stdout (run sample_environment).2.
Proof. apply (kernel_timing_interval sample_environment). reflexivity. Defined.

(** C8. On a run whose checked calls all succeed, standard output is, in
    order: the device-type line, the compute-unit line, the kernel-time
    line, the sequential-time line, the ratio line (sequential time over
    kernel time), one line per item for the first 100 items with a, b, c,
    the device result and the host result, the line counting the
    [LENGTH - 100] items not printed, and an empty line.  The compute-unit
    line shows the count the device reports as line 141 prints it: the
    [cl_uint] read as the [int] that line 134 declares, so a count of
    [2^31] or more shows as a negative number. *)
Theorem standard_output E :
  accepts E = true →
  ∃ device_id t_kernel t_sequential items,
    w_stdout (run E).2
    = [ device_type_line (cl_device_info E device_id CL_DEVICE_TYPE);
        ("Total compute units: %d compute units \n"%string,
         [PInt (wrap_int (cl_device_info E device_id CL_DEVICE_MAX_COMPUTE_UNITS))]);
        ("\nThe OpenCL kernel ran in %lf seconds\n"%string, [PDouble t_kernel]);
        ("The sequential code ran in %lf seconds\n\n"%string,
         [PDouble t_sequential]);
        ("The sequential time is %lfX of the OpenCL time\n\n"%string,
         [PDouble (DDiv t_sequential t_kernel)]) ]
      ++ items
      ++ [ ("... %d more items\n"%string,
            [PInt (LENGTH - Z.of_nat (length items))]);
           ("\n"%string, []) ]
    ∧ length items = 100%nat
    ∧ ∀ i, (i < 100)%nat →
        items !! i
        = Some ("a=%d\tb=%d\tc=%d\t\topencl=%d\t\tseq=%d\n"%string,
                [PInt (h_source_a (w_host (run E).2) !!! i);
                 PInt (h_source_b (w_host (run E).2) !!! i);
                 PInt (h_source_c (w_host (run E).2) !!! i);
                 PInt (h_result_opencl (w_host (run E).2) !!! i);
                 PInt (h_result_sequential (w_host (run E).2) !!! i)]).
Proof.
  intros Hacc. destruct (run_accepted E Hacc) as (j & p & d & _ & _ & ->).
  cbn [snd w_stdout w_host finished_world log_calls filled_world app].
  match goal with
  | |- context [report E LENGTH ?dev ?k ?h] =>
      exists dev, (kernel_time E k), (sequential_time E k),
             (sample_line (final_host LENGTH h) <$> seq 0 100)
  end.
  split; [|split].
  - unfold report. rewrite length_fmap, length_seq.
    change (int_sub LENGTH 100) with (LENGTH - Z.of_nat 100). reflexivity.
  - by rewrite length_fmap, length_seq.
  - intros i Hi. rewrite lookup_cells by done. reflexivity.
Qed.

Lemma standard_output_witness :
  ∃ device_id t_kernel t_sequential items,
    w_stdout (run sample_environment).2
    = [ device_type_line (cl_device_info sample_environment device_id CL_DEVICE_TYPE);
        ("Total compute units: %d compute units \n"%string,
         [PInt (wrap_int (cl_device_info sample_environment device_id
                  CL_DEVICE_MAX_COMPUTE_UNITS))]);
        ("\nThe OpenCL kernel ran in %lf seconds\n"%string, [PDouble t_kernel]);
        ("The sequential code ran in %lf seconds\n\n"%string,
         [PDouble t_sequential]);
        ("The sequential time is %lfX of the OpenCL time\n\n"%string,
         [PDouble (DDiv t_sequential t_kernel)]) ]
      ++ items
      ++ [ ("... %d more items\n"%string,
            [PInt (LENGTH - Z.of_nat (length items))]);
           ("\n"%string, []) ]
    ∧ length items = 100%nat
    ∧ ∀ i, (i < 100)%nat →
        items !! i
        = Some ("a=%d\tb=%d\tc=%d\t\topencl=%d\t\tseq=%d\n"%string,
                [PInt (h_source_a (w_host (run sample_environment).2) !!! i);
                 PInt (h_source_b (w_host (run sample_environment).2) !!! i);
                 PInt (h_source_c (w_host (run sample_environment).2) !!! i);
                 PInt (h_result_opencl (w_host (run sample_environment).2) !!! i);
                 PInt (h_result_sequential (w_host (run sample_environment).2) !!! i)]).
Proof. apply (standard_output sample_environment). reflexivity. Defined.

(** C9. Whatever the OpenCL runtime does, if [rand] keeps to its contract
    (values between 0 and [RAND_MAX]) every element of the three generated
    vectors is between 1 and 9; for the triple at any index the surface area
    is at most 486, the 32-bit evaluation of the formula equals the exact
    integer value, and no intermediate result leaves the range of [int]. *)
Theorem generated_inputs_never_overflow E (i : nat) :
  (∀ s, 0 ≤ (rand_impl E s).1 ≤ RAND_MAX) →
  Z.of_nat i < LENGTH →
  let h := w_host (run E).2 in
  ∃ a b c,
    h_source_a h !! i = Some a ∧ h_source_b h !! i = Some b
    ∧ h_source_c h !! i = Some c
    ∧ 1 ≤ a ≤ 9 ∧ 1 ≤ b ≤ 9 ∧ 1 ≤ c ≤ 9
    ∧ 2 * ((a * b) + (b * c) + (a * c)) ≤ 486
    ∧ int_mul 2 (int_add (int_add (int_mul a b) (int_mul b c)) (int_mul a c))
      = 2 * ((a * b) + (b * c) + (a * c))
    ∧ checked_area a b c = Some (2 * ((a * b) + (b * c) + (a * c))).
Proof.
  intros Hrand Hi. cbn zeta.
  destruct (run_sources E) as (-> & -> & -> & _).
  assert (Hn : (i < Z.to_nat LENGTH)%nat) by lia.
  assert (Hedge : ∀ off, 1 ≤ drawn E 1 off i ≤ 9)
    by (intros off; apply edge_in_range, Hrand).
  exists (drawn E 1 0 i), (drawn E 1 1 i), (drawn E 1 2 i).
  rewrite !lookup_cells by done.
  repeat (split; [first [reflexivity | apply Hedge]|]).
  by apply small_cuboid.
Qed.

Lemma generated_inputs_never_overflow_witness :
  let h := w_host (run sample_environment).2 in
  ∃ a b c,
    h_source_a h !! 0%nat = Some a ∧ h_source_b h !! 0%nat = Some b
    ∧ h_source_c h !! 0%nat = Some c
    ∧ 1 ≤ a ≤ 9 ∧ 1 ≤ b ≤ 9 ∧ 1 ≤ c ≤ 9
    ∧ 2 * ((a * b) + (b * c) + (a * c)) ≤ 486
    ∧ int_mul 2 (int_add (int_add (int_mul a b) (int_mul b c)) (int_mul a c))
      = 2 * ((a * b) + (b * c) + (a * c))
    ∧ checked_area a b c = Some (2 * ((a * b) + (b * c) + (a * c))).
Proof.
  apply (generated_inputs_never_overflow sample_environment 0).
  - exact lcg_in_range.
  - rewrite LENGTH_value. lia.
Defined.

(** C10. Two runs under the same libc, whatever else differs (the OpenCL
    runtime, the devices, the clock), fill the three input vectors with the
    same values.  The generator starts each run in the state of [srand(1)]
    and is only ever advanced by the [3 * LENGTH] calls of [rand]: it ends
    in that state advanced [3 * LENGTH] times.  When both runs reach the
    host loop, the sequential results are the same too. *)
Theorem inputs_repeat_across_runs E1 E2 :
  (∀ s, rand_impl E1 s = rand_impl E2 s) →
  h_source_a (w_host (run E1).2) = h_source_a (w_host (run E2).2)
  ∧ h_source_b (w_host (run E1).2) = h_source_b (w_host (run E2).2)
  ∧ h_source_c (w_host (run E1).2) = h_source_c (w_host (run E2).2)
  ∧ w_rand (run E1).2 = rand_state E1 (3 * Z.to_nat LENGTH) (w_rand initial_world)
  ∧ (accepts E1 = true → accepts E2 = true →
     h_result_sequential (w_host (run E1).2)
     = h_result_sequential (w_host (run E2).2)).
Proof.
  intros Hsame. unfold run, main.
  apply (main_body_repeats E1 E2 LENGTH); [rewrite LENGTH_value; lia | exact Hsame].
Qed.

Lemma inputs_repeat_across_runs_witness :
  h_source_a (w_host (run sample_environment).2)
  = h_source_a (w_host (run second_platform_environment).2)
  ∧ h_source_b (w_host (run sample_environment).2)
    = h_source_b (w_host (run second_platform_environment).2)
  ∧ h_source_c (w_host (run sample_environment).2)
    = h_source_c (w_host (run second_platform_environment).2)
  ∧ w_rand (run sample_environment).2
    = rand_state sample_environment (3 * Z.to_nat LENGTH) (w_rand initial_world)
  ∧ h_result_sequential (w_host (run sample_environment).2)
    = h_result_sequential (w_host (run second_platform_environment).2).
Proof.
  destruct (inputs_repeat_across_runs sample_environment
              second_platform_environment (λ s, eq_refl))
    as (Ha & Hb & Hc & Hr & Hs).
  split; [exact Ha|]. split; [exact Hb|]. split; [exact Hc|]. split; [exact Hr|].
  apply Hs; reflexivity.
Defined.

(** * Further properties of [main.c] *)

(** X1. How a run ends is decided by the allocations of lines 58-63 that are
    granted and by the statuses of the checked calls, whatever the generator
    and the clock do.  When the three input arrays exist, [main] returns 0
    if each checked call succeeds and the two result arrays exist, and ends
    the process with [EXIT_FAILURE] if some checked call fails; unless that
    call is the build and the query of its log leaves [buffer] unwritten:
    then line 164 prints an array that holds nothing, which is undefined.
    The run is undefined too when every checked call succeeds and a result
    array is [NULL] (the readback of line 218 or the loop of lines 227-229
    writes through it), and when an input array is [NULL] (the loop of lines
    80-84 writes through it).  No other step of any run is undefined. *)
Theorem exit_status_of_every_run (granted : host_array → bool) E :
  (run_on granted E).1
  = if granted source_a && granted source_b && granted source_c then
      if accepts E then
        if granted result_opencl && granted result_sequential then Ret 0 else Undef
      else if garbled_log E then Undef else Exit EXIT_FAILURE
    else Undef.
Proof. exact (run_on_outcome granted E). Qed.

(** X2. A run that fails leaves everything behind: lines 250-262 are not
    reached, so no OpenCL object is released and no host array is freed
    before the process ends. *)
Theorem failed_run_releases_nothing E :
  accepts E = false →
  released_handles (w_trace (run E).2) = [] ∧ h_freed (w_host (run E).2) = [].
Proof.
  intros Hacc. destruct (run_refused E Hacc) as (Hfreed & Hkept & _ & _).
  exact (conj Hkept Hfreed).
Qed.

Lemma failed_run_releases_nothing_witness :
  released_handles (w_trace (run no_gpu_environment).2) = []
  ∧ h_freed (w_host (run no_gpu_environment).2) = [].
Proof. apply (failed_run_releases_nothing no_gpu_environment). reflexivity. Defined.

(** X3. A run that fails stops at the failure: unless there is no platform
    at all, some call that the run has issued has reported a failure, and
    it is the last call issued, or the last but one when the last is the
    query of the build log (line 163), or one of the last four when the last
    is the binding of kernel argument 3 (lines 196-200 check the four
    bindings together). *)
Theorem failure_ends_the_run E :
  accepts E = false → halted E (run E).2.
Proof.
  intros Hacc. destruct (run_refused E Hacc) as (_ & _ & Hhalt & _). exact Hhalt.
Qed.

Lemma failure_ends_the_run_witness :
  halted (failing_environment 8 (-11)) (run (failing_environment 8 (-11))).2.
Proof. apply (failure_ends_the_run (failing_environment 8 (-11))). reflexivity. Defined.

(** X4. When the query of the device type is the call that fails (lines
    119-124), the run prints one line, the complaint about the device type,
    on the standard output, issues no further call and ends with
    [EXIT_FAILURE]. *)
Theorem device_type_query_failure E :
  refused_at E = Some 0%nat →
  ∃ j p w,
    found_gpu E = Some j ∧ cl_platforms E !! j = Some p
    ∧ run E = (Exit EXIT_FAILURE, w)
    ∧ w_trace w
      = selection_trace E j
        ++ [EvGetDeviceInfo (cl_device_of E p CL_DEVICE_TYPE_GPU) CL_DEVICE_TYPE
              sizeof_long]
    ∧ w_stdout w = [("Error: Failed to access device type information!\n"%string, [])]
    ∧ w_stderr w = [].
Proof.
  intros Href. unfold run, main.
  apply (main_body_no_type E LENGTH); [rewrite LENGTH_value; lia | exact Href].
Qed.

Lemma device_type_query_failure_witness :
  ∃ j p w,
    found_gpu (failing_environment 3 (-30)) = Some j
    ∧ cl_platforms (failing_environment 3 (-30)) !! j = Some p
    ∧ run (failing_environment 3 (-30)) = (Exit EXIT_FAILURE, w)
    ∧ w_trace w
      = selection_trace (failing_environment 3 (-30)) j
        ++ [EvGetDeviceInfo
              (cl_device_of (failing_environment 3 (-30)) p CL_DEVICE_TYPE_GPU)
              CL_DEVICE_TYPE sizeof_long]
    ∧ w_stdout w = [("Error: Failed to access device type information!\n"%string, [])]
    ∧ w_stderr w = [].
Proof. apply (device_type_query_failure (failing_environment 3 (-30))). reflexivity. Defined.

(** X5. When the query of the compute units is the first call to fail
    (lines 135-140), the device type has been printed already; the run adds
    the complaint about the compute units and ends with [EXIT_FAILURE]
    before any context is created. *)
Theorem compute_units_query_failure E :
  refused_at E = Some 1%nat →
  ∃ j p w,
    found_gpu E = Some j ∧ cl_platforms E !! j = Some p
    ∧ run E = (Exit EXIT_FAILURE, w)
    ∧ w_trace w
      = selection_trace E j
        ++ [EvGetDeviceInfo (cl_device_of E p CL_DEVICE_TYPE_GPU) CL_DEVICE_TYPE
              sizeof_long;
            EvGetDeviceInfo (cl_device_of E p CL_DEVICE_TYPE_GPU)
              CL_DEVICE_MAX_COMPUTE_UNITS sizeof_cl_uint]
    ∧ w_stdout w
      = [device_type_line
           (cl_device_info E (cl_device_of E p CL_DEVICE_TYPE_GPU) CL_DEVICE_TYPE);
         ("Error: Failed to access device number of compute units !\n"%string, [])]
    ∧ w_stderr w = [].
Proof.
  intros Href. unfold run, main.
  apply (main_body_no_units E LENGTH); [rewrite LENGTH_value; lia | exact Href].
Qed.

Lemma compute_units_query_failure_witness :
  ∃ j p w,
    found_gpu (failing_environment 4 (-30)) = Some j
    ∧ cl_platforms (failing_environment 4 (-30)) !! j = Some p
    ∧ run (failing_environment 4 (-30)) = (Exit EXIT_FAILURE, w)
    ∧ w_trace w
      = selection_trace (failing_environment 4 (-30)) j
        ++ [EvGetDeviceInfo
              (cl_device_of (failing_environment 4 (-30)) p CL_DEVICE_TYPE_GPU)
              CL_DEVICE_TYPE sizeof_long;
            EvGetDeviceInfo
              (cl_device_of (failing_environment 4 (-30)) p CL_DEVICE_TYPE_GPU)
              CL_DEVICE_MAX_COMPUTE_UNITS sizeof_cl_uint]
    ∧ w_stdout w
      = [device_type_line
           (cl_device_info (failing_environment 4 (-30))
              (cl_device_of (failing_environment 4 (-30)) p CL_DEVICE_TYPE_GPU)
              CL_DEVICE_TYPE);
         ("Error: Failed to access device number of compute units !\n"%string, [])]
    ∧ w_stderr w = [].
Proof. apply (compute_units_query_failure (failing_environment 4 (-30))). reflexivity. Defined.

(** X6. When the build of the program is the first call to fail (lines
    156-166), the run prints the failure with the error code of the build
    and asks for the build log with a buffer of 2048 bytes.  When that query
    succeeds and the log with its terminating NUL fits in the buffer, the
    run prints the log and ends with [EXIT_FAILURE].  Otherwise nothing has
    been written to [buffer], and the [printf] of line 164 that reads it is
    undefined: the run has no exit status.  Context, queue and program exist
    by then (handles 1, 2, 3); no kernel and no buffer is created. *)
Theorem build_failure_prints_the_log E :
  refused_at E = Some 5%nat →
  ∃ j p w,
    found_gpu E = Some j ∧ cl_platforms E !! j = Some p
    ∧ run E
      = (if log_readable E (9 + j) then Exit EXIT_FAILURE else Undef, w)
    ∧ w_trace w
      = selection_trace E j
        ++ [ EvGetDeviceInfo (cl_device_of E p CL_DEVICE_TYPE_GPU) CL_DEVICE_TYPE sizeof_long;
             EvGetDeviceInfo (cl_device_of E p CL_DEVICE_TYPE_GPU) CL_DEVICE_MAX_COMPUTE_UNITS sizeof_cl_uint;
             EvCreateContext (cl_device_of E p CL_DEVICE_TYPE_GPU) 1;
             EvCreateCommandQueue 1 (cl_device_of E p CL_DEVICE_TYPE_GPU) 2;
             EvCreateProgramWithSource 1 OpenCL_code 3;
             EvBuildProgram 3;
             EvGetProgramBuildInfo 3 (cl_device_of E p CL_DEVICE_TYPE_GPU) CL_PROGRAM_BUILD_LOG 2048 ]
    ∧ w_stdout w
      = [ device_type_line (cl_device_info E (cl_device_of E p CL_DEVICE_TYPE_GPU) CL_DEVICE_TYPE);
          ("Total compute units: %d compute units \n"%string,
           [PInt (wrap_int (cl_device_info E (cl_device_of E p CL_DEVICE_TYPE_GPU) CL_DEVICE_MAX_COMPUTE_UNITS))]);
          ("Error: Failed to build program executable!\n%s\n"%string,
           [PErrCode (cl_status E (8 + j))]) ]
        ++ (if log_readable E (9 + j)
            then [("%s\n"%string, [PString (cl_build_log E)])] else [])
    ∧ w_stderr w = [].
Proof.
  intros Href. unfold run, main.
  apply (main_body_build_fails E LENGTH); [rewrite LENGTH_value; lia | exact Href].
Qed.

Lemma build_failure_prints_the_log_witness :
  ∃ j p w,
    found_gpu (failing_environment 8 (-11)) = Some j ∧ cl_platforms (failing_environment 8 (-11)) !! j = Some p
    ∧ run (failing_environment 8 (-11))
      = (if log_readable (failing_environment 8 (-11)) (9 + j) then Exit EXIT_FAILURE else Undef, w)
    ∧ w_trace w
      = selection_trace (failing_environment 8 (-11)) j
        ++ [ EvGetDeviceInfo (cl_device_of (failing_environment 8 (-11)) p CL_DEVICE_TYPE_GPU) CL_DEVICE_TYPE sizeof_long;
             EvGetDeviceInfo (cl_device_of (failing_environment 8 (-11)) p CL_DEVICE_TYPE_GPU) CL_DEVICE_MAX_COMPUTE_UNITS sizeof_cl_uint;
             EvCreateContext (cl_device_of (failing_environment 8 (-11)) p CL_DEVICE_TYPE_GPU) 1;
             EvCreateCommandQueue 1 (cl_device_of (failing_environment 8 (-11)) p CL_DEVICE_TYPE_GPU) 2;
             EvCreateProgramWithSource 1 OpenCL_code 3;
             EvBuildProgram 3;
             EvGetProgramBuildInfo 3 (cl_device_of (failing_environment 8 (-11)) p CL_DEVICE_TYPE_GPU) CL_PROGRAM_BUILD_LOG 2048 ]
    ∧ w_stdout w
      = [ device_type_line (cl_device_info (failing_environment 8 (-11)) (cl_device_of (failing_environment 8 (-11)) p CL_DEVICE_TYPE_GPU) CL_DEVICE_TYPE);
          ("Total compute units: %d compute units \n"%string,
           [PInt (wrap_int (cl_device_info (failing_environment 8 (-11)) (cl_device_of (failing_environment 8 (-11)) p CL_DEVICE_TYPE_GPU) CL_DEVICE_MAX_COMPUTE_UNITS))]);
          ("Error: Failed to build program executable!\n%s\n"%string,
           [PErrCode (cl_status (failing_environment 8 (-11)) (8 + j))]) ]
        ++ (if log_readable (failing_environment 8 (-11)) (9 + j)
            then [("%s\n"%string, [PString (cl_build_log (failing_environment 8 (-11)))])] else [])
    ∧ w_stderr w = [].
Proof. apply (build_failure_prints_the_log (failing_environment 8 (-11))). reflexivity. Defined.

(** X7. When the first call to fail is one of the four bindings of the
    kernel arguments (lines 196-200), all four bindings are issued before
    the combined status is checked; the run then reports "Setting kernel
    arguments" with the bitwise or of the four statuses and ends with
    [EXIT_FAILURE].  The kernel is not enqueued and the timer is never
    read. *)
Theorem binding_failure_stops_before_launch E (k : nat) :
  (14 ≤ k < 18)%nat →
  refused_at E = Some k →
  ∃ j p w,
    found_gpu E = Some j ∧ cl_platforms E !! j = Some p
    ∧ run E = (Exit EXIT_FAILURE, w)
    ∧ w_trace w
      = selection_trace E j
        ++ setup_trace (cl_device_of E p CL_DEVICE_TYPE_GPU) 1
        ++ take 11 (compute_trace LENGTH 1 2 4 5)
    ∧ w_stderr w
      = [ ("Setting kernel arguments"%string,
           [PErrCode (binding_status E (17 + j)); PInt (binding_status E (17 + j))]) ]
    ∧ binding_status E (17 + j) ≠ CL_SUCCESS
    ∧ w_clock w = 0%nat.
Proof.
  intros Hk Href. unfold run, main.
  apply (main_body_binding_fails E LENGTH k);
    [rewrite LENGTH_value; lia | exact Hk | exact Href].
Qed.

Lemma binding_failure_stops_before_launch_witness :
  ∃ j p w,
    found_gpu (failing_environment 18 (-48)) = Some j
    ∧ cl_platforms (failing_environment 18 (-48)) !! j = Some p
    ∧ run (failing_environment 18 (-48)) = (Exit EXIT_FAILURE, w)
    ∧ w_trace w
      = selection_trace (failing_environment 18 (-48)) j
        ++ setup_trace
             (cl_device_of (failing_environment 18 (-48)) p CL_DEVICE_TYPE_GPU) 1
        ++ take 11 (compute_trace LENGTH 1 2 4 5)
    ∧ w_stderr w
      = [ ("Setting kernel arguments"%string,
           [PErrCode (binding_status (failing_environment 18 (-48)) (17 + j));
            PInt (binding_status (failing_environment 18 (-48)) (17 + j))]) ]
    ∧ binding_status (failing_environment 18 (-48)) (17 + j) ≠ CL_SUCCESS
    ∧ w_clock w = 0%nat.
Proof.
  apply (binding_failure_stops_before_launch (failing_environment 18 (-48)) 15);
    [lia | reflexivity].
Defined.

(** X8. When the readback is the first call to fail (lines 218-223), the
    kernel has run and its time has been printed after the two lines about
    the device (the count of compute units read as an [int]); the run adds
    the complaint about the output array with the error code and ends with
    status 1.  The sequential loop has not run: [result_sequential] is
    still all zeros, as [calloc] left it. *)
Theorem readback_failure E :
  refused_at E = Some 20%nat →
  ∃ j p w,
    found_gpu E = Some j ∧ cl_platforms E !! j = Some p
    ∧ run E = (Exit EXIT_FAILURE, w)
    ∧ w_trace w
      = selection_trace E j
        ++ setup_trace (cl_device_of E p CL_DEVICE_TYPE_GPU) 1
        ++ compute_trace LENGTH 1 2 4 5
    ∧ w_stdout w
      = [ device_type_line
            (cl_device_info E (cl_device_of E p CL_DEVICE_TYPE_GPU) CL_DEVICE_TYPE);
          ("Total compute units: %d compute units \n"%string,
           [PInt (wrap_int (cl_device_info E (cl_device_of E p CL_DEVICE_TYPE_GPU)
                    CL_DEVICE_MAX_COMPUTE_UNITS))]);
          ("\nThe OpenCL kernel ran in %lf seconds\n"%string,
           [PDouble (kernel_time E 0)]);
          ("Error: Failed to read output array!\n%s\n"%string,
           [PErrCode (cl_status E (23 + j))]) ]
    ∧ w_stderr w = []
    ∧ h_result_sequential (w_host w) = replicate (Z.to_nat LENGTH) 0.
Proof.
  intros Href. unfold run, main.
  apply (main_body_readback_fails E LENGTH); [rewrite LENGTH_value; lia | exact Href].
Qed.

Lemma readback_failure_witness :
  ∃ j p w,
    found_gpu (failing_environment 23 (-5)) = Some j
    ∧ cl_platforms (failing_environment 23 (-5)) !! j = Some p
    ∧ run (failing_environment 23 (-5)) = (Exit EXIT_FAILURE, w)
    ∧ w_trace w
      = selection_trace (failing_environment 23 (-5)) j
        ++ setup_trace
             (cl_device_of (failing_environment 23 (-5)) p CL_DEVICE_TYPE_GPU) 1
        ++ compute_trace LENGTH 1 2 4 5
    ∧ w_stdout w
      = [ device_type_line
            (cl_device_info (failing_environment 23 (-5))
               (cl_device_of (failing_environment 23 (-5)) p CL_DEVICE_TYPE_GPU)
               CL_DEVICE_TYPE);
          ("Total compute units: %d compute units \n"%string,
           [PInt (wrap_int (cl_device_info (failing_environment 23 (-5))
                    (cl_device_of (failing_environment 23 (-5)) p CL_DEVICE_TYPE_GPU)
                    CL_DEVICE_MAX_COMPUTE_UNITS))]);
          ("\nThe OpenCL kernel ran in %lf seconds\n"%string,
           [PDouble (kernel_time (failing_environment 23 (-5)) 0)]);
          ("Error: Failed to read output array!\n%s\n"%string,
           [PErrCode (cl_status (failing_environment 23 (-5)) (23 + j))]) ]
    ∧ w_stderr w = []
    ∧ h_result_sequential (w_host w) = replicate (Z.to_nat LENGTH) 0.
Proof. apply (readback_failure (failing_environment 23 (-5))). reflexivity. Defined.

(** X9. The filling loop (lines 80-84) draws three numbers per index, in
    the order a, b, c: on every run, element [i] of [source_a], [source_b]
    and [source_c] is [(r % 9) + 1] for the value [r] that [rand] returns at
    its call number [3 * i], [3 * i + 1] and [3 * i + 2] (counted from 0,
    from the state of the default seed). *)
Theorem inputs_interleave_draws E (i : nat) :
  Z.of_nat i < LENGTH →
  h_source_a (w_host (run E).2) !! i = Some (edge (rand_value E 1 (3 * i)))
  ∧ h_source_b (w_host (run E).2) !! i = Some (edge (rand_value E 1 (3 * i + 1)))
  ∧ h_source_c (w_host (run E).2) !! i = Some (edge (rand_value E 1 (3 * i + 2))).
Proof.
  intros Hi. destruct (run_sources E) as (-> & -> & -> & _).
  assert (Hn : (i < Z.to_nat LENGTH)%nat) by lia.
  rewrite !lookup_cells by exact Hn. unfold drawn. rewrite Nat.add_0_r.
  split; [reflexivity|]. split; reflexivity.
Qed.

Lemma inputs_interleave_draws_witness :
  h_source_a (w_host (run sample_environment).2) !! 0%nat
  = Some (edge (rand_value sample_environment 1 (3 * 0)))
  ∧ h_source_b (w_host (run sample_environment).2) !! 0%nat
    = Some (edge (rand_value sample_environment 1 (3 * 0 + 1)))
  ∧ h_source_c (w_host (run sample_environment).2) !! 0%nat
    = Some (edge (rand_value sample_environment 1 (3 * 0 + 2))).
Proof.
  apply (inputs_interleave_draws sample_environment 0). rewrite LENGTH_value. lia.
Defined.

(** X10. The work items of the kernel (lines 39-49) do not interfere: each
    reads cell [i] of the three inputs and writes cell [i] of the output,
    so running the work items of a launch in any order gives the memory
    that running them in the order of their global ids gives, whenever the
    output buffer is none of the inputs. *)
Theorem launch_in_any_order a b c r n order (mem : gmap Z (list Z)) :
  r ≠ a → r ≠ b → r ≠ c →
  order ≡ₚ seq 0 n →
  fold_left (λ m i, cuboid_area a b c r i m) order mem
  = run_ndrange (cuboid_area a b c r) n mem.
Proof.
  intros Ha Hb Hc Hperm. unfold run_ndrange.
  apply (fold_left_permutation (λ m i, cuboid_area a b c r i m)); [|done].
  intros m x y. by apply work_items_commute.
Qed.

Lemma launch_in_any_order_witness :
  fold_left (λ m i, cuboid_area 5 6 7 8 i m) [1; 0]%nat
    ({[5 := [1; 2]; 6 := [1; 1]; 7 := [2; 2]; 8 := [0; 0]]} : gmap Z (list Z))
  = run_ndrange (cuboid_area 5 6 7 8) 2
      ({[5 := [1; 2]; 6 := [1; 1]; 7 := [2; 2]; 8 := [0; 0]]} : gmap Z (list Z)).
Proof.
  apply (launch_in_any_order 5 6 7 8 2 [1; 0]%nat); [lia | lia | lia |].
  apply perm_swap.
Defined.

(** X11. The sample loop (lines 238-246) reads items 0 to 99 of the five
    arrays whatever their length: on live arrays of [n] elements each it
    runs to its end exactly when [n] is at least 100, and otherwise reads
    past the end of [source_a]. *)
Theorem sample_needs_100_items E w (n : nat) :
  h_freed (w_host w) = [] →
  (∀ x, length (array_of x (w_host w)) = n) →
  ((print_result E w).1 = Ret tt ↔ (100 ≤ n)%nat)
  ∧ ((print_result E w).1 = Undef ↔ (n < 100)%nat).
Proof.
  intros Hfreed Hlen.
  destruct (decide (n < 100)%nat) as [Hn|Hn].
  - rewrite (print_result_short E w n Hfreed Hlen Hn).
    split; split; first [discriminate | lia | done].
  - pose proof (Hlen source_a) as Ha. pose proof (Hlen source_b) as Hb.
    pose proof (Hlen source_c) as Hc. pose proof (Hlen result_opencl) as Ho.
    pose proof (Hlen result_sequential) as Hs. cbn [array_of] in Ha, Hb, Hc, Ho, Hs.
    rewrite print_result_steps by first [exact Hfreed | lia].
    cbn [fst]. split; split; first [discriminate | lia | done].
Qed.

Lemma sample_needs_100_items_witness :
  ((print_result sample_environment scenario_world).1 = Ret tt ↔ (100 ≤ 4)%nat)
  ∧ ((print_result sample_environment scenario_world).1 = Undef ↔ (4 < 100)%nat).
Proof.
  apply (sample_needs_100_items sample_environment scenario_world 4).
  - reflexivity.
  - intros x. destruct x; reflexivity.
Defined.

(** X12. Lines 172-223 and lines 227-229 agree on any data, not only on
    the generated inputs: for host arrays of [N] elements holding any
    values, when the fourteen calls of the device path succeed, the array
    read back from the device equals the array the host loop computes, and
    element [i] of both is [2 * (a*b + b*c + a*c)] reduced to 32 bits, also
    where the products leave the range of [int]. *)
Theorem device_and_host_agree_on_any_data E N context commands kernel w :
  0 ≤ N →
  h_freed (w_host w) = [] →
  (∀ x, length (array_of x (w_host w)) = Z.to_nat N) →
  dev_queue (w_dev w) = [] →
  (∀ i, (i < 14)%nat → cl_status E (i + w_calls w) = CL_SUCCESS) →
  h_result_opencl (w_host (compute_on_device N context commands kernel E w).2)
  = h_result_sequential (w_host (sequential N E w).2)
  ∧ ∀ i, (i < Z.to_nat N)%nat →
      h_result_sequential (w_host (sequential N E w).2) !! i
      = Some (wrap_int (2 * ((h_source_a (w_host w) !!! i) * (h_source_b (w_host w) !!! i)
                             + (h_source_b (w_host w) !!! i) * (h_source_c (w_host w) !!! i)
                             + (h_source_a (w_host w) !!! i) * (h_source_c (w_host w) !!! i)))).
Proof.
  intros HN Hfreed Hlen Hq Hok.
  destruct (compute_on_device_ok E N context commands kernel w HN Hfreed
              (Hlen source_a) (Hlen source_b) (Hlen source_c) (Hlen result_opencl)
              Hq Hok) as [d ->].
  rewrite (sequential_steps E w N Hfreed (Hlen source_a) (Hlen source_b)
             (Hlen source_c) (Hlen result_sequential)).
  pose proof (Hlen result_sequential) as Hs. cbn [array_of] in Hs.
  wsimpl. rewrite drop_ge, app_nil_r by lia.
  split; [reflexivity|].
  intros i Hi. rewrite lookup_cells by exact Hi. by rewrite area_cell_exact.
Qed.

Lemma device_and_host_agree_on_any_data_witness :
  h_result_opencl
    (w_host (compute_on_device 4 1 2 4 sample_environment scenario_world).2)
  = h_result_sequential (w_host (sequential 4 sample_environment scenario_world).2)
  ∧ ∀ i, (i < Z.to_nat 4)%nat →
      h_result_sequential (w_host (sequential 4 sample_environment scenario_world).2)
        !! i
      = Some (wrap_int
                (2 * ((h_source_a (w_host scenario_world) !!! i)
                      * (h_source_b (w_host scenario_world) !!! i)
                      + (h_source_b (w_host scenario_world) !!! i)
                        * (h_source_c (w_host scenario_world) !!! i)
                      + (h_source_a (w_host scenario_world) !!! i)
                        * (h_source_c (w_host scenario_world) !!! i)))).
Proof.
  apply (device_and_host_agree_on_any_data sample_environment 4 1 2 4 scenario_world).
  - lia.
  - reflexivity.
  - intros x. destruct x; reflexivity.
  - reflexivity.
  - intros i Hi. reflexivity.
Defined.

(** X13. When the three input arrays exist, the runs on which a checked call
    fails are the runs that say so: some checked call fails exactly when the
    run has printed one of the five complaints of [main.c] on the standard
    output, or [checkError] has written a line, then the only one, on the
    standard error.  A run that returns 0 has done neither, nor has a run
    that stops at a result array that is [NULL].  When the allocation of an
    input array fails (lines 58-60 do not test it), the run stops in the
    filling loop having made no OpenCL call and printed nothing at all. *)
Theorem failure_is_reported (granted : host_array → bool) E :
  (granted source_a && granted source_b && granted source_c = true →
   (reported (run_on granted E).2 ↔ accepts E = false))
  ∧ (granted source_a && granted source_b && granted source_c = false →
     (run_on granted E).1 = Undef
     ∧ w_trace (run_on granted E).2 = []
     ∧ w_stdout (run_on granted E).2 = []
     ∧ w_stderr (run_on granted E).2 = []).
Proof.
  split.
  - intros Hin. apply andb_prop in Hin as [Hin Hc]. apply andb_prop in Hin as [Ha Hb].
    exact (run_on_reported granted E Ha Hb Hc).
  - intros Hin. split; [|exact (run_on_no_inputs granted E Hin)].
    rewrite run_on_outcome, Hin. reflexivity.
Qed.

(** X14. When the first call to fail is one that [main] checks with
    [checkError] (the creation of the context, the queue, the program, the
    kernel or one of the four buffers, one of the three uploads, the launch
    or the wait), the run ends with [EXIT_FAILURE] right after that call:
    the report on the standard error names that step with the status the
    call returned, the failing call is the last call issued, and the
    standard output holds the two lines about the device (the type, and the
    count of compute units read as an [int]) and nothing else. *)
Theorem checked_call_failure E (k : nat) op :
  refused_at E = Some k →
  checked_step k = Some op →
  ∃ j p w,
    found_gpu E = Some j ∧ cl_platforms E !! j = Some p
    ∧ run E = (Exit EXIT_FAILURE, w)
    ∧ w_stderr w
      = [(op, [PErrCode (cl_status E (k + (3 + j))); PInt (cl_status E (k + (3 + j)))])]
    ∧ w_stdout w
      = [ device_type_line
            (cl_device_info E (cl_device_of E p CL_DEVICE_TYPE_GPU) CL_DEVICE_TYPE);
          ("Total compute units: %d compute units \n"%string,
           [PInt (wrap_int (cl_device_info E (cl_device_of E p CL_DEVICE_TYPE_GPU)
                    CL_DEVICE_MAX_COMPUTE_UNITS))]) ]
    ∧ w_calls w = S (k + (3 + j)).
Proof.
  intros Href Hop. unfold run, main.
  apply (main_body_check_fails E LENGTH k op);
    [rewrite LENGTH_value; lia | exact Href | exact Hop].
Qed.

Lemma checked_call_failure_witness :
  ∃ j p w,
    found_gpu (failing_environment 15 (-4)) = Some j
    ∧ cl_platforms (failing_environment 15 (-4)) !! j = Some p
    ∧ run (failing_environment 15 (-4)) = (Exit EXIT_FAILURE, w)
    ∧ w_stderr w
      = [("Copying source_b to device at d_b"%string,
          [PErrCode (cl_status (failing_environment 15 (-4)) (12 + (3 + j)));
           PInt (cl_status (failing_environment 15 (-4)) (12 + (3 + j)))])]
    ∧ w_stdout w
      = [ device_type_line
            (cl_device_info (failing_environment 15 (-4))
               (cl_device_of (failing_environment 15 (-4)) p CL_DEVICE_TYPE_GPU)
               CL_DEVICE_TYPE);
          ("Total compute units: %d compute units \n"%string,
           [PInt (wrap_int (cl_device_info (failing_environment 15 (-4))
                    (cl_device_of (failing_environment 15 (-4)) p CL_DEVICE_TYPE_GPU)
                    CL_DEVICE_MAX_COMPUTE_UNITS))]) ]
    ∧ w_calls w = S (12 + (3 + j)).
Proof.
  apply (checked_call_failure (failing_environment 15 (-4)) 12
           "Copying source_b to device at d_b"); reflexivity.
Defined.

(** X15. When device selection fails through [checkError], the report on
    the standard error names the step: "Finding platforms" with the status
    of the platform count when that call fails (also when there is no
    platform: the status is checked first); "Getting platforms" with the
    status of the second query when that fails; and "Finding a device",
    when no platform hands out a GPU, with the status of the request made
    to the last platform, the only one [err] still holds.  Nothing is
    printed on the standard output and no call is issued beyond the two
    queries and one request per platform. *)
Theorem selection_failure_report E op err :
  selection_failure E = Some (op, err) →
  ∃ w,
    run E = (Exit EXIT_FAILURE, w)
    ∧ err ≠ CL_SUCCESS
    ∧ w_stderr w = [(op, [PErrCode err; PInt err])]
    ∧ w_stdout w = []
    ∧ (w_calls w ≤ 2 + length (cl_platforms E))%nat.
Proof.
  intros Hsel. unfold run, main.
  apply (main_body_selection_fails E LENGTH op err);
    [rewrite LENGTH_value; lia | exact Hsel].
Qed.

Lemma selection_failure_report_witness :
  ∃ w,
    run no_gpu_environment = (Exit EXIT_FAILURE, w)
    ∧ -1 ≠ CL_SUCCESS
    ∧ w_stderr w = [("Finding a device"%string, [PErrCode (-1); PInt (-1)])]
    ∧ w_stdout w = []
    ∧ (w_calls w ≤ 2 + length (cl_platforms no_gpu_environment))%nat.
Proof.
  apply (selection_failure_report no_gpu_environment "Finding a device" (-1)).
  reflexivity.
Defined.

(** X16. On a run whose checked calls all succeed the data path is issued
    in this order, with nothing in between: the three blocking uploads of
    [source_a], [source_b], [source_c] into [d_a], [d_b], [d_c] (handles 5,
    6, 7), each of the whole array from offset 0; the bindings of kernel
    arguments 0, 1, 2, 3 to [d_a], [d_b], [d_c], [d_result]; the first
    reading of the timer; the launch over [LENGTH] work items in one
    dimension; [clFinish]; the second reading of the timer; and only then
    the blocking readback of [d_result] into [result_opencl]. *)
Theorem data_path_order E :
  accepts E = true →
  ∃ before after,
    w_trace (run E).2
    = before
      ++ [ EvEnqueueWriteBuffer 2 5 CL_TRUE 0 (sizeof_float * LENGTH) source_a;
           EvEnqueueWriteBuffer 2 6 CL_TRUE 0 (sizeof_float * LENGTH) source_b;
           EvEnqueueWriteBuffer 2 7 CL_TRUE 0 (sizeof_float * LENGTH) source_c;
           EvSetKernelArg 4 0 sizeof_cl_mem 5;
           EvSetKernelArg 4 1 sizeof_cl_mem 6;
           EvSetKernelArg 4 2 sizeof_cl_mem 7;
           EvSetKernelArg 4 3 sizeof_cl_mem 8;
           EvWtime;
           EvEnqueueNDRangeKernel 2 4 1 LENGTH;
           EvFinish 2;
           EvWtime;
           EvEnqueueReadBuffer 2 8 CL_TRUE 0 (sizeof_float * LENGTH) result_opencl ]
      ++ after.
Proof.
  intros Hacc. destruct (run_trace E Hacc) as (j & p & _ & _ & ->).
  exists (selection_trace E j ++ setup_trace (cl_device_of E p CL_DEVICE_TYPE_GPU) 1
          ++ take 4 (compute_trace LENGTH 1 2 4 5)),
         ([EvWtime; EvWtime] ++ cleanup_trace 1).
  unfold device_trace. rewrite <- !app_assoc. reflexivity.
Qed.

Lemma data_path_order_witness :
  ∃ before after,
    w_trace (run sample_environment).2
    = before
      ++ [ EvEnqueueWriteBuffer 2 5 CL_TRUE 0 (sizeof_float * LENGTH) source_a;
           EvEnqueueWriteBuffer 2 6 CL_TRUE 0 (sizeof_float * LENGTH) source_b;
           EvEnqueueWriteBuffer 2 7 CL_TRUE 0 (sizeof_float * LENGTH) source_c;
           EvSetKernelArg 4 0 sizeof_cl_mem 5;
           EvSetKernelArg 4 1 sizeof_cl_mem 6;
           EvSetKernelArg 4 2 sizeof_cl_mem 7;
           EvSetKernelArg 4 3 sizeof_cl_mem 8;
           EvWtime;
           EvEnqueueNDRangeKernel 2 4 1 LENGTH;
           EvFinish 2;
           EvWtime;
           EvEnqueueReadBuffer 2 8 CL_TRUE 0 (sizeof_float * LENGTH) result_opencl ]
      ++ after.
Proof. apply (data_path_order sample_environment). reflexivity. Defined.

(** X17. On a run whose checked calls all succeed the timer is read four
    times.  The time printed for the sequential code is the fourth reading
    minus the third, and the ratio printed is that time divided by the time
    of the kernel, the second reading minus the first.  No OpenCL call is
    made between the third and the fourth reading: in the trace they stand
    next to each other, after the readback and before the first release.
    The trace holds OpenCL calls and timer readings only, so this says
    nothing of what the host computes between the two readings. *)
Theorem sequential_timing_interval E :
  accepts E = true →
  w_clock (run E).2 = 4%nat
  ∧ (∃ before after,
       w_trace (run E).2
       = before
         ++ [ EvEnqueueReadBuffer 2 8 CL_TRUE 0 (sizeof_float * LENGTH) result_opencl;
              EvWtime; EvWtime; EvReleaseMemObject 5 ]
         ++ after)
  ∧ w_stdout (run E).2 !! 3%nat
    = Some ("The sequential code ran in %lf seconds\n\n"%string,
            [PDouble (DSub (DReading (clock E 3)) (DReading (clock E 2)))])
  ∧ w_stdout (run E).2 !! 4%nat
    = Some ("The sequential time is %lfX of the OpenCL time\n\n"%string,
            [PDouble (DDiv (DSub (DReading (clock E 3)) (DReading (clock E 2)))
                           (DSub (DReading (clock E 1)) (DReading (clock E 0))))]).
Proof.
  intros Hacc. destruct (run_accepted E Hacc) as (j & p & d & _ & _ & ->).
  wsimpl. split; [reflexivity|]. split; [|split; reflexivity].
  exists (selection_trace E j ++ setup_trace (cl_device_of E p CL_DEVICE_TYPE_GPU) 1
          ++ take 15 (compute_trace LENGTH 1 2 4 5)),
         (drop 1 (cleanup_trace 1)).
  unfold device_trace. rewrite <- !app_assoc. reflexivity.
Qed.

Lemma sequential_timing_interval_witness :
  w_clock (run sample_environment).2 = 4%nat
  ∧ (∃ before after,
       w_trace (run sample_environment).2
       = before
         ++ [ EvEnqueueReadBuffer 2 8 CL_TRUE 0 (sizeof_float * LENGTH) result_opencl;
              EvWtime; EvWtime; EvReleaseMemObject 5 ]
         ++ after)
  ∧ w_stdout (run sample_environment).2 !! 3%nat
    = Some ("The sequential code ran in %lf seconds\n\n"%string,
            [PDouble (DSub (DReading (clock sample_environment 3))
                           (DReading (clock sample_environment 2)))])
  ∧ w_stdout (run sample_environment).2 !! 4%nat
    = Some ("The sequential time is %lfX of the OpenCL time\n\n"%string,
            [PDouble (DDiv (DSub (DReading (clock sample_environment 3))
                                 (DReading (clock sample_environment 2)))
                           (DSub (DReading (clock sample_environment 1))
                                 (DReading (clock sample_environment 0))))]).
Proof. apply (sequential_timing_interval sample_environment). reflexivity. Defined.
